(** * cuOptIQ: the query-to-route pipeline

    A shallow embedding of the five pipeline stages of the cuOptIQ agent
    (Query Interpreter, Data Modifier, Problem Builder, Solver Gateway,
    Orchestrator) and the properties of them that the specification
    states.

    The stages exchange untyped Python dictionaries.  They are modelled
    over a type [Py] of JSON-like values; every Python operation that can
    raise returns in the exception monad [Res].  What lives outside the
    repository (the interpreter's [int], [str] and [json.loads], its
    strings beyond ASCII, the language model, pandas on data that is not
    a list of records and its conversions of cells that are not 64-bit
    integers, the wording of the interpreter's own error messages) is a
    Section variable.  The
    remote solver is reached through events of an interaction tree, so
    that "no HTTP request is made" is the statement that the tree is a
    leaf. *)

From Stdlib Require Import ZArith List String Ascii Bool Arith Lia.
From Stdlib Require Import QArith_base DecimalString Permutation Sorted.
From ITree Require Import ITree ITreeFacts Props.Leaf Events.State Events.StateFacts.
Import ListNotations.
Import ITreeNotations.
Local Open Scope itree_scope.
Local Open Scope string_scope.
Local Open Scope Z_scope.
Set Warnings "-register-all".

(** ** Python values *)

(** A float is not-a-number, an infinity, or a finite binary fraction,
    given as the rational it is. *)
Inductive PyFloat : Type :=
| FNaN
| FInf (negative : bool)
| FFinite (q : Q).

(** The values [json.loads] produces and the stages pass around.  A
    dictionary is the list of its items in insertion order; its keys are
    strings, as in JSON. *)
Inductive Py : Type :=
| PNone
| PBool (b : bool)
| PInt (z : Z)
| PFloat (f : PyFloat)
| PStr (s : string)
| PList (l : list Py)
| PDict (d : list (string * Py)).

(** ** Exceptions *)

Inductive ExnClass : Type :=
| ValueError | TypeError | KeyError | AttributeError | OtherException.

(** An exception: its class and what [str(e)] gives. *)
Record Exn : Type := Raise { exn_class : ExnClass; exn_str : string }.

Definition Res (A : Type) : Type := (Exn + A)%type.

Definition ok {A} (a : A) : Res A := inr a.
Definition throw {A} (c : ExnClass) (msg : string) : Res A := inl (Raise c msg).

Definition and_then {A B} (m : Res A) (k : A -> Res B) : Res B :=
  match m with
  | inl e => inl e
  | inr a => k a
  end.

Notation "'let*' x ':=' m 'in' k" := (and_then m (fun x => k))
  (at level 10, x name, m at level 100, k at level 200).

(** What went wrong inside the interpreter; the message Python prints
    for it is given by the Section variable [fault_message] below. *)
Inductive Fault : Type :=
| NoAttribute (obj : Py) (attr : string)      (* obj.attr *)
| NotAContainer (obj : Py)                    (* k in obj *)
| NoItemAssignment (obj : Py) (key : string)  (* obj[key] = v *)
| NotSubscriptable (obj : Py) (key : string)  (* obj[key] *)
| MissingKey (key : string)                   (* d[key], row[key] *)
| NotSized (obj : Py)                         (* len(obj) *)
| NotAnInteger (obj : Py)                     (* range(obj), [x] * obj *)
| ConcatNone                                  (* str + None *)
| LabelsNotFound (labels : list Z)            (* DataFrame.drop *)
| NotIterable (obj : Py)                      (* for x in obj *)
| NotIndexable (obj : Py) (index : nat)       (* obj[index] *)
| Unhashable (obj : Py)                       (* d[obj], obj a list or a dict *)
| UnknownLocation (loc : Py).                 (* readable_map[loc] *)

(** ** Strings *)

Definition lower_ascii (c : ascii) : ascii :=
  let n := nat_of_ascii c in
  if (Nat.leb 65 n && Nat.leb n 90)%bool then ascii_of_nat (n + 32) else c.

(** A text is a string of bytes (UTF-8).  In a text of ASCII characters
    a byte is a character. *)
Definition is_ascii (c : ascii) : bool :=
  match c with
  | Ascii _ _ _ _ _ _ _ b7 => negb b7
  end.

Fixpoint is_ascii_text (s : string) : bool :=
  match s with
  | EmptyString => true
  | String c t => (is_ascii c && is_ascii_text t)%bool
  end.

(** [s.lower()] for a text of ASCII characters. *)
Fixpoint lower_ascii_text (s : string) : string :=
  match s with
  | EmptyString => EmptyString
  | String c t => String (lower_ascii c) (lower_ascii_text t)
  end.

(** [list(s)] for a text of ASCII characters. *)
Fixpoint ascii_chars (s : string) : list string :=
  match s with
  | EmptyString => []
  | String c t => String c EmptyString :: ascii_chars t
  end.

(** [needle in hay] for two strings. *)
Fixpoint contains (needle hay : string) : bool :=
  (prefix needle hay ||
   match hay with
   | EmptyString => false
   | String _ t => contains needle t
   end)%bool.

(** [s.find(c)]: the first position of [c], or -1. *)
Fixpoint find (c : ascii) (s : string) : Z :=
  match s with
  | EmptyString => -1
  | String a t =>
      if Ascii.eqb a c then 0
      else let r := find c t in if r <? 0 then -1 else r + 1
  end.

(** [s.rfind(c)]: the last position of [c], or -1. *)
Fixpoint rfind (c : ascii) (s : string) : Z :=
  match s with
  | EmptyString => -1
  | String a t =>
      let r := rfind c t in
      if 0 <=? r then r + 1
      else if Ascii.eqb a c then 0 else -1
  end.

(** [s[i:j]] for [0 <= i < j]. *)
Definition slice (s : string) (i j : Z) : string :=
  substring (Z.to_nat i) (Z.to_nat (j - i)) s.

(** [f"{n}"] for a row index. *)
Definition show_nat (n : nat) : string := NilEmpty.string_of_uint (Nat.to_uint n).

(** ** Dictionaries *)

Fixpoint dict_get {A} (k : string) (d : list (string * A)) : option A :=
  match d with
  | [] => None
  | (k', v) :: t => if String.eqb k' k then Some v else dict_get k t
  end.

(** [d[k] = v]: the value is replaced where the key stands, or the item
    is added at the end. *)
Fixpoint dict_set {A} (k : string) (v : A) (d : list (string * A)) : list (string * A) :=
  match d with
  | [] => [(k, v)]
  | (k', v') :: t =>
      if String.eqb k' k then (k, v) :: t else (k', v') :: dict_set k v t
  end.

Definition is_str (k : string) (v : Py) : bool :=
  match v with
  | PStr s => String.eqb s k
  | _ => false
  end.

(** Python's truth value of an object. *)
Definition truthy (v : Py) : bool :=
  match v with
  | PNone => false
  | PBool b => b
  | PInt z => negb (z =? 0)
  | PFloat (FFinite q) => negb (Qnum q =? 0)
  | PFloat _ => true
  | PStr s => negb (String.eqb s "")
  | PList l => match l with [] => false | _ => true end
  | PDict d => match d with [] => false | _ => true end
  end.

(** The value at a path of keys, through nested dictionaries. *)
Fixpoint py_path (keys : list string) (v : Py) : option Py :=
  match keys with
  | [] => Some v
  | k :: ks =>
      match v with
      | PDict d =>
          match dict_get k d with
          | Some v' => py_path ks v'
          | None => None
          end
      | _ => None
      end
  end.

(** ** Tables (pandas) *)

(** A row of a table: its cells by column name.  A table is the list of
    its rows; the index of a table built from a list or re-indexed is
    0, 1, ..., so a row's label is its position. *)
Definition Row : Type := list (string * Py).
Definition Frame : Type := list Row.

(** The columns of a table built from records: the keys of the records
    in the order in which they are first seen. *)
Definition columns (rows : list Row) : list string :=
  rev (nodup string_dec (rev (List.concat (List.map (List.map Datatypes.fst) rows)))).

(** The cell of a record in a column: NaN when the record has no such
    key. *)
Definition cell (c : string) (r : Row) : Py :=
  match dict_get c r with
  | Some v => v
  | None => PFloat FNaN
  end.

Definition column_of (c : string) (rows : list Row) : list Py := List.map (cell c) rows.

(** An integer that fits the dtype int64. *)
Definition int64 (v : Py) : bool :=
  match v with
  | PInt z => ((- 2 ^ 63 <=? z) && (z <? 2 ^ 63))%bool
  | _ => false
  end.

(** A table all of whose cells are 64-bit integers: every column has
    the dtype int64 (or holds these integers as objects), and pandas
    hands the cells back as they are. *)
Definition int_table (f : Frame) : bool :=
  forallb (fun r => forallb (fun kv => int64 (Datatypes.snd kv)) r) f.

(** The records over the columns of all of them. *)
Definition aligned (rows : list Row) : Frame :=
  List.map (fun r => List.map (fun c => (c, cell c r)) (columns rows)) rows.

(** Every record has every key of the others. *)
Definition has_key (k : string) (r : Row) : bool :=
  existsb (String.eqb k) (List.map Datatypes.fst r).

Definition uniform_keys (rows : list Row) : bool :=
  forallb (fun r =>
             forallb (fun r' => forallb (fun k => has_key k r') (List.map Datatypes.fst r))
                     rows)
          rows.

(** [df.to_dict('records')]. *)
Definition to_records (f : Frame) : Py := PList (List.map PDict f).

(** [pd.DataFrame({name: column, ...})] for columns of integers. *)
Definition frame_of_columns (cols : list (string * list Z)) : Frame :=
  let n := match cols with [] => O | (_, c) :: _ => List.length c end in
  List.map (fun i => List.map (fun nc => (Datatypes.fst nc, PInt (nth i (Datatypes.snd nc)
      0))) cols) (seq 0 n).

(** The records of a list of dictionaries. *)
Fixpoint as_records (l : list Py) : option (list Row) :=
  match l with
  | [] => Some []
  | PDict d :: t =>
      match as_records t with
      | Some rs => Some (d :: rs)
      | None => None
      end
  | _ :: _ => None
  end.

(** The labels a [drop] is given, when they are integers. *)
Fixpoint as_ints (l : list Py) : option (list Z) :=
  match l with
  | [] => Some []
  | PInt z :: t =>
      match as_ints t with
      | Some zs => Some (z :: zs)
      | None => None
      end
  | _ :: _ => None
  end.

Definition int_labels (v : Py) : option (list Z) :=
  match v with
  | PInt z => Some [z]
  | PList l => as_ints l
  | _ => None
  end.

Definition mem_Z (z : Z) (l : list Z) : bool := existsb (Z.eqb z) l.

(** The rows whose label (position, from [i]) is not among [labels]. *)
Fixpoint drop_rows (labels : list Z) (i : Z) (f : Frame) : Frame :=
  match f with
  | [] => []
  | r :: t =>
      if mem_Z i labels then drop_rows labels (i + 1) t
      else r :: drop_rows labels (i + 1) t
  end.

Definition is_label (n : nat) (z : Z) : bool := ((0 <=? z) && (z <? Z.of_nat n))%bool.

(** The built-in dataset of the Data Modifier. *)
Definition default_transport_data : Frame :=
  frame_of_columns
    [ ("pickup_location",       [1;  1;  3;  2;  3;  4; 1; 2; 2]);
      ("delivery_location",     [5;  5;  5;  6;  7;  7; 8; 8; 8]);
      ("order_demand",          [1;  1;  1;  1;  1;  1; 1; 1; 1]);
      ("earliest_pickup",       [0;  0;  0;  0;  0;  0; 0; 0; 0]);
      ("latest_pickup",         [10; 20; 30; 10; 20; 30; 10; 20; 30]);
      ("pickup_service_time",   [2;  2;  2;  2;  2;  2; 2; 2; 2]);
      ("earliest_delivery",     [0;  0;  0;  0;  0;  0; 0; 0; 0]);
      ("latest_delivery",       [55; 55; 55; 55; 55; 55; 55; 55; 55]);
      ("delivery_service_time", [2;  2;  2;  2;  2;  2; 2; 2; 2]) ].

(** What reading a CSV file gives. *)
Inductive ReadOutcome : Type :=
| ReadRaises (e : Exn)
| ReadFrame (f : Frame).

(** The file system as the Data Modifier sees it: for each of the four
    candidate paths, whether the file exists and what [pd.read_csv]
    makes of it, and the same for the directories of [os.walk] that hold
    the file, in the order of the walk. *)
Record Store : Type := {
  potential_paths : list (option ReadOutcome);
  walk : list ReadOutcome
}.

Fixpoint first_existing (paths : list (option ReadOutcome)) : option ReadOutcome :=
  match paths with
  | [] => None
  | Some r :: _ => Some r
  | None :: t => first_existing t
  end.

(** ** The solver's input *)

(** The lists the Problem Builder fills, in the names of the source. *)
Record SolverProblem : Type := {
  task_locations : list Z;
  demand : list Z;
  task_time_windows : list (Z * Z);
  service_times : list Z;
  pickup_and_delivery_pairs : list (Z * Z);
  vehicle_locations : list (Z * Z);
  capacities : list Py;
  vehicle_time_windows : list (Z * Z)
}.

Definition ints (l : list Z) : Py := PList (List.map PInt l).
Definition pair_list (p : Z * Z) : Py := PList [PInt (Datatypes.fst p); PInt (Datatypes.snd p)].
Definition pairs (l : list (Z * Z)) : Py := PList (List.map pair_list l).

Definition WAYPOINT_GRAPH : Py :=
  PDict
    [ ("edges", ints [1; 2; 3; 4; 5; 6; 7; 8; 0; 5; 6; 7; 8; 0; 5; 6; 7; 8; 0; 5; 6; 7; 8; 0;
                      5; 6; 7; 8; 0; 1; 2; 3; 4; 0; 1; 2; 3; 4; 0; 1; 2; 3; 4; 0; 1; 2; 3; 4]);
      ("offsets", ints [0; 8; 13; 18; 23; 28; 33; 38; 43; 48]);
      ("weights", ints [1; 2; 3; 4; 1; 2; 3; 4; 1; 2; 3; 3; 4; 2; 3; 4; 4; 5; 3; 5; 4; 4; 4; 4;
                        5; 4; 3; 3; 1; 2; 3; 5; 5; 2; 3; 4; 4; 4; 3; 3; 4; 4; 3; 4; 4; 5; 4;
                            3]) ].

(** The dictionary [cuopt_input] of the source. *)
Definition cuopt_input_dict (p : SolverProblem) : Py :=
  PDict
    [ ("cost_waypoint_graph_data",
        PDict [("waypoint_graph", PDict [("0", WAYPOINT_GRAPH)])]);
      ("task_data",
        PDict [ ("task_locations", ints (task_locations p));
                ("demand", PList [ints (demand p)]);
                ("task_time_windows", pairs (task_time_windows p));
                ("service_times", ints (service_times p));
                ("pickup_and_delivery_pairs", pairs (pickup_and_delivery_pairs p)) ]);
      ("fleet_data",
        PDict [ ("vehicle_locations", pairs (vehicle_locations p));
                ("capacities", PList [PList (capacities p)]);
                ("vehicle_time_windows", pairs (vehicle_time_windows p)) ]);
      ("solver_config", PDict [("time_limit", PInt 5)]) ].

Definition error_dict (msg : string) : Py := PDict [("error", PStr msg)].

(** The task lists while the rows are processed. *)
Record Tasks : Type := {
  t_locations : list Z;
  t_demand : list Z;
  t_time_windows : list (Z * Z);
  t_service_times : list Z;
  t_pairs : list (Z * Z)
}.

Definition no_tasks : Tasks :=
  {| t_locations := []; t_demand := []; t_time_windows := [];
     t_service_times := []; t_pairs := [] |}.

(** The nine fields of an order, as [int] returned them. *)
Record Order : Type := {
  pickup_loc : Z;
  delivery_loc : Z;
  order_demand : Z;
  earliest_pickup : Z;
  latest_pickup : Z;
  pickup_service : Z;
  earliest_delivery : Z;
  latest_delivery : Z;
  delivery_service : Z
}.

(** The appends of one iteration: the pickup task, the delivery task,
    and the pair [[2*idx, 2*idx + 1]]. *)
Definition append_order (idx : nat) (o : Order) (acc : Tasks) : Tasks :=
  let i := Z.of_nat idx in
  {| t_locations := t_locations acc ++ [pickup_loc o; delivery_loc o];
     t_demand := t_demand acc ++ [order_demand o; - order_demand o];
     t_time_windows :=
       t_time_windows acc ++ [(earliest_pickup o, latest_pickup o);
                              (earliest_delivery o, latest_delivery o)];
     t_service_times := t_service_times acc ++ [pickup_service o; delivery_service o];
     t_pairs := t_pairs acc ++ [(2 * i, 2 * i + 1)] |}.

Definition is_value_or_type_error (e : Exn) : bool :=
  match exn_class e with
  | ValueError | TypeError => true
  | _ => false
  end.

(** ** The remote solver *)

(** The body of a response: what [response.json()] gives, any JSON
    value, or the exception it raises. *)
Inductive Body : Type :=
| BodyRaises (e : Exn)
| BodyJson (solution : Py).

(** A response of the server: the status code, the header NVCF-REQID,
    what [raise_for_status] says when the status is an error, and the
    body. *)
Record HttpResponse : Type := {
  status_code : Z;
  nvcf_reqid : option string;
  http_error : string;
  body : Body
}.

Inductive HttpOutcome : Type :=
| HttpRaises (e : Exn)            (* the request itself fails *)
| HttpReply (response : HttpResponse).

Definition Headers : Type := list (string * string).

(** The calls the gateway makes to the outside. *)
Variant httpE : Type -> Type :=
| HttpPost (url : string) (headers : Headers) (json : Py) : httpE HttpOutcome
| HttpGet (url : string) (headers : Headers) : httpE HttpOutcome
| Sleep (seconds : Z) : httpE unit.

Definition CUOPT_INVOKE_URL : string := "https://optimize.api.nvidia.com/v1/nvidia/cuopt".
Definition CUOPT_STATUS_URL : string := "https://optimize.api.nvidia.com/v1/status/".

Definition readable_map (loc : Z) : option string :=
  match loc with
  | 0 => Some ": Forklift"
  | 1 => Some ": Insulation"
  | 2 => Some ": Weather Stripping"
  | 3 => Some ": Fiber Glass"
  | 4 => Some ": Shingles"
  | 5 => Some ": Truck 1"
  | 6 => Some ": Truck 2"
  | 7 => Some ": Truck 3"
  | 8 => Some ": Truck 4"
  | _ => None
  end.

(** [processed_solution]: what [.get] gave for the status, the cost
    and the vehicle data of the solver's response, and the readable
    routes by vehicle id. *)
Record Solution : Type := {
  sol_status : Py;
  sol_solution_cost : Py;
  sol_vehicle_data : Py;
  readable_routes : list (string * list string)
}.

(** A vehicle of the shape the API documents: the locations of its
    route, integers, and the activity tag of each step, strings
    ("Depot", "Pickup", "Delivery", "w" for a wait). *)
Record VehicleData : Type := {
  route : list Z;
  type : list string
}.

Fixpoint as_strs (l : list Py) : option (list string) :=
  match l with
  | [] => Some []
  | PStr s :: t =>
      match as_strs t with
      | Some ss => Some (s :: ss)
      | None => None
      end
  | _ :: _ => None
  end.

(** The route and the tags of an entry of [vehicle_data], when it has
    that shape. *)
Definition vehicle_of (vehicle : Py) : option VehicleData :=
  match vehicle with
  | PDict d =>
      match dict_get "route" d, dict_get "type" d with
      | Some (PList r), Some (PList t) =>
          match as_ints r, as_strs t with
          | Some route, Some type => Some {| route := route; type := type |}
          | _, _ => None
          end
      | _, _ => None
      end
  | _ => None
  end.

(** The float that is an integer, as that integer: the key it is in a
    dictionary with integer keys. *)
Definition float_integer (f : PyFloat) : option Z :=
  match f with
  | FFinite q =>
      if Qnum q mod Zpos (Qden q) =? 0 then Some (Qnum q / Zpos (Qden q)) else None
  | _ => None
  end.

(** What [_solve_fn] returns: [{"error": ...}] or
    [{"solution": ..., "raw_response": ...}]. *)
Inductive SolveResult : Type :=
| SolveError (error : Py)
| Solved (solution : Solution) (raw_response : Py).

(** What the gateway does once its input is checked. *)
Inductive Checked : Type :=
| UpstreamError (error_msg : Py)                 (* return {"error": error_msg} *)
| Submit (api_key : string) (cuopt_input : Py).

Record CuoptSolverConfig : Type := { cuopt_api_key : string }.

(** ** The orchestrator's state *)

Record AgentConfig : Type := {
  agent_cuopt_api_key : string;
  visualization_enabled : bool
}.

Record FactoryState : Type := {
  query : string;
  query_type : string;
  solution : option Solution;      (* None is the empty dictionary *)
  errors : list Py;
  logs : list string;
  visualization_timestamp : option string
}.

(** The dictionary [process_query] returns. *)
Record QueryResult : Type := {
  res_query_type : string;
  res_solution : option Solution;
  res_errors : list Py;
  res_logs : list string;
  res_visualization_timestamp : option string
}.

(** ** The outside world of the Query Interpreter *)

Inductive LlmOutcome : Type :=
| LlmRaises (e : Exn)               (* llm.ainvoke raises *)
| LlmContent (content : string).    (* response.content *)

Inductive JsonOutcome : Type :=
| JsonValue (v : Py)
| JSONDecodeError (e : Exn)
| JsonRaises (e : Exn).             (* any other exception *)

(** ** Sample surroundings

    Concrete choices for what the pipeline takes from outside, used to
    run the definitions on examples. *)

Definition sample_fault_message (f : Fault) : string := "fault".

Definition llm_unavailable (q : string) : LlmOutcome :=
  LlmRaises (Raise OtherException "Connection error.").

Definition json_rejects (s : string) : JsonOutcome :=
  JSONDecodeError (Raise ValueError "Expecting value: line 1 column 1 (char 0)").

Definition pandas_rejects (data : Py) : Res Frame :=
  throw ValueError "DataFrame constructor not properly called!".

Definition drop_rejects (f : Frame) (labels : Py) : Res Frame :=
  throw KeyError "not found in axis".

(** A stand-in for [int] that knows integers and booleans only. *)
Definition int_of_integer (v : Py) : Res Z :=
  match v with
  | PInt z => ok z
  | PBool b => ok (if b then 1 else 0)
  | _ => throw TypeError "int() argument must be a string or a real number"
  end.

Definition charts_drawn (state : FactoryState) (prefix : string) : option Exn := None.

Definition sample_timestamp : string := "20250101_120000".

(** No CSV file anywhere; a CSV file with a header and no row; a CSV
    file pandas cannot read. *)
Definition no_csv : Store :=
  {| potential_paths := [None; None; None; None]; walk := [] |}.

Definition empty_csv : Store :=
  {| potential_paths := [Some (ReadFrame []); None; None; None]; walk := [] |}.

Definition unreadable_csv : Store :=
  {| potential_paths :=
       [None; Some (ReadRaises (Raise OtherException "No columns to parse from file"));
        None; None];
     walk := [] |}.

(** A change request that removes and adds nothing. *)
Definition noop_request : list (string * Py) :=
  [ ("query_type", PStr "route_optimization");
    ("transport_data_changes", PDict [("remove_orders", PDict [("needed", PBool false)])]);
    ("new_orders", PList []) ].

(** The default orders with a fleet of two. *)
Definition two_forklift_input : Py :=
  PDict [ ("transport_data", to_records default_transport_data);
          ("fleet_changes",
            PDict [("modify_fleet_size",
                     PDict [("needed", PBool true); ("new_size", PInt 2)])]) ].

(** A reply of the solver for one vehicle that waits once. *)
Definition sample_vehicle : VehicleData :=
  {| route := [0; 1; 1; 5; 0];
     type := ["Depot"; "Pickup"; "w"; "Delivery"; "Depot"] |}.

Definition sample_vehicle_json : Py :=
  PDict [ ("task_id", PList [PStr "Depot"; PStr "0"; PStr "0"; PStr "1"; PStr "Depot"]);
          ("route", ints (route sample_vehicle));
          ("type", PList (List.map PStr (type sample_vehicle))) ].

Definition sample_reply : Py :=
  PDict [("response",
           PDict [("solver_response",
                    PDict [ ("status", PInt 0);
                            ("solution_cost", PInt 6);
                            ("vehicle_data", PDict [("0", sample_vehicle_json)]) ])])].

Definition accepted_response : HttpResponse :=
  {| status_code := 202; nvcf_reqid := Some "req-1"; http_error := "";
     body := BodyRaises (Raise ValueError "Expecting value: line 1 column 1 (char 0)") |}.

Definition solved_response : HttpResponse :=
  {| status_code := 200; nvcf_reqid := None; http_error := "";
     body := BodyJson sample_reply |}.

Definition sample_solution : Solution :=
  {| sol_status := PInt 0;
     sol_solution_cost := PInt 6;
     sol_vehicle_data := PDict [("0", sample_vehicle_json)];
     readable_routes :=
       [("0", ["Depot: Forklift"; "Pickup: Insulation"; "Delivery: Truck 1";
               "Depot: Forklift"])] |}.

(** What the Data Modifier returns for a CSV file without rows and the
    keyword default of the analysis, and the result of the run on it
    when there is no API key. *)
Definition empty_order_set : list (string * Py) :=
  [ ("transport_data", PList []);
    ("fleet_changes",
      PDict [ ("modify_capacity", PDict [("needed", PBool false)]);
              ("modify_fleet_size", PDict [("needed", PBool false)]) ]);
    ("query_type", PStr "route_optimization") ].

Definition masked_result : QueryResult :=
  {| res_query_type := "route_optimization";
     res_solution := None;
     res_errors := [PStr "Error in CuOpt solver: No API key provided for NVIDIA CuOpt"];
     res_logs := ["Visualizations created successfully"];
     res_visualization_timestamp := Some sample_timestamp |}.


Definition wrapped_answer : string := "Here it is: {} Done.".

Definition json_object_only (s : string) : JsonOutcome :=
  if String.eqb s "{}" then JsonValue (PDict [])
  else JSONDecodeError (Raise ValueError "Expecting value: line 1 column 1 (char 0)").

(** An order, and the same order with the name of the pickup location
    in place of its number. *)
Definition sample_order : Row :=
  [ ("pickup_location", PInt 1); ("delivery_location", PInt 5);
    ("order_demand", PInt 1);
    ("earliest_pickup", PInt 0); ("latest_pickup", PInt 10);
    ("pickup_service_time", PInt 1);
    ("earliest_delivery", PInt 0); ("latest_delivery", PInt 20);
    ("delivery_service_time", PInt 1) ].

Definition text_order : Row :=
  [ ("pickup_location", PStr "Insulation"); ("delivery_location", PInt 5);
    ("order_demand", PInt 1);
    ("earliest_pickup", PInt 0); ("latest_pickup", PInt 10);
    ("pickup_service_time", PInt 1);
    ("earliest_delivery", PInt 0); ("latest_delivery", PInt 20);
    ("delivery_service_time", PInt 1) ].

(** Change requests: the removal of the orders at some positions, and
    the addition of one order. *)
Definition removal_of (labels : list Z) : list (string * Py) :=
  [ ("transport_data_changes",
      PDict [("remove_orders",
               PDict [("needed", PBool true);
                      ("order_indices", PList (List.map PInt labels))])]) ].

Definition addition_request : list (string * Py) :=
  [ ("transport_data_changes", PDict [("remove_orders", PDict [("needed", PBool false)])]);
    ("new_orders", PList [PDict sample_order]) ].

(** The default orders with a fleet size that is a word, and with a
    fleet of none. *)
Definition text_fleet_input : Py :=
  PDict [ ("transport_data", to_records default_transport_data);
          ("fleet_changes",
            PDict [("modify_fleet_size",
                     PDict [("needed", PBool true); ("new_size", PStr "two")])]) ].

Definition zero_fleet_input : Py :=
  PDict [ ("transport_data", to_records default_transport_data);
          ("fleet_changes",
            PDict [("modify_fleet_size",
                     PDict [("needed", PBool true); ("new_size", PInt 0)])]) ].

(** A problem for the solver, and the failure of a connection. *)
Definition sample_problem : Py := PDict [("task_data", PDict [])].

Definition connection_refused : Exn := Raise OtherException "Connection refused".

(** Stand-ins for [int] that also reads the decimal strings and for
    [str], and a directory without charts. *)
Definition int_of_text (v : Py) : Res Z :=
  match v with
  | PStr s =>
      match NilZero.int_of_string s with
      | Some d => ok (Z.of_int d)
      | None => throw ValueError "invalid literal for int() with base 10"
      end
  | _ => int_of_integer v
  end.

Definition str_of_value (v : Py) : string :=
  match v with
  | PInt z => NilZero.string_of_int (Z.to_int z)
  | PBool true => "True"
  | PBool false => "False"
  | PStr s => s
  | _ => "None"
  end.

Definition no_chart_files (path : string) : option (Res string) := None.

(** The result of a run with a solution, and one whose only vehicle has
    a name in place of a number. *)
Definition solved_result : QueryResult :=
  {| res_query_type := "route_optimization";
     res_solution := Some sample_solution;
     res_errors := [];
     res_logs := [];
     res_visualization_timestamp := None |}.

Definition named_vehicle_solution : Solution :=
  {| sol_status := PInt 0;
     sol_solution_cost := PInt 6;
     sol_vehicle_data := PDict [("first", sample_vehicle_json)];
     readable_routes :=
       [("first", ["Depot: Forklift"; "Pickup: Insulation"; "Delivery: Truck 1";
                   "Depot: Forklift"])] |}.

Definition named_vehicle_result : QueryResult :=
  {| res_query_type := "route_optimization";
     res_solution := Some named_vehicle_solution;
     res_errors := [];
     res_logs := [];
     res_visualization_timestamp := None |}.

(** Stand-ins for Python on texts with characters outside ASCII (the
    texts used below are ASCII); for pandas on columns and rows that
    hold a string (the dtype is object and the cells are kept as they
    are) and on a table without rows; and for the exception of the
    loop over vehicles that are not in a dictionary. *)
Definition ascii_only_lower (s : string) : string := s.

Definition ascii_only_chars (s : string) : list string := [s].

Definition keep_objects (column : list Py) (v : Py) : Py := v.

Definition keep_row (f : Frame) (r : Row) (v : Py) : Py := v.

Definition concat_rows (a b : Frame) : Res Frame := ok b.

Definition loop_fails (vehicles : Py) : Exn :=
  Raise TypeError "list indices must be integers or slices, not str".

Section Pipeline.

Set Default Proof Using "Type".

(** The interpreter's message for a fault. *)
Variable fault_message : Fault -> string.

Definition fault {A} (c : ExnClass) (f : Fault) : Res A :=
  throw c (fault_message f).

(** Python's strings are strings of characters.  On a text of ASCII
    characters [lower] and [list] are as above; on any other text they
    are Python's: [str_lower s] is [s.lower()] and [py_chars s] is
    [list(s)] there. *)
Variable str_lower : string -> string.
Variable py_chars : string -> list string.

Definition lower (s : string) : string :=
  if is_ascii_text s then lower_ascii_text s else str_lower s.

Definition chars (s : string) : list string :=
  if is_ascii_text s then ascii_chars s else py_chars s.

(** [k in obj], [k] a string. *)
Definition py_contains (k : string) (obj : Py) : Res bool :=
  match obj with
  | PDict d => ok (match dict_get k d with Some _ => true | None => false end)
  | PList l => ok (existsb (is_str k) l)
  | PStr s => ok (contains k s)
  | _ => fault TypeError (NotAContainer obj)
  end.

(** [obj[k]], [k] a string. *)
Definition py_getitem (obj : Py) (k : string) : Res Py :=
  match obj with
  | PDict d =>
      match dict_get k d with
      | Some v => ok v
      | None => fault KeyError (MissingKey k)
      end
  | _ => fault TypeError (NotSubscriptable obj k)
  end.

(** [obj[k] = v], [k] a string: the object after the assignment. *)
Definition py_setitem (obj : Py) (k : string) (v : Py) : Res Py :=
  match obj with
  | PDict d => ok (PDict (dict_set k v d))
  | _ => fault TypeError (NoItemAssignment obj k)
  end.

(** [obj.get(k, default)]. *)
Definition py_get (obj : Py) (k : string) (default : Py) : Res Py :=
  match obj with
  | PDict d =>
      ok (match dict_get k d with Some v => v | None => default end)
  | _ => fault AttributeError (NoAttribute obj "get")
  end.

(** [obj[k1][k2] = v]: the inner object is the one stored in [obj], so
    the assignment shows in [obj]. *)
Definition py_setitem2 (obj : Py) (k1 k2 : string) (v : Py) : Res Py :=
  let* inner := py_getitem obj k1 in
  let* inner' := py_setitem inner k2 v in
  py_setitem obj k1 inner'.

(** *** create_default_analysis *)

Definition default_analysis : Py :=
  PDict
    [ ("query_type", PStr "route_optimization");
      ("transport_data_changes",
        PDict [ ("modify_service_times", PDict [("needed", PBool false)]);
                ("modify_time_windows", PDict [("needed", PBool false)]);
                ("remove_orders", PDict [("needed", PBool false)]) ]);
      ("fleet_changes",
        PDict [ ("modify_capacity", PDict [("needed", PBool false)]);
                ("modify_fleet_size", PDict [("needed", PBool false)]) ]);
      ("required_analyses", PDict [("visualization_needed", PBool true)]) ].

(** The assignment [analysis["fleet_changes"][k] = v] on the literal
    above, where it cannot raise. *)
Definition set_fleet_change (analysis : Py) (k : string) (v : Py) : Py :=
  match py_setitem2 analysis "fleet_changes" k v with
  | inr a => a
  | inl _ => analysis
  end.

Definition create_default_analysis (query : string) : Py :=
  let analysis := default_analysis in
  let q := lower query in
  let analysis :=
    if (contains "2 forklifts" q || contains "two forklifts" q)%bool then
      set_fleet_change analysis "modify_fleet_size"
        (PDict [("needed", PBool true); ("new_size", PInt 2)])
    else if (contains "3 forklifts" q || contains "three forklifts" q)%bool then
      set_fleet_change analysis "modify_fleet_size"
        (PDict [("needed", PBool true); ("new_size", PInt 3)])
    else analysis in
  if (contains "two items" q || contains "2 items" q || contains "carry two" q)%bool then
    set_fleet_change analysis "modify_capacity"
      (PDict [("needed", PBool true); ("new_capacity", PInt 2)])
  else analysis.

(** *** _analyze_fn *)

(** The language model, as a function of the query (the prompt is a
    fixed template around it), and [json.loads]. *)
Variable llm : string -> LlmOutcome.
Variable json_loads : string -> JsonOutcome.

(** The nested [try] around [json.loads]: the text as it is, then the
    text between the first opening and the last closing brace, then
    the keyword default. *)
Definition parse_analysis (query content : string) : Res Py :=
  match json_loads content with
  | JsonValue a => ok a
  | JsonRaises e => inl e
  | JSONDecodeError _ =>
      let start_idx := find "{"%char content in
      let end_idx := rfind "}"%char content + 1 in
      if ((0 <=? start_idx) && (start_idx <? end_idx))%bool then
        match json_loads (slice content start_idx end_idx) with
        | JsonValue a => ok a
        | _ => ok (create_default_analysis query)
        end
      else ok (create_default_analysis query)
  end.

(** "Force visualization_needed to True". *)
Definition force_visualization (analysis : Py) : Res Py :=
  let* present := py_contains "required_analyses" analysis in
  let* analysis :=
    if present then ok analysis
    else py_setitem analysis "required_analyses" (PDict []) in
  py_setitem2 analysis "required_analyses" "visualization_needed" (PBool true).

Definition analyze_body (query : string) : Res Py :=
  match llm query with
  | LlmRaises e => inl e
  | LlmContent content =>
      let* analysis := parse_analysis query content in
      force_visualization analysis
  end.

Definition _analyze_fn (query : string) : Py :=
  match analyze_body query with
  | inr analysis => analysis
  | inl _ => create_default_analysis query
  end.


(** [len(obj)]. *)
Definition py_len (obj : Py) : Res nat :=
  match obj with
  | PList l => ok (List.length l)
  | PDict d => ok (List.length d)
  | PStr s => ok (List.length (chars s))
  | _ => fault TypeError (NotSized obj)
  end.

(** [range(obj)] and [[x] * obj]: how many items they give. *)
Definition py_count (obj : Py) : Res nat :=
  match obj with
  | PInt z => ok (Z.to_nat z)
  | PBool b => ok (if b then 1%nat else 0%nat)
  | _ => fault TypeError (NotAnInteger obj)
  end.

(** *** pandas *)

(** pandas on what is not a list of dictionaries ([pd.DataFrame]) and
    on labels that are not integers ([DataFrame.drop]). *)
Variable pd_DataFrame_other : Py -> Res Frame.
Variable pd_drop_other : Frame -> Py -> Res Frame.

(** pandas gives every column one dtype.  A column of 64-bit integers
    keeps its cells.  In any other column the cells are converted (an
    integer next to a float or to a missing cell becomes a float, None
    becomes NaN in a column of numbers, ...): [pd_infer column v] is
    the value pandas stores for the cell [v] of such a column. *)
Variable pd_infer : list Py -> Py -> Py.

Definition stored (column : list Py) (v : Py) : Py :=
  if forallb int64 column then v else pd_infer column v.

(** [pd.DataFrame(rows)] for a list of records: the columns are the
    keys of all the records, a record without a key gets NaN in that
    column, and each column gets its dtype. *)
Definition frame_of_records (rows : list Row) : Frame :=
  List.map (fun r =>
         List.map (fun c => (c, stored (column_of c rows) (cell c r))) (columns rows))
      rows.

(** [pd.concat([a, b], ignore_index=True)]: the rows of [a], then the
    rows of [b], over the columns of both, each column with the dtype
    that fits its two parts.  The columns of a table without rows are
    not known from its rows: that case is left to pandas. *)
Variable pd_concat_other : Frame -> Frame -> Res Frame.

Definition pd_concat (a b : Frame) : Res Frame :=
  match a with
  | [] => pd_concat_other a b
  | _ :: _ => ok (frame_of_records (a ++ b))
  end.

(** [df.iterrows()]: each row as a Series, which has one dtype for all
    its cells.  In a table of 64-bit integers the cells are unchanged;
    in any other table they are converted to the common dtype of the
    columns: [pd_series f r v] is the value of the cell [v] of the row
    [r] of such a table [f]. *)
Variable pd_series : Frame -> Row -> Py -> Py.

Definition iterrows (f : Frame) : list Row :=
  if int_table f then f
  else List.map (fun r => List.map (fun kv => (Datatypes.fst kv,
                                               pd_series f r (Datatypes.snd kv))) r) f.

Definition pd_DataFrame (data : Py) : Res Frame :=
  match data with
  | PList l =>
      match as_records l with
      | Some rows => ok (frame_of_records rows)
      | None => pd_DataFrame_other data
      end
  | _ => pd_DataFrame_other data
  end.

(** [df.drop(labels).reset_index(drop=True)]: a label that is not in
    the index raises; the rows left are numbered anew. *)
Definition pd_drop (f : Frame) (labels : Py) : Res Frame :=
  match int_labels labels with
  | Some zs =>
      match filter (fun z => negb (is_label (List.length f) z)) zs with
      | [] => ok (drop_rows zs 0 f)
      | missing => fault KeyError (LabelsNotFound missing)
      end
  | None => pd_drop_other f labels
  end.

(** *** _modify_data_fn *)

(** The search for the CSV file, and the built-in data when there is
    none. *)
Definition load_transport_data (st : Store) : Res Frame :=
  match first_existing (potential_paths st) with
  | Some (ReadFrame f) => ok f
  | Some (ReadRaises e) => inl e
  | None =>
      match walk st with
      | ReadFrame f :: _ => ok f
      | ReadRaises e :: _ => inl e
      | [] => ok default_transport_data
      end
  end.

(** [changes and changes.get("needed", False)]. *)
Definition edit_needed (changes : Py) : Res bool :=
  if truthy changes then
    let* needed := py_get changes "needed" (PBool false) in
    ok (truthy needed)
  else ok false.

Definition modify_body (st : Store) (analysis_result : Py) : Res Py :=
  let* transport_data := load_transport_data st in
  let modified_data := transport_data in
  let* transport_data_changes :=
    py_get analysis_result "transport_data_changes" (PDict []) in
  let* new_orders := py_get analysis_result "new_orders" (PList []) in
  (* order removal *)
  let* remove_orders := py_get transport_data_changes "remove_orders" (PDict []) in
  let* remove := edit_needed remove_orders in
  let* modified_data :=
    if remove then
      let* order_indices := py_get remove_orders "order_indices" (PList []) in
      if truthy order_indices then pd_drop modified_data order_indices
      else ok modified_data
    else ok modified_data in
  (* new orders *)
  let* modified_data :=
    if truthy new_orders then
      let* new_orders_df := pd_DataFrame new_orders in
      let* modified_data := pd_concat modified_data new_orders_df in
      let* _ := py_len new_orders in
      ok modified_data
    else ok modified_data in
  (* service times and time windows: only logged *)
  let* service_time_changes :=
    py_get transport_data_changes "modify_service_times" (PDict []) in
  let* _ := edit_needed service_time_changes in
  let* time_window_changes :=
    py_get transport_data_changes "modify_time_windows" (PDict []) in
  let* _ := edit_needed time_window_changes in
  let records := to_records modified_data in
  let* fleet_changes := py_get analysis_result "fleet_changes" (PDict []) in
  let* query_type := py_get analysis_result "query_type" (PStr "route_optimization") in
  ok (PDict [ ("transport_data", records);
              ("fleet_changes", fleet_changes);
              ("query_type", query_type) ]).

Definition _modify_data_fn (st : Store) (analysis_result : Py) : Py :=
  match modify_body st analysis_result with
  | inr result => result
  | inl e => error_dict ("Data modification failed: " ++ exn_str e)
  end.

(** *** _prepare_fn *)

(** The interpreter's [int]. *)
Variable py_int : Py -> Res Z.

(** [int(row[k])]. *)
Definition int_field (row : Row) (k : string) : Res Z :=
  match dict_get k row with
  | Some v => py_int v
  | None => fault KeyError (MissingKey k)
  end.

Definition read_order (row : Row) : Res Order :=
  let* pickup_loc := int_field row "pickup_location" in
  let* delivery_loc := int_field row "delivery_location" in
  let* order_demand := int_field row "order_demand" in
  let* earliest_pickup := int_field row "earliest_pickup" in
  let* latest_pickup := int_field row "latest_pickup" in
  let* pickup_service := int_field row "pickup_service_time" in
  let* earliest_delivery := int_field row "earliest_delivery" in
  let* latest_delivery := int_field row "latest_delivery" in
  let* delivery_service := int_field row "delivery_service_time" in
  ok {| pickup_loc := pickup_loc; delivery_loc := delivery_loc;
        order_demand := order_demand;
        earliest_pickup := earliest_pickup; latest_pickup := latest_pickup;
        pickup_service := pickup_service;
        earliest_delivery := earliest_delivery; latest_delivery := latest_delivery;
        delivery_service := delivery_service |}.

(** The body of the loop with its inner [try]: a ValueError or
    TypeError is raised again as a ValueError that names the row, any
    other exception passes. *)
Definition process_row (idx : nat) (row : Row) (acc : Tasks) : Res Tasks :=
  match read_order row with
  | inr o => ok (append_order idx o acc)
  | inl e =>
      if is_value_or_type_error e then
        throw ValueError ("Invalid data in row " ++ show_nat idx ++ ": " ++ exn_str e)
      else inl e
  end.

(** [for idx, row in transport_data.iterrows()], from label [idx]. *)
Fixpoint process_rows (idx : nat) (rows : Frame) (acc : Tasks) : Res Tasks :=
  match rows with
  | [] => ok acc
  | row :: rest =>
      let* acc := process_row idx row acc in
      process_rows (S idx) rest acc
  end.

(** The validation and the conversion of [transport_data]. *)
Definition transport_frame (input_data : Py) : Res Frame :=
  let* transport_data := py_get input_data "transport_data" PNone in
  let* missing :=
    match transport_data with
    | PNone => ok true
    | _ => let* n := py_len transport_data in ok (Nat.eqb n 0)
    end in
  if missing then throw ValueError "Transport data is missing or empty"
  else
    match transport_data with
    | PList _ => pd_DataFrame transport_data
    | _ => fault AttributeError (NoAttribute transport_data "iterrows")
    end.

(** [fleet_changes.get(k, {}).get("needed")] and, when it holds,
    [fleet_changes[k][field]]; the default otherwise. *)
Definition fleet_setting (fleet_changes : Py) (k field : string) (default : Py) : Res Py :=
  let* change := py_get fleet_changes k (PDict []) in
  let* needed := py_get change "needed" PNone in
  if truthy needed then
    let* change := py_getitem fleet_changes k in
    py_getitem change field
  else ok default.

Definition prepare_body (input_data : Py) : Res SolverProblem :=
  let* transport_data := transport_frame input_data in
  let* tasks := process_rows 0 (iterrows transport_data) no_tasks in
  let* fleet_changes := py_get input_data "fleet_changes" (PDict []) in
  let* num_forklifts :=
    fleet_setting fleet_changes "modify_fleet_size" "new_size" (PInt 4) in
  let* forklift_capacity :=
    fleet_setting fleet_changes "modify_capacity" "new_capacity" (PInt 1) in
  let* n := py_count num_forklifts in
  ok {| task_locations := t_locations tasks;
        demand := t_demand tasks;
        task_time_windows := t_time_windows tasks;
        service_times := t_service_times tasks;
        pickup_and_delivery_pairs := t_pairs tasks;
        vehicle_locations := repeat (0, 0) n;
        capacities := repeat forklift_capacity n;
        vehicle_time_windows := repeat (0, 100) n |}.

Definition _prepare_fn (input_data : Py) : Py :=
  match prepare_body input_data with
  | inr cuopt_input => cuopt_input_dict cuopt_input
  | inl e => error_dict ("cuOpt preparation failed: " ++ exn_str e)
  end.

(** *** _solve_fn *)

(** Python's [str] of a value that is not a string. *)
Variable py_str : Py -> string.

(** [f"{v}"]. *)
Definition format_value (v : Py) : string :=
  match v with
  | PStr s => s
  | _ => py_str v
  end.

(** [os.environ.get("CUOPT_API_KEY", "")]. *)
Variable CUOPT_API_KEY : option string.

Definition environ_api_key : string :=
  match CUOPT_API_KEY with
  | Some k => k
  | None => ""
  end.

(** "Extract the cuopt_input if needed". *)
Definition extract_cuopt_input (input_data : Py) : Res Py :=
  let* wrapped := py_contains "cuopt_input" input_data in
  if wrapped then py_getitem input_data "cuopt_input" else ok input_data.

(** The start of the [try]: the API key, then the problem to submit,
    then the error an earlier stage left in it. *)
Definition check_input (config : CuoptSolverConfig) (input_data : Py) : Res Checked :=
  let api_key := cuopt_api_key config in
  let api_key := if String.eqb api_key "" then environ_api_key else api_key in
  if String.eqb api_key "" then throw ValueError "No API key provided for NVIDIA CuOpt"
  else
    let* cuopt_input := extract_cuopt_input input_data in
    let* has_error := py_contains "error" cuopt_input in
    if has_error then
      let* error_msg := py_getitem cuopt_input "error" in
      ok (UpstreamError error_msg)
    else ok (Submit api_key cuopt_input).

Definition request_headers (api_key : string) : Headers :=
  [ ("Authorization", "Bearer " ++ api_key);
    ("Accept", "application/json");
    ("Content-Type", "application/json") ].

Definition request_payload (cuopt_input : Py) : Py :=
  PDict [("action", PStr "cuOpt_OptimizedRouting"); ("data", cuopt_input)].

(** One turn of [while response.status_code == 202]: the next
    response to look at, or the end of the loop, by an exception or
    with the final response. *)
Definition poll (headers : Headers) (response : HttpResponse)
  : itree httpE (HttpResponse + Res HttpResponse) :=
  if status_code response =? 202 then
    match nvcf_reqid response with
    | None => Ret (inr (fault TypeError ConcatNone))
    | Some request_id =>
        r <- ITree.trigger (HttpGet (CUOPT_STATUS_URL ++ request_id) headers) ;;
        match r with
        | HttpRaises e => Ret (inr (inl e))
        | HttpReply response =>
            ITree.trigger (Sleep 1) ;;
            Ret (inl response)
        end
    end
  else Ret (inr (ok response)).

(** [response.raise_for_status()]. *)
Definition raise_for_status (response : HttpResponse) : Res unit :=
  if ((400 <=? status_code response) && (status_code response <? 600))%bool
  then throw OtherException (http_error response)
  else ok tt.

(** [for x in obj]: the items the loop goes through. *)
Definition py_iter (obj : Py) : Res (list Py) :=
  match obj with
  | PList l => ok l
  | PDict d => ok (List.map (fun kv => PStr (Datatypes.fst kv)) d)
  | PStr s => ok (List.map PStr (chars s))
  | _ => fault TypeError (NotIterable obj)
  end.

(** [obj[count]], [count] a position.  The keys of a JSON object are
    strings, so a position is no key of it. *)
Definition py_index (obj : Py) (count : nat) : Res Py :=
  match obj with
  | PList l =>
      match nth_error l count with
      | Some v => ok v
      | None => fault OtherException (NotIndexable obj count)
      end
  | PStr s =>
      match nth_error (chars s) count with
      | Some c => ok (PStr c)
      | None => fault OtherException (NotIndexable obj count)
      end
  | PDict _ => fault KeyError (NotIndexable obj count)
  | _ => fault TypeError (NotIndexable obj count)
  end.

(** [readable_map[loc]]: the keys are the integers 0 to 8, and a
    boolean or a float that equals one of them is that key. *)
Definition readable_lookup (loc : Py) : Res string :=
  let known (z : Z) :=
    match readable_map z with
    | Some name => ok name
    | None => fault KeyError (UnknownLocation loc)
    end in
  match loc with
  | PInt z => known z
  | PBool b => known (if b then 1 else 0)
  | PFloat f =>
      match float_integer f with
      | Some z => known z
      | None => fault KeyError (UnknownLocation loc)
      end
  | PNone | PStr _ => fault KeyError (UnknownLocation loc)
  | PList _ | PDict _ => fault TypeError (Unhashable loc)
  end.

(** The inner loop, [for loc in vehicle_data['route']], from the
    counter [count] on: a step is kept when it has a tag and the tag is
    not 'w'. *)
Fixpoint convert_steps (vehicle_data : Py) (locs : list Py) (count : nat)
         (steps : list string) : Res (list string) :=
  match locs with
  | [] => ok steps
  | loc :: rest =>
      let* type := py_getitem vehicle_data "type" in
      let* n := py_len type in
      let* steps :=
        if (count <? n)%nat then
          let* tag := py_index type count in
          if negb (is_str "w" tag) then
            let* name := readable_lookup loc in
            ok (steps ++ [String.append (format_value tag) name])%list
          else ok steps
        else ok steps in
      convert_steps vehicle_data rest (S count) steps
  end.

(** The outer loop over the vehicle ids of a dictionary of vehicles. *)
Fixpoint convert_vehicles (vehicles : Py) (ids : list string)
         (converted_route : list (string * list string))
  : Res (list (string * list string)) :=
  match ids with
  | [] => ok converted_route
  | vehicle :: rest =>
      let converted_route :=
        match dict_get vehicle converted_route with
        | Some _ => converted_route
        | None => dict_set vehicle [] converted_route
        end in
      let steps :=
        match dict_get vehicle converted_route with
        | Some steps => steps
        | None => []
        end in
      let* vehicle_data := py_getitem vehicles vehicle in
      let* route := py_getitem vehicle_data "route" in
      let* locs := py_iter route in
      let* steps := convert_steps vehicle_data locs 0 steps in
      convert_vehicles vehicles rest (dict_set vehicle steps converted_route)
  end.

(** [vehicle_data] is a dictionary at the shape the API documents.  A
    list or a string is gone through as well: when it is empty there
    is nothing to do, and otherwise its items are no keys of it, and
    the loop ends with an exception, [loop_raises vehicles]. *)
Variable loop_raises : Py -> Exn.

Definition convert_routes (vehicles : Py) : Res (list (string * list string)) :=
  match vehicles with
  | PDict d => convert_vehicles vehicles (List.map Datatypes.fst d) []
  | PList [] => ok []
  | PList (_ :: _) => inl (loop_raises vehicles)
  | PStr s => if String.eqb s "" then ok [] else inl (loop_raises vehicles)
  | _ => fault TypeError (NotIterable vehicles)
  end.

(** ['response' in solution and 'solver_response' in solution['response']]. *)
Definition has_solver_response (solution : Py) : Res bool :=
  let* has_response := py_contains "response" solution in
  if has_response then
    let* response := py_getitem solution "response" in
    py_contains "solver_response" response
  else ok false.

Definition process_reply (solution : Py) : Res SolveResult :=
  let* nested := has_solver_response solution in
  if nested then
    let* response := py_getitem solution "response" in
    let* solver_response := py_getitem response "solver_response" in
    let* has_vehicles := py_contains "vehicle_data" solver_response in
    let* converted_route :=
      if has_vehicles then
        let* vehicles := py_getitem solver_response "vehicle_data" in
        convert_routes vehicles
      else ok [] in
    let* status := py_get solver_response "status" PNone in
    let* solution_cost := py_get solver_response "solution_cost" PNone in
    let* vehicle_data := py_get solver_response "vehicle_data" (PDict []) in
    ok (Solved
          {| sol_status := status;
             sol_solution_cost := solution_cost;
             sol_vehicle_data := vehicle_data;
             readable_routes := converted_route |}
          solution)
  else ok (SolveError (PStr "Invalid response format from CuOpt API")).

(** From the final response to the result. *)
Definition read_response (response : HttpResponse) : Res SolveResult :=
  let* _ := raise_for_status response in
  match body response with
  | BodyRaises e => inl e
  | BodyJson solution => process_reply solution
  end.

(** The [except Exception] of the gateway. *)
Definition solver_result (r : Res SolveResult) : SolveResult :=
  match r with
  | inr result => result
  | inl e => SolveError (PStr ("Error in CuOpt solver: " ++ exn_str e))
  end.

Definition _solve_fn (config : CuoptSolverConfig) (input_data : Py)
  : itree httpE SolveResult :=
  match check_input config input_data with
  | inl e => Ret (solver_result (inl e))
  | inr (UpstreamError error_msg) => Ret (SolveError error_msg)
  | inr (Submit api_key cuopt_input) =>
      let headers := request_headers api_key in
      let payload := request_payload cuopt_input in
      r <- ITree.trigger (HttpPost CUOPT_INVOKE_URL headers payload) ;;
      match r with
      | HttpRaises e => Ret (solver_result (inl e))
      | HttpReply response =>
          final <- ITree.iter (poll headers) response ;;
          Ret (solver_result (let* response := final in read_response response))
      end
  end.

(** *** process_query *)

(** The drawing of the charts, with the creation of the output
    directory: [None] when it returns, the exception otherwise; and
    the time stamp of the file names. *)
Variable visualize_factory_state : FactoryState -> string -> option Exn.
Variable timestamp : string.

Definition create_visualizations (state : FactoryState) : FactoryState :=
  match visualize_factory_state state ("optimization_" ++ timestamp) with
  | None =>
      {| query := query state;
         query_type := query_type state;
         solution := solution state;
         errors := errors state;
         logs := logs state ++ ["Visualizations created successfully"];
         visualization_timestamp := Some timestamp |}
  | Some e =>
      let error_msg := "Visualization failed: " ++ exn_str e in
      {| query := query state;
         query_type := query_type state;
         solution := solution state;
         errors := errors state ++ [PStr error_msg];
         logs := logs state ++ ["ERROR: " ++ error_msg];
         visualization_timestamp := visualization_timestamp state |}
  end.

(** The update of the state with what the gateway returned. *)
Definition record_solution (state : FactoryState) (result : SolveResult) : FactoryState :=
  match result with
  | Solved sol _ =>
      {| query := query state;
         query_type := query_type state;
         solution := Some sol;
         errors := errors state;
         logs := logs state;
         visualization_timestamp := visualization_timestamp state |}
  | SolveError e =>
      {| query := query state;
         query_type := query_type state;
         solution := solution state;
         errors := errors state ++ [e];
         logs := logs state;
         visualization_timestamp := visualization_timestamp state |}
  end.

Definition initial_state (q : string) : FactoryState :=
  {| query := q;
     query_type := "route_optimization";
     solution := None;
     errors := [];
     logs := [];
     visualization_timestamp := None |}.

Definition finish_query (config : AgentConfig) (state : FactoryState)
           (result : SolveResult) : QueryResult :=
  let state := record_solution state result in
  let state :=
    if visualization_enabled config then create_visualizations state else state in
  {| res_query_type := query_type state;
     res_solution := solution state;
     res_errors := errors state;
     res_logs := logs state;
     res_visualization_timestamp := visualization_timestamp state |}.

(** The four stages in sequence, each on the whole output of the one
    before.  The stages catch their own exceptions, so the
    [except Exception] of [process_query] is not reached from them. *)
Definition process_query (config : AgentConfig) (st : Store) (q : string)
  : itree httpE QueryResult :=
  let state := initial_state q in
  let analyze_result := _analyze_fn q in
  let modified_data := _modify_data_fn st analyze_result in
  let cuopt_input := _prepare_fn modified_data in
  let solver_config := {| cuopt_api_key := agent_cuopt_api_key config |} in
  result <- _solve_fn solver_config cuopt_input ;;
  Ret (finish_query config state result).

(** *** What the properties below speak of *)

(** [analysis["required_analyses"]["visualization_needed"]]. *)
Definition visualization_needed (analysis : Py) : option Py :=
  py_path ["required_analyses"; "visualization_needed"] analysis.

(** The nine columns of an order. *)
Definition order_fields : list string :=
  [ "pickup_location"; "delivery_location"; "order_demand";
    "earliest_pickup"; "latest_pickup"; "pickup_service_time";
    "earliest_delivery"; "latest_delivery"; "delivery_service_time" ].

(** A record all of whose nine fields are there and are accepted by
    [int]. *)
Definition coercible (row : Row) : Prop :=
  forall k, In k order_fields ->
            exists v z, dict_get k row = Some v /\ py_int v = inr z.

(** The two tasks an order contributes to a list. *)
Definition pickup_delivery (o : Order) : list Z := [pickup_loc o; delivery_loc o].
Definition plus_minus (o : Order) : list Z := [order_demand o; - order_demand o].

(** The pair of the order at position [i]. *)
Definition pair_at (i : nat) : Z * Z := (2 * Z.of_nat i, 2 * Z.of_nat i + 1).

(** The error the gateway returns when it has no API key. *)
Definition no_api_key_error : string :=
  "Error in CuOpt solver: No API key provided for NVIDIA CuOpt".

(** The inner loop on a route of integers with tags that are strings,
    as a function of the two lists. *)
Fixpoint typed_steps (route : list Z) (type : list string) (count : nat)
         (steps : list string) : Res (list string) :=
  match route with
  | [] => ok steps
  | loc :: rest =>
      let* steps :=
        if ((count <? List.length type)%nat && negb (String.eqb (nth count type "") "w"))%bool
        then
          match readable_map loc with
          | Some name => ok (steps ++ [String.append (nth count type "") name])%list
          | None => fault KeyError (UnknownLocation (PInt loc))
          end
        else ok steps in
      typed_steps rest type (S count) steps
  end.

(** The steps of a route that are not waits. *)
Definition non_wait (type : list string) : nat :=
  List.length (filter (fun tag => negb (String.eqb tag "w")) type).

(** An input of the Problem Builder without an order set: the key is
    absent, or its value is None or the empty list. *)
Definition missing_or_empty (input : list (string * Py)) : Prop :=
  dict_get "transport_data" input = None \/
  dict_get "transport_data" input = Some PNone \/
  dict_get "transport_data" input = Some (PList []).

(** The error the Problem Builder returns for it. *)
Definition missing_data_error : string :=
  "cuOpt preparation failed: Transport data is missing or empty".

(** An API key is configured: in the configuration or in the
    environment. *)
Definition has_api_key (key : string) : Prop :=
  key <> "" \/ environ_api_key <> "".

(** What a read gives to the Data Modifier. *)
Definition read_result (r : ReadOutcome) : Res Frame :=
  match r with
  | ReadFrame f => ok f
  | ReadRaises e => inl e
  end.

(** A change request that asks to remove the orders at [labels]. *)
Definition removal_request (request : list (string * Py)) (labels : list Z) : Prop :=
  exists changes remove_orders needed,
    dict_get "transport_data_changes" request = Some (PDict changes) /\
    dict_get "remove_orders" changes = Some (PDict remove_orders) /\
    dict_get "needed" remove_orders = Some needed /\
    truthy needed = true /\
    dict_get "order_indices" remove_orders = Some (PList (List.map PInt labels)).

(** A change request that asks to remove nothing. *)
Definition no_removal (request : list (string * Py)) : Prop :=
  py_path ["transport_data_changes"; "remove_orders"; "needed"] (PDict request)
  = Some (PBool false).

Definition no_new_orders (request : list (string * Py)) : Prop :=
  dict_get "new_orders" request = None \/
  dict_get "new_orders" request = Some (PList []).

(** The two edits the Data Modifier only logs are dictionaries, or
    empty, or absent. *)
Definition logged_edits_are_dicts (request : list (string * Py)) : Prop :=
  forall k edit,
    In k ["modify_service_times"; "modify_time_windows"] ->
    py_path ["transport_data_changes"; k] (PDict request) = Some edit ->
    truthy edit = true -> exists d, edit = PDict d.

(** The labels of a removal that are not positions of a table of [n]
    rows. *)
Definition not_found (n : nat) (labels : list Z) : list Z :=
  filter (fun z => negb (is_label n z)) labels.

(** The two time windows and the two service times an order contributes. *)
Definition order_windows (o : Order) : list (Z * Z) :=
  [(earliest_pickup o, latest_pickup o); (earliest_delivery o, latest_delivery o)].
Definition order_services (o : Order) : list Z := [pickup_service o; delivery_service o].

(** The integers of a list of integers, and a list under a key of the
    waypoint graph. *)
Definition py_ints (v : Py) : list Z :=
  match v with
  | PList l => flat_map (fun x => match x with PInt z => [z] | _ => [] end) l
  | _ => []
  end.

Definition graph_list (k : string) : list Z :=
  match py_path [k] WAYPOINT_GRAPH with
  | Some v => py_ints v
  | None => []
  end.

(** The graph is in compressed sparse rows: the edges that leave node
    [u] are those at the positions from [offsets[u]] to
    [offsets[u + 1]], each with its weight. *)
Definition out_edges (u : nat) : list (Z * Z) :=
  let lo := Z.to_nat (nth u (graph_list "offsets") 0) in
  let hi := Z.to_nat (nth (S u) (graph_list "offsets") 0) in
  firstn (hi - lo) (skipn lo (combine (graph_list "edges") (graph_list "weights"))).

(** The weight of the edge from [u] to [v], if there is one. *)
Definition edge_weight (u v : nat) : option Z :=
  match List.find (fun e => Z.eqb (Datatypes.fst e) (Z.of_nat v)) (out_edges u) with
  | Some e => Some (Datatypes.snd e)
  | None => None
  end.

(** The steps of a route that have a tag other than 'w', each with its
    tag: locations and tags are paired position by position, as far as
    both lists go. *)
Definition kept_steps (route : list Z) (type : list string) : list (Z * string) :=
  filter (fun step => negb (String.eqb (Datatypes.snd step) "w")) (combine route type).

(** The readable text of a step: the tag, then the name of the
    location. *)
Definition readable_step (step : Z * string) (text : string) : Prop :=
  exists name,
    readable_map (Datatypes.fst step) = Some name /\
    text = String.append (Datatypes.snd step) name.

(** An HTTP status that [raise_for_status] rejects. *)
Definition error_status (code : Z) : Prop := 400 <= code < 600.

(** *** A scripted server *)

(** The requests of a run, in the order they are made. *)
Inductive Request : Type :=
| ReqPost (url : string) (headers : Headers) (json : Py)
| ReqGet (url : string) (headers : Headers)
| ReqSleep (seconds : Z).

(** A server that answers the requests with the outcomes of a script,
    one after the other (and with a failed connection once the script
    is used up), and the requests it has seen. *)
Definition Server : Type := (list HttpOutcome * list Request)%type.

Definition next_outcome (script : list HttpOutcome) : HttpOutcome * list HttpOutcome :=
  match script with
  | r :: rest => (r, rest)
  | [] => (HttpRaises (Raise OtherException "Connection aborted."), [])
  end.

Definition serve (T : Type) (e : httpE T) (s : Server) : itree void1 (Server * T) :=
  match e in httpE T return itree void1 (Server * T) with
  | HttpPost url headers json =>
      let (r, rest) := next_outcome (Datatypes.fst s) in
      Ret ((rest, Datatypes.snd s ++ [ReqPost url headers json])%list, r)
  | HttpGet url headers =>
      let (r, rest) := next_outcome (Datatypes.fst s) in
      Ret ((rest, Datatypes.snd s ++ [ReqGet url headers])%list, r)
  | Sleep seconds =>
      Ret ((Datatypes.fst s, Datatypes.snd s ++ [ReqSleep seconds])%list, tt)
  end.

(** The responses of a run: [r0], then [rs].  All but the last have the
    status 202 and a request id; the last has another status. *)
Fixpoint accepted_chain (r0 : HttpResponse) (rs : list HttpResponse) : Prop :=
  match rs with
  | [] => status_code r0 <> 202
  | r1 :: rs' =>
      status_code r0 = 202 /\
      (exists request_id, nvcf_reqid r0 = Some request_id) /\
      accepted_chain r1 rs'
  end.

Fixpoint final_response (r0 : HttpResponse) (rs : list HttpResponse) : HttpResponse :=
  match rs with
  | [] => r0
  | r1 :: rs' => final_response r1 rs'
  end.

(** One GET of the status of the request of the response before, then
    one second of sleep, for each response after the first. *)
Fixpoint poll_requests (headers : Headers) (r0 : HttpResponse) (rs : list HttpResponse)
  : list Request :=
  match rs with
  | [] => []
  | r1 :: rs' =>
      ReqGet (CUOPT_STATUS_URL ++ match nvcf_reqid r0 with
                                  | Some request_id => request_id
                                  | None => ""
                                  end) headers
        :: ReqSleep 1 :: poll_requests headers r1 rs'
  end.

(** *** _response_fn *)

Definition newline : string := String (ascii_of_nat 10) EmptyString.

(** [f"{n}"] for an integer. *)
Definition show_Z (z : Z) : string := NilZero.string_of_int (Z.to_int z).

(** The directory of the charts ([config.output_dir]), and a file of
    that directory: [None] when it does not exist, else its content in
    base 64, or the exception of the read. *)
Variable output_dir : string.
Variable read_base64 : string -> option (Res string).

(** The texts added one after the other. *)
Definition added (texts : list string) : string := fold_right String.append "" texts.

Definition route_line (n : Z) (route : list string) : string :=
  "- Forklift " ++ show_Z (n + 1) ++ ": " ++ String.concat " → " route ++ newline.

(** The loop over [readable_routes]. *)
Fixpoint route_lines (routes : list (string * list string)) : Res string :=
  match routes with
  | [] => ok ""
  | (vehicle, route) :: rest =>
      let* n := py_int (PStr vehicle) in
      let* more := route_lines rest in
      ok (route_line n route ++ more)
  end.

Definition solution_text (sol : Solution) : Res string :=
  let* lines := route_lines (readable_routes sol) in
  ok ("**Solution Details:**" ++ newline
      ++ "- Total Cost: " ++ format_value (sol_solution_cost sol) ++ newline ++ newline
      ++ newline ++ "**Vehicle Routes:**" ++ newline
      ++ lines).

Definition error_line (error : Py) : string := "- " ++ format_value error ++ newline.

Definition errors_text (errors : list Py) : string :=
  match errors with
  | [] => ""
  | _ => newline ++ "**Errors:**" ++ newline ++ added (List.map error_line errors)
  end.

(** An image of the directory as markdown, when the file exists. *)
Definition image_text (alt path : string) : Res string :=
  match read_base64 path with
  | None => ok ""
  | Some (inl e) => inl e
  | Some (inr img_data) =>
      ok (newline ++ "![" ++ alt ++ "](data:image/png;base64," ++ img_data ++ ")"
          ++ newline)
  end.

(** [sorted(ids, key=lambda x: int(x))]: the keys first, then a stable
    sort by them. *)
Fixpoint with_keys (ids : list string) : Res (list (Z * string)) :=
  match ids with
  | [] => ok []
  | vehicle_id :: rest =>
      let* n := py_int (PStr vehicle_id) in
      let* more := with_keys rest in
      ok ((n, vehicle_id) :: more)
  end.

Fixpoint insert_by_key (x : Z * string) (l : list (Z * string)) : list (Z * string) :=
  match l with
  | [] => [x]
  | y :: t =>
      if Datatypes.fst x <=? Datatypes.fst y then x :: y :: t
      else y :: insert_by_key x t
  end.

Definition sort_by_key (l : list (Z * string)) : list (Z * string) :=
  fold_right insert_by_key [] l.

Definition sorted_vehicle_ids (ids : list string) : Res (list (Z * string)) :=
  let* keyed := with_keys ids in
  ok (sort_by_key keyed).

Definition network_path (ts : string) (n : Z) : string :=
  output_dir ++ "/optimization_" ++ ts ++ "_network_forklift_" ++ show_Z (n + 1) ++ ".png".

Fixpoint network_images (ts : string) (ids : list (Z * string)) : Res string :=
  match ids with
  | [] => ok ""
  | (n, _) :: rest =>
      let* image :=
        image_text ("Forklift " ++ show_Z (n + 1) ++ " Route") (network_path ts n) in
      let* more := network_images ts rest in
      ok (image ++ more)
  end.

(** [obj.keys()]. *)
Definition py_keys (obj : Py) : Res (list string) :=
  match obj with
  | PDict d => ok (List.map Datatypes.fst d)
  | _ => fault AttributeError (NoAttribute obj "keys")
  end.

Definition visualization_text (ts : string) (vehicle_data : Py) : Res string :=
  let* gantt :=
    image_text "Gantt Chart" (output_dir ++ "/optimization_" ++ ts ++ "_gantt.png") in
  let* keys := py_keys vehicle_data in
  let* ids := sorted_vehicle_ids keys in
  let* networks := network_images ts ids in
  ok (newline ++ "**Visualizations:**" ++ newline ++ gantt ++ networks).

(** The text of the response for a result of [process_query]. *)
Definition format_response (result : QueryResult) : Res string :=
  let* solution_part :=
    match res_solution result with
    | Some sol => solution_text sol
    | None => ok ""
    end in
  let errors_part := errors_text (res_errors result) in
  let* visualization_part :=
    match res_visualization_timestamp result with
    | Some ts =>
        if String.eqb ts "" then ok ""
        else visualization_text ts
               match res_solution result with
               | Some sol => sol_vehicle_data sol
               | None => PDict []
               end
    | None => ok ""
    end in
  ok (solution_part ++ errors_part ++ visualization_part).

(** The [except Exception] of [_response_fn]. *)
Definition response_text (result : QueryResult) : string :=
  match format_response result with
  | inr text => text
  | inl e => "Error processing query: " ++ exn_str e
  end.

Definition _response_fn (config : AgentConfig) (st : Store) (input_message : string)
  : itree httpE string :=
  result <- process_query config st input_message ;;
  Ret (response_text result).

(** The order of [sorted(..., key=lambda x: int(x))]. *)
Definition by_key (a b : Z * string) : Prop := Datatypes.fst a <= Datatypes.fst b.

(** The error of a failed drawing, as [create_visualizations] words it. *)
Definition visualization_failure (error : Py) : Prop :=
  exists msg, error = PStr ("Visualization failed: " ++ msg).

(** ** Properties *)

(** *** Dictionaries *)

Lemma dict_get_set_same {A} (k : string) (v : A) (d : list (string * A)) :
  dict_get k (dict_set k v d) = Some v.
Proof.
  induction d as [|[k' v'] d IH]; simpl.
  - now rewrite String.eqb_refl.
  - destruct (String.eqb k' k) eqn:E; simpl.
    + now rewrite String.eqb_refl.
    + now rewrite E.
Qed.

Lemma dict_get_set_other {A} (k k' : string) (v : A) (d : list (string * A)) :
  k <> k' -> dict_get k' (dict_set k v d) = dict_get k' d.
Proof.
  intros Hne. induction d as [|[k0 v0] d IH]; simpl.
  - destruct (String.eqb k k') eqn:E; [|reflexivity].
    apply String.eqb_eq in E. contradiction.
  - destruct (String.eqb k0 k) eqn:E; simpl.
    + apply String.eqb_eq in E. subst k0.
      destruct (String.eqb k k') eqn:E'; [|reflexivity].
      apply String.eqb_eq in E'. contradiction.
    + now rewrite IH.
Qed.

(** *** The Query Interpreter *)

Lemma default_analysis_visualization (q : string) :
  visualization_needed (create_default_analysis q) = Some (PBool true).
Proof.
  unfold create_default_analysis.
  destruct (contains "2 forklifts" (lower q) || contains "two forklifts" (lower q))%bool;
    [|destruct (contains "3 forklifts" (lower q) || contains "three forklifts" (lower q))%bool];
    destruct (contains "two items" (lower q) || contains "2 items" (lower q)
              || contains "carry two" (lower q))%bool;
    reflexivity.
Qed.

Lemma force_visualization_sets (analysis analysis' : Py) :
  force_visualization analysis = inr analysis' ->
  visualization_needed analysis' = Some (PBool true).
Proof.
  unfold force_visualization, visualization_needed.
  destruct analysis as [| b | z | f | s | l | d]; simpl; try discriminate.
  - (* a string: no item can be read or assigned *)
    destruct (contains "required_analyses" s); discriminate.
  - (* a list *)
    destruct (existsb (is_str "required_analyses") l); discriminate.
  - (* a dictionary *)
    destruct (dict_get "required_analyses" d) as [inner|] eqn:E; simpl.
    + unfold py_setitem2. simpl. rewrite E. simpl.
      destruct inner; simpl; try discriminate.
      intros H. injection H as <-. simpl.
      rewrite dict_get_set_same. now rewrite dict_get_set_same.
    + unfold py_setitem2. simpl. rewrite dict_get_set_same. simpl.
      intros H. injection H as <-. simpl.
      rewrite dict_get_set_same. reflexivity.
Qed.

(** C2.  Whatever the query and whatever the language model and the
    JSON parser do, the analysis [_analyze_fn] returns has
    [required_analyses.visualization_needed] equal to [True]: after a
    successful parse, after the extraction between braces, and on
    every path that ends in the keyword default. *)
Theorem analysis_visualization_needed (q : string) :
  visualization_needed (_analyze_fn q) = Some (PBool true).
Proof.
  unfold _analyze_fn.
  destruct (analyze_body q) as [e | analysis] eqn:E.
  - apply default_analysis_visualization.
  - unfold analyze_body in E.
    destruct (llm q) as [e | content]; [discriminate|].
    destruct (parse_analysis q content) as [e | parsed]; [discriminate|].
    simpl in E. now apply force_visualization_sets with parsed.
Qed.

(** C9.  For the query "use 2 forklifts", when the call of the language
    model raises, the analysis is the keyword default, and its
    [fleet_changes.modify_fleet_size] is
    [{"needed": True, "new_size": 2}]. *)
Theorem fallback_two_forklifts (e : Exn) :
  llm "use 2 forklifts" = LlmRaises e ->
  py_path ["fleet_changes"; "modify_fleet_size"] (_analyze_fn "use 2 forklifts")
  = Some (PDict [("needed", PBool true); ("new_size", PInt 2)]).
Proof.
  intros H. unfold _analyze_fn, analyze_body. rewrite H. reflexivity.
Qed.

(** *** The Problem Builder: the task lists *)

Lemma as_records_dicts (rows : list Row) :
  as_records (List.map PDict rows) = Some rows.
Proof.
  induction rows as [|r rows IH]; simpl; [reflexivity|]. now rewrite IH.
Qed.

Lemma dict_get_in_keys {A} (k : string) (v : A) (d : list (string * A)) :
  dict_get k d = Some v -> In k (List.map Datatypes.fst d).
Proof.
  induction d as [|[k' v'] d IH]; simpl; [discriminate|].
  destruct (String.eqb k' k) eqn:E.
  - apply String.eqb_eq in E. now left.
  - intros H. right. now apply IH.
Qed.

Lemma dict_get_tabulate {A} (f : string -> A) (k : string) (cols : list string) :
  In k cols -> dict_get k (List.map (fun c => (c, f c)) cols) = Some (f k).
Proof.
  induction cols as [|c cols IH]; simpl; [contradiction|].
  intros Hin. destruct (String.eqb c k) eqn:E.
  - apply String.eqb_eq in E. now subst.
  - destruct Hin as [-> | Hin]; [|now apply IH].
    now rewrite String.eqb_refl in E.
Qed.

Lemma columns_In (rows : list Row) (k : string) :
  In k (columns rows) <-> exists r, In r rows /\ In k (List.map Datatypes.fst r).
Proof.
  unfold columns. rewrite <- in_rev, nodup_In, <- in_rev, in_concat. split.
  - intros [keys [Hkeys Hk]]. apply in_map_iff in Hkeys as [r [<- Hr]]. now exists r.
  - intros [r [Hr Hk]]. exists (List.map Datatypes.fst r). split; [|exact Hk].
    now apply in_map.
Qed.

Lemma frame_of_records_length (rows : list Row) :
  List.length (frame_of_records rows) = List.length rows.
Proof. unfold frame_of_records. apply length_map. Qed.

Lemma iterrows_length (f : Frame) : List.length (iterrows f) = List.length f.
Proof. unfold iterrows. destruct (int_table f); [reflexivity | apply length_map]. Qed.

Lemma iterrows_keys (f : Frame) (r' : Row) :
  In r' (iterrows f) ->
  exists r, In r f /\ List.map Datatypes.fst r' = List.map Datatypes.fst r.
Proof.
  unfold iterrows. destruct (int_table f).
  - intros H. now exists r'.
  - intros H. apply in_map_iff in H as [r [<- Hr]]. exists r. split; [exact Hr|].
    rewrite List.map_map. reflexivity.
Qed.

Lemma frame_of_records_keys (rows : list Row) (r : Row) :
  In r (frame_of_records rows) -> List.map Datatypes.fst r = columns rows.
Proof.
  unfold frame_of_records. intros H. apply in_map_iff in H as [r0 [<- _]].
  rewrite List.map_map. cbn [Datatypes.fst]. apply List.map_id.
Qed.

(** A table of 64-bit integers is iterated as it is. *)
Lemma iterrows_int_table (f : Frame) : int_table f = true -> iterrows f = f.
Proof. intros H. unfold iterrows. now rewrite H. Qed.

Lemma int_field_coercible (row : Row) (k : string) :
  coercible row -> In k order_fields -> exists z, int_field row k = inr z.
Proof.
  intros Hc Hk. destruct (Hc k Hk) as [v [z [Hv Hz]]].
  exists z. unfold int_field. now rewrite Hv.
Qed.

Lemma read_order_coercible (row : Row) :
  coercible row -> exists o, read_order row = inr o.
Proof.
  intros Hc. unfold read_order.
  repeat match goal with
         | |- context [int_field row ?k] =>
             let z := fresh "z" in
             let H := fresh "H" in
             let Hk := fresh "Hk" in
             assert (Hk : In k order_fields)
               by (unfold order_fields; simpl; repeat first [left; reflexivity | right]);
             destruct (int_field_coercible row k Hc Hk) as [z H];
             rewrite H; simpl; clear Hk
         end.
  eexists. reflexivity.
Qed.


Lemma process_rows_coercible (rows : Frame) :
  Forall coercible rows ->
  forall idx acc, exists t, process_rows idx rows acc = inr t.
Proof.
  induction 1 as [|row rows Hrow _ IH]; intros idx acc.
  - now exists acc.
  - simpl. unfold process_row.
    destruct (read_order_coercible row Hrow) as [o Ho]. rewrite Ho. simpl.
    apply IH.
Qed.

Lemma nth_pickup_delivery (orders : list Order) (i : nat) :
  nth (2 * i) (flat_map plus_minus orders) 0
  = - nth (2 * i + 1) (flat_map plus_minus orders) 0.
Proof.
  revert i. induction orders as [|o orders IH]; intros i.
  - cbn [flat_map]. destruct (2 * i)%nat; destruct (2 * i + 1)%nat; reflexivity.
  - destruct i as [|i].
    + simpl. lia.
    + replace (2 * S i)%nat with (S (S (2 * i))) by lia.
      replace (S (S (2 * i)) + 1)%nat with (S (S (2 * i + 1))) by lia.
      simpl. apply IH.
Qed.

Lemma flat_map_pairs_length {A} (f : Order -> list A) (orders : list Order) :
  (forall o, List.length (f o) = 2%nat) ->
  List.length (flat_map f orders) = (2 * List.length orders)%nat.
Proof.
  intros Hf. induction orders as [|o orders IH]; simpl; [reflexivity|].
  rewrite length_app, Hf, IH. lia.
Qed.

Lemma transport_frame_records (input : list (string * Py)) (rows : list Row) :
  dict_get "transport_data" input = Some (to_records rows) ->
  transport_frame (PDict input)
  = match rows with
    | [] => throw ValueError "Transport data is missing or empty"
    | _ => ok (frame_of_records rows)
    end.
Proof.
  intros H. unfold transport_frame. simpl. rewrite H. simpl.
  destruct rows as [|r rows]; simpl; [reflexivity|].
  now rewrite as_records_dicts.
Qed.

Lemma prepare_fn_built (input_data : Py) (p : SolverProblem) :
  prepare_body input_data = inr p -> _prepare_fn input_data = cuopt_input_dict p.
Proof. intros H. unfold _prepare_fn. now rewrite H. Qed.

Lemma and_then_inr {A B} (m : Res A) (k : A -> Res B) (b : B) :
  and_then m k = inr b -> exists a, m = inr a /\ k a = inr b.
Proof. destruct m as [e | a]; simpl; [discriminate|]. intros H. now exists a. Qed.

(** Splits a hypothesis [and_then m k = inr b] into the two steps. *)
Ltac step H x Hx :=
  apply and_then_inr in H; destruct H as [x [Hx H]].

(** What a successful run of the Problem Builder went through. *)
Lemma prepare_body_inv (input_data : Py) (p : SolverProblem) :
  prepare_body input_data = inr p ->
  exists frame tasks fleet_changes num_forklifts forklift_capacity n,
    transport_frame input_data = inr frame /\
    process_rows 0 (iterrows frame) no_tasks = inr tasks /\
    py_get input_data "fleet_changes" (PDict []) = inr fleet_changes /\
    fleet_setting fleet_changes "modify_fleet_size" "new_size" (PInt 4)
    = inr num_forklifts /\
    fleet_setting fleet_changes "modify_capacity" "new_capacity" (PInt 1)
    = inr forklift_capacity /\
    py_count num_forklifts = inr n /\
    p = {| task_locations := t_locations tasks;
           demand := t_demand tasks;
           task_time_windows := t_time_windows tasks;
           service_times := t_service_times tasks;
           pickup_and_delivery_pairs := t_pairs tasks;
           vehicle_locations := repeat (0, 0) n;
           capacities := repeat forklift_capacity n;
           vehicle_time_windows := repeat (0, 100) n |}.
Proof.
  unfold prepare_body. intros H.
  step H frame Hframe. step H tasks Htasks. step H fc Hfc.
  step H nf Hnf. step H cap Hcap. step H n Hn.
  injection H as <-.
  exists frame, tasks, fc, nf, cap, n. repeat split; assumption.
Qed.

(** What the Problem Builder returns is a solver problem or an error:
    it has no key "error" just when the body ended without an
    exception, and it is then the dictionary of the lists built. *)
Lemma prepare_fn_problem (input_data : Py) :
  py_path ["error"] (_prepare_fn input_data) = None ->
  exists p, prepare_body input_data = inr p /\
            _prepare_fn input_data = cuopt_input_dict p.
Proof.
  unfold _prepare_fn. destruct (prepare_body input_data) as [e | p].
  - discriminate.
  - intros _. now exists p.
Qed.




(** *** The Problem Builder: the fleet *)

(** What [fleet_setting] returns, in terms of the input dictionary: the
    default when the flag [needed] of the change is absent or false, the
    field of the change when the flag is true. *)
Lemma fleet_setting_spec (input : list (string * Py)) (fleet_changes : Py)
      (k field : string) (default r : Py) :
  py_get (PDict input) "fleet_changes" (PDict []) = inr fleet_changes ->
  fleet_setting fleet_changes k field default = inr r ->
  ((forall v, py_path ["fleet_changes"; k; "needed"] (PDict input) = Some v ->
              truthy v = false) -> r = default) /\
  (forall v, py_path ["fleet_changes"; k; "needed"] (PDict input) = Some v ->
             truthy v = true ->
             py_path ["fleet_changes"; k; field] (PDict input) = Some r).
Proof.
  intros Hfc Hset. simpl in Hfc. injection Hfc as <-.
  unfold fleet_setting in Hset.
  step Hset change Hchange. step Hset needed Hneeded.
  cbn [py_path].
  destruct (dict_get "fleet_changes" input) as [fc|] eqn:Efc.
  - destruct fc as [| | | | | |fc]; try discriminate Hchange.
    simpl in Hchange. injection Hchange as <-.
    destruct (dict_get k fc) as [ch|] eqn:Ek.
    + destruct ch as [| | | | | |ch]; try discriminate Hneeded.
      simpl in Hneeded. injection Hneeded as <-.
      cbn [py_path].
      destruct (dict_get "needed" ch) as [nd|] eqn:En.
      * split.
        -- intros Hfalse. rewrite (Hfalse nd eq_refl) in Hset.
           now injection Hset.
        -- intros v Hv Ht. injection Hv as <-. rewrite Ht in Hset.
           simpl in Hset. rewrite Ek in Hset. simpl in Hset.
           destruct (dict_get field ch); [|discriminate].
           now injection Hset as <-.
      * simpl in Hset. split; [|discriminate]. intros _. now injection Hset.
    + simpl in Hneeded. injection Hneeded as <-. simpl in Hset.
      split; [|discriminate]. intros _. now injection Hset.
  - simpl in Hchange. injection Hchange as <-.
    simpl in Hneeded. injection Hneeded as <-. simpl in Hset.
    split; [|discriminate]. intros _. now injection Hset.
Qed.

Lemma py_count_default : py_count (PInt 4) = inr 4%nat.
Proof. reflexivity. Qed.



(** *** The Data Modifier *)

Lemma py_path_dict (k : string) (ks : list string) (d : list (string * Py)) (v : Py) :
  py_path (k :: ks) (PDict d) = Some v ->
  exists v', dict_get k d = Some v' /\ py_path ks v' = Some v.
Proof.
  simpl. destruct (dict_get k d) as [v'|]; [|discriminate].
  intros H. now exists v'.
Qed.

Lemma py_path_inv (k : string) (ks : list string) (obj v : Py) :
  py_path (k :: ks) obj = Some v ->
  exists d v', obj = PDict d /\ dict_get k d = Some v' /\ py_path ks v' = Some v.
Proof.
  destruct obj as [| | | | | |d]; try discriminate.
  intros H. apply py_path_dict in H. destruct H as [v' [H1 H2]].
  now exists d, v'.
Qed.

Lemma edit_needed_shape (edit : Py) :
  (truthy edit = true -> exists d, edit = PDict d) ->
  exists b, edit_needed edit = inr b.
Proof.
  intros H. unfold edit_needed.
  destruct (truthy edit) eqn:E.
  - destruct (H eq_refl) as [d ->]. simpl. eexists. reflexivity.
  - eexists. reflexivity.
Qed.

(** With nothing to remove and nothing to add, the table that reaches
    the end of [modify_body] is the loaded one. *)
Lemma modify_body_noop (st : Store) (request : list (string * Py)) (loaded : Frame) :
  load_transport_data st = inr loaded ->
  py_path ["transport_data_changes"; "remove_orders"; "needed"] (PDict request)
  = Some (PBool false) ->
  (dict_get "new_orders" request = None \/
   dict_get "new_orders" request = Some (PList [])) ->
  exists transport_data_changes,
    dict_get "transport_data_changes" request = Some (PDict transport_data_changes) /\
    modify_body st (PDict request)
    = (let* _ := let* service_time_changes :=
                   py_get (PDict transport_data_changes) "modify_service_times" (PDict []) in
                 edit_needed service_time_changes in
       let* _ := let* time_window_changes :=
                   py_get (PDict transport_data_changes) "modify_time_windows" (PDict []) in
                 edit_needed time_window_changes in
       ok (PDict [ ("transport_data", to_records loaded);
                   ("fleet_changes",
                     match dict_get "fleet_changes" request with
                     | Some v => v
                     | None => PDict []
                     end);
                   ("query_type",
                     match dict_get "query_type" request with
                     | Some v => v
                     | None => PStr "route_optimization"
                     end) ])).
Proof.
  intros Hload Hneeded Hnew.
  apply py_path_dict in Hneeded. destruct Hneeded as [tdc [Htdc Hneeded]].
  apply py_path_inv in Hneeded. destruct Hneeded as [changes [ro [-> [Hro Hneeded]]]].
  apply py_path_inv in Hneeded. destruct Hneeded as [remove [nd [-> [Hnd Hneeded]]]].
  simpl in Hneeded. injection Hneeded as ->.
  exists changes. split; [exact Htdc|].
  unfold modify_body. rewrite Hload. simpl. rewrite Htdc. simpl. rewrite Hro. simpl.
  assert (Hkeep : edit_needed (PDict remove) = inr false).
  { unfold edit_needed. simpl. rewrite Hnd.
    destruct remove; [discriminate|reflexivity]. }
  rewrite Hkeep. simpl.
  assert (Hnone : truthy (match dict_get "new_orders" request with
                          | Some v => v
                          | None => PList []
                          end) = false).
  { destruct Hnew as [-> | ->]; reflexivity. }
  rewrite Hnone. simpl.
  destruct (edit_needed
              match dict_get "modify_service_times" changes with
              | Some v => v
              | None => PDict []
              end) as [e1 | b1]; simpl; [reflexivity|].
  destruct (edit_needed
              match dict_get "modify_time_windows" changes with
              | Some v => v
              | None => PDict []
              end) as [e2 | b2]; simpl; reflexivity.
Qed.

(** C7.  For a change request whose [remove_orders.needed] is false and
    whose [new_orders] is empty or absent, and a store from which the
    order set loads: the order set the Data Modifier returns has as many
    rows as the loaded one.  It does return an order set when the two
    edits it only logs are dictionaries (or empty). *)
Theorem modify_noop_row_count (st : Store) (request : list (string * Py)) (loaded : Frame) :
  load_transport_data st = inr loaded ->
  py_path ["transport_data_changes"; "remove_orders"; "needed"] (PDict request)
  = Some (PBool false) ->
  (dict_get "new_orders" request = None \/
   dict_get "new_orders" request = Some (PList [])) ->
  (forall records,
      py_path ["transport_data"] (_modify_data_fn st (PDict request)) = Some (PList records) ->
      List.length records = List.length loaded) /\
  ((forall k edit,
       In k ["modify_service_times"; "modify_time_windows"] ->
       py_path ["transport_data_changes"; k] (PDict request) = Some edit ->
       truthy edit = true -> exists d, edit = PDict d) ->
   exists records,
     py_path ["transport_data"] (_modify_data_fn st (PDict request)) = Some (PList records)).
Proof.
  intros Hload Hneeded Hnew.
  destruct (modify_body_noop st request loaded Hload Hneeded Hnew)
    as [changes [Hchanges Hbody]].
  unfold _modify_data_fn. rewrite Hbody. clear Hbody. simpl.
  split.
  - intros records.
    destruct (edit_needed _) as [e1 | b1]; simpl; [discriminate|].
    destruct (edit_needed _) as [e2 | b2]; simpl; [discriminate|].
    intros H. injection H as <-. apply length_map.
  - intros Hshape.
    assert (Hedit : forall k, In k ["modify_service_times"; "modify_time_windows"] ->
                     exists b, edit_needed match dict_get k changes with
                                           | Some v => v
                                           | None => PDict []
                                           end = inr b).
    { intros k Hk. apply edit_needed_shape.
      destruct (dict_get k changes) as [edit|] eqn:Ek; [|discriminate].
      apply (Hshape k edit Hk). simpl. rewrite Hchanges. simpl. now rewrite Ek. }
    destruct (Hedit "modify_service_times") as [b1 ->]; [now left|].
    destruct (Hedit "modify_time_windows") as [b2 ->]; [right; now left|].
    simpl. eexists. reflexivity.
Qed.

(** *** The Solver Gateway: the checks before the request *)

Lemma check_input_no_key (config : CuoptSolverConfig) (input_data : Py) :
  cuopt_api_key config = "" -> environ_api_key = "" ->
  check_input config input_data
  = throw ValueError "No API key provided for NVIDIA CuOpt".
Proof.
  intros Hc He. unfold check_input. rewrite Hc. simpl. now rewrite He.
Qed.

Lemma check_input_upstream (config : CuoptSolverConfig) (input_data : Py)
      (d : list (string * Py)) (e : Py) :
  cuopt_api_key config <> "" \/ environ_api_key <> "" ->
  extract_cuopt_input input_data = inr (PDict d) ->
  dict_get "error" d = Some e ->
  check_input config input_data = inr (UpstreamError e).
Proof.
  intros Hkey Hin Herr. unfold check_input.
  assert (Hk : String.eqb (if String.eqb (cuopt_api_key config) ""
                           then environ_api_key else cuopt_api_key config) "" = false).
  { destruct (String.eqb (cuopt_api_key config) "") eqn:E.
    - apply String.eqb_eq in E. apply String.eqb_neq.
      destruct Hkey as [Hkey | Hkey]; [contradiction | exact Hkey].
    - exact E. }
  rewrite Hk, Hin. simpl. now rewrite Herr.
Qed.

(** C6.  When the configuration has no API key and the environment has
    none (the variable is unset or empty), the gateway is a leaf, so no
    request is made, and what it returns is an error whose message
    contains "No API key provided". *)
Theorem solve_without_api_key (config : CuoptSolverConfig) (input_data : Py) :
  cuopt_api_key config = "" ->
  CUOPT_API_KEY = None \/ CUOPT_API_KEY = Some "" ->
  exists msg,
    _solve_fn config input_data = Ret (SolveError (PStr msg)) /\
    contains "No API key provided" msg = true.
Proof.
  intros Hc He. exists no_api_key_error. split; [|reflexivity].
  unfold _solve_fn. rewrite check_input_no_key; [reflexivity | exact Hc |].
  unfold environ_api_key. now destruct He as [-> | ->].
Qed.

(** C10.  The check of the API key comes before the look at the error
    of an earlier stage.  For an input whose problem dictionary has the
    key "error": with an API key the gateway is a leaf that returns that
    error as it is; without one it is a leaf that returns the error of
    the missing key, whatever the error of the earlier stage was. *)
Theorem solve_upstream_error (config : CuoptSolverConfig) (input_data : Py)
        (d : list (string * Py)) (e : Py) :
  extract_cuopt_input input_data = inr (PDict d) ->
  dict_get "error" d = Some e ->
  (cuopt_api_key config <> "" \/ environ_api_key <> "" ->
   _solve_fn config input_data = Ret (SolveError e)) /\
  (cuopt_api_key config = "" -> environ_api_key = "" ->
   _solve_fn config input_data = Ret (SolveError (PStr no_api_key_error))).
Proof.
  intros Hin Herr. split.
  - intros Hkey. unfold _solve_fn.
    now rewrite (check_input_upstream config input_data d e Hkey Hin Herr).
  - intros Hc He. unfold _solve_fn. now rewrite check_input_no_key.
Qed.

(** *** The Solver Gateway: the readable routes *)

Lemma non_wait_cons (tag : string) (type : list string) :
  non_wait (tag :: type)
  = ((if String.eqb tag "w" then 0 else 1) + non_wait type)%nat.
Proof. unfold non_wait. simpl. now destruct (String.eqb tag "w"). Qed.

(** The loop over a route whose tags from [count] on are [suf], one tag
    for each location left: it adds one step for each tag that is not a
    wait. *)
Lemma typed_steps_length (route : list Z) :
  forall (pre suf : list string) (steps out : list string),
    List.length route = List.length suf ->
    typed_steps route (pre ++ suf) (List.length pre) steps = inr out ->
    List.length out = (List.length steps + non_wait suf)%nat.
Proof.
  induction route as [|loc rest IH]; intros pre suf steps out Hlen H.
  - destruct suf; [|discriminate]. simpl in H. injection H as <-.
    unfold non_wait. simpl. lia.
  - destruct suf as [|tag suf]; [discriminate|].
    simpl in Hlen. injection Hlen as Hlen.
    cbn [typed_steps] in H.
    assert (Hlt : (List.length pre <? List.length (pre ++ tag :: suf))%nat = true).
    { apply Nat.ltb_lt. rewrite length_app. simpl. lia. }
    rewrite Hlt, nth_middle in H. simpl in H.
    rewrite non_wait_cons.
    replace (pre ++ tag :: suf)%list with ((pre ++ [tag]) ++ suf)%list in H
      by now rewrite <- app_assoc.
    replace (S (List.length pre)) with (List.length (pre ++ [tag])) in H
      by (rewrite length_app; simpl; lia).
    destruct (String.eqb tag "w"); simpl in H.
    + now apply IH in H.
    + destruct (readable_map loc) as [name|]; [|discriminate]. simpl in H.
      apply IH in H; [|exact Hlen]. rewrite H, length_app. simpl. lia.
Qed.

Lemma as_ints_inv (l : list Py) (zs : list Z) :
  as_ints l = Some zs -> l = List.map PInt zs.
Proof.
  revert zs. induction l as [|v l IH]; intros zs H.
  - injection H as <-. reflexivity.
  - destruct v; try discriminate. cbn [as_ints] in H.
    destruct (as_ints l) as [zs'|]; [|discriminate].
    injection H as <-. cbn [List.map]. now rewrite (IH zs' eq_refl).
Qed.

Lemma as_strs_inv (l : list Py) (ss : list string) :
  as_strs l = Some ss -> l = List.map PStr ss.
Proof.
  revert ss. induction l as [|v l IH]; intros ss H.
  - injection H as <-. reflexivity.
  - destruct v; try discriminate. cbn [as_strs] in H.
    destruct (as_strs l) as [ss'|]; [|discriminate].
    injection H as <-. cbn [List.map]. now rewrite (IH ss' eq_refl).
Qed.

(** An entry of [vehicle_data] of the documented shape. *)
Lemma vehicle_of_inv (vehicle : Py) (vd : VehicleData) :
  vehicle_of vehicle = Some vd ->
  exists d,
    vehicle = PDict d /\
    dict_get "route" d = Some (PList (List.map PInt (route vd))) /\
    dict_get "type" d = Some (PList (List.map PStr (type vd))).
Proof.
  unfold vehicle_of. destruct vehicle as [| | | | | |d]; try discriminate.
  destruct (dict_get "route" d) as [[| | | | |r|]|] eqn:Eroute; try discriminate.
  destruct (dict_get "type" d) as [[| | | | |t|]|] eqn:Etype; try discriminate.
  destruct (as_ints r) as [zs|] eqn:Er; [|discriminate].
  destruct (as_strs t) as [ss|] eqn:Et; [|discriminate].
  intros H. injection H as <-. exists d. cbn [route type].
  split; [reflexivity|].
  now rewrite <- (as_ints_inv r zs Er), <- (as_strs_inv t ss Et).
Qed.

(** On such an entry the inner loop is the loop on the two lists. *)
Lemma convert_steps_typed (d : list (string * Py)) (tags : list string) (locs : list Z) :
  dict_get "type" d = Some (PList (List.map PStr tags)) ->
  forall count steps,
    convert_steps (PDict d) (List.map PInt locs) count steps
    = typed_steps locs tags count steps.
Proof.
  intros Htype. induction locs as [|loc rest IH]; intros count steps; [reflexivity|].
  cbn [List.map convert_steps typed_steps py_getitem]. rewrite Htype.
  cbn [and_then ok py_len]. rewrite length_map.
  destruct (count <? List.length tags)%nat eqn:Hlt; cbn [andb and_then ok].
  - apply Nat.ltb_lt in Hlt. cbn [py_index].
    rewrite (nth_error_nth' _ (PStr "")) by now rewrite length_map.
    change (PStr "") with (PStr (EmptyString)).
    rewrite (map_nth PStr tags EmptyString count).
    cbn [and_then ok is_str format_value].
    destruct (String.eqb (nth count tags "") "w"); cbn [negb and_then ok].
    + apply IH.
    + unfold readable_lookup. destruct (readable_map loc) as [name|]; cbn [and_then ok].
      * apply IH.
      * reflexivity.
  - apply IH.
Qed.

(** The loop over the vehicles leaves the other keys alone. *)
Lemma convert_vehicles_frame (vehicles : Py) (ids : list string) :
  forall acc out,
    convert_vehicles vehicles ids acc = inr out ->
    forall v, ~ In v ids -> dict_get v out = dict_get v acc.
Proof.
  induction ids as [|v0 rest IH]; intros acc out H v Hv.
  - simpl in H. now injection H as <-.
  - simpl in Hv. cbn [convert_vehicles] in H.
    step H vehicle Hvehicle. step H r Hr. step H locs Hlocs. step H steps Hsteps.
    rewrite (IH _ _ H v) by (intros Hin; apply Hv; now right).
    assert (Hne : v0 <> v) by (intros ->; apply Hv; now left).
    rewrite dict_get_set_other by exact Hne.
    destruct (dict_get v0 acc); [reflexivity|].
    now apply dict_get_set_other.
Qed.

(** The readable route of a vehicle of the documented shape is what
    the loop on its two lists gives. *)
Lemma convert_vehicles_lookup (d : list (string * Py)) (ids : list string) :
  forall acc out,
    NoDup ids ->
    (forall v, In v ids -> dict_get v acc = None) ->
    convert_vehicles (PDict d) ids acc = inr out ->
    forall v vehicle vd,
      In v ids ->
      dict_get v d = Some vehicle ->
      vehicle_of vehicle = Some vd ->
      exists steps,
        dict_get v out = Some steps /\
        typed_steps (route vd) (type vd) 0 [] = inr steps.
Proof.
  induction ids as [|v0 rest IH]; intros acc out Hnd Hfresh H v vehicle vd Hin Hv Hvd.
  - contradiction.
  - apply NoDup_cons_iff in Hnd. destruct Hnd as [Hnotin Hnd].
    cbn [convert_vehicles] in H.
    rewrite (Hfresh v0) in H by now left.
    rewrite dict_get_set_same in H.
    step H vehicle0 Hvehicle. step H r Hr. step H locs Hlocs. step H steps Hsteps.
    destruct (string_dec v0 v) as [-> | Hne].
    + cbn [py_getitem] in Hvehicle. rewrite Hv in Hvehicle.
      injection Hvehicle as <-.
      destruct (vehicle_of_inv _ _ Hvd) as (dv & -> & Hroute & Htype).
      cbn [py_getitem] in Hr. rewrite Hroute in Hr. injection Hr as <-.
      injection Hlocs as <-.
      rewrite (convert_steps_typed dv (type vd) (route vd) Htype) in Hsteps.
      exists steps. split; [|exact Hsteps].
      rewrite (convert_vehicles_frame _ _ _ _ H v Hnotin).
      apply dict_get_set_same.
    + destruct Hin as [Heq | Hin]; [contradiction|].
      apply (IH _ _ Hnd) with (v := v) (vehicle := vehicle) (vd := vd) in H;
        try assumption.
      intros v' Hv'.
      assert (Hne' : v0 <> v') by (intros ->; contradiction).
      rewrite !dict_get_set_other by exact Hne'.
      apply Hfresh. now right.
Qed.

(** A solution the gateway returns was read from a response of the
    solver. *)
Lemma solve_fn_solved (config : CuoptSolverConfig) (input_data : Py)
      (sol : Solution) (raw : Py) :
  Leaf (Solved sol raw) (_solve_fn config input_data) ->
  exists response, read_response response = inr (Solved sol raw).
Proof.
  unfold _solve_fn.
  destruct (check_input config input_data) as [e | [err | api_key cuopt_input]].
  - intros H. apply Leaf_Ret_inv in H. discriminate.
  - intros H. apply Leaf_Ret_inv in H. discriminate.
  - intros H. apply Leaf_bind_inv in H. destruct H as [r [_ H]].
    destruct r as [e | response0].
    + apply Leaf_Ret_inv in H. discriminate.
    + apply Leaf_bind_inv in H. destruct H as [final [_ H]].
      apply Leaf_Ret_inv in H.
      destruct final as [e | response]; [discriminate|].
      exists response. simpl in H.
      destruct (read_response response) as [e | result]; [discriminate|].
      simpl in H. now subst.
Qed.

(** What a reply that gave a solution looks like: it has the nesting
    [response.solver_response], a dictionary; the status, the cost and
    the vehicle data of the solution are what [.get] gives on it; and
    the readable routes are those of its vehicle data. *)
Lemma process_reply_inv (solution : Py) (sol : Solution) (raw : Py) :
  process_reply solution = inr (Solved sol raw) ->
  raw = solution /\
  exists sr,
    py_path ["response"; "solver_response"] solution = Some (PDict sr) /\
    sol_status sol = match dict_get "status" sr with Some v => v | None => PNone end /\
    sol_solution_cost sol
    = match dict_get "solution_cost" sr with Some v => v | None => PNone end /\
    sol_vehicle_data sol
    = match dict_get "vehicle_data" sr with Some v => v | None => PDict [] end /\
    match dict_get "vehicle_data" sr with
    | Some vehicles => convert_routes vehicles = inr (readable_routes sol)
    | None => readable_routes sol = []
    end.
Proof.
  unfold process_reply. intros H. step H nested Hnested.
  destruct nested; [|discriminate].
  step H response Hresponse. step H solver_response Hsr.
  step H has_vehicles Hhas. step H converted Hconv.
  step H st Hst. step H cost Hcost. step H vd Hvd.
  injection H as <- <-. split; [reflexivity|].
  destruct solution as [| | | | | |ds]; try discriminate.
  cbn [py_getitem] in Hresponse.
  destruct (dict_get "response" ds) as [r|] eqn:Er; [|discriminate].
  injection Hresponse as ->.
  destruct response as [| | | | | |dr]; try discriminate.
  cbn [py_getitem] in Hsr.
  destruct (dict_get "solver_response" dr) as [sr0|] eqn:Esr; [|discriminate].
  injection Hsr as ->.
  destruct solver_response as [| | | | | |sr]; try discriminate.
  exists sr. cbn [py_path]. rewrite Er. cbn [py_path]. rewrite Esr.
  cbn [py_get ok] in Hst, Hcost, Hvd. cbn [py_contains ok] in Hhas.
  injection Hst as <-. injection Hcost as <-. injection Hvd as <-.
  injection Hhas as <-. cbn [sol_status sol_solution_cost sol_vehicle_data readable_routes].
  split; [reflexivity|]. split; [reflexivity|]. split; [reflexivity|]. split; [reflexivity|].
  cbn [py_getitem] in Hconv.
  destruct (dict_get "vehicle_data" sr) as [vehicles|].
  - exact Hconv.
  - now injection Hconv as <-.
Qed.

Lemma read_response_inv (response : HttpResponse) (sol : Solution) (raw : Py) :
  read_response response = inr (Solved sol raw) ->
  ~ error_status (status_code response) /\
  body response = BodyJson raw /\
  process_reply raw = inr (Solved sol raw).
Proof.
  unfold read_response, raise_for_status, error_status. intros H.
  destruct ((400 <=? status_code response) && (status_code response <? 600))%bool eqn:Es;
    [discriminate|].
  cbn [and_then ok] in H. split.
  - intros [H1 H2]. apply andb_false_iff in Es.
    destruct Es as [Es | Es]; [apply Z.leb_gt in Es | apply Z.ltb_ge in Es]; lia.
  - destruct (body response) as [e | solution]; [discriminate|].
    destruct (process_reply_inv _ _ _ H) as [-> _]. now split.
Qed.

(** The readable route of a vehicle of the documented shape, in a
    solution the gateway returns. *)
Lemma solved_route (config : CuoptSolverConfig) (input_data : Py)
      (sol : Solution) (raw : Py) (vehicles : list (string * Py)) (v : string)
      (vehicle : Py) (vd : VehicleData) :
  Leaf (Solved sol raw) (_solve_fn config input_data) ->
  sol_vehicle_data sol = PDict vehicles ->
  NoDup (List.map Datatypes.fst vehicles) ->
  dict_get v vehicles = Some vehicle ->
  vehicle_of vehicle = Some vd ->
  exists steps,
    dict_get v (readable_routes sol) = Some steps /\
    typed_steps (route vd) (type vd) 0 [] = inr steps.
Proof.
  intros Hleaf Hdata Hnd Hv Hvd.
  destruct (solve_fn_solved _ _ _ _ Hleaf) as [response Hread].
  destruct (read_response_inv _ _ _ Hread) as (_ & _ & Hreply).
  destruct (process_reply_inv _ _ _ Hreply) as (_ & sr & _ & _ & _ & Hvehicles & Hconv).
  rewrite Hdata in Hvehicles.
  destruct (dict_get "vehicle_data" sr) as [vs|].
  - subst vs. cbn [convert_routes] in Hconv.
    apply (convert_vehicles_lookup vehicles _ [] _ Hnd (fun _ _ => eq_refl) Hconv
             v vehicle vd); [|exact Hv | exact Hvd].
    now apply dict_get_in_keys with vehicle.
  - injection Hvehicles as ->. discriminate.
Qed.

(** C3.  In a solution the gateway returns, for every vehicle of the
    documented shape (a route of integers, tags that are strings) whose
    route and tags have the same length, the readable route has one
    step for each tag that is not the wait tag 'w'.  ([vehicle_data] is
    a dictionary: each vehicle id is there once.) *)
Theorem readable_route_length (config : CuoptSolverConfig) (input_data : Py)
        (sol : Solution) (raw : Py) (vehicles : list (string * Py)) (v : string)
        (vehicle : Py) (vd : VehicleData) :
  Leaf (Solved sol raw) (_solve_fn config input_data) ->
  sol_vehicle_data sol = PDict vehicles ->
  NoDup (List.map Datatypes.fst vehicles) ->
  dict_get v vehicles = Some vehicle ->
  vehicle_of vehicle = Some vd ->
  List.length (route vd) = List.length (type vd) ->
  exists steps,
    dict_get v (readable_routes sol) = Some steps /\
    List.length steps = non_wait (type vd).
Proof.
  intros Hleaf Hdata Hnd Hv Hvd Hlen.
  destruct (solved_route _ _ _ _ _ _ _ _ Hleaf Hdata Hnd Hv Hvd) as [steps [Hget Hsteps]].
  exists steps. split; [exact Hget|].
  apply (typed_steps_length (route vd) [] (type vd) [] steps Hlen Hsteps).
Qed.

(** *** Errors through the pipeline *)

Lemma prepare_fn_missing (input : list (string * Py)) :
  missing_or_empty input ->
  _prepare_fn (PDict input) = error_dict missing_data_error.
Proof.
  intros [H | [H | H]]; unfold _prepare_fn, prepare_body, transport_frame;
    simpl; rewrite H; reflexivity.
Qed.

Lemma modify_fn_failed (st : Store) (analysis_result : Py) (e : Exn) :
  modify_body st analysis_result = inl e ->
  _modify_data_fn st analysis_result
  = error_dict ("Data modification failed: " ++ exn_str e).
Proof. intros H. unfold _modify_data_fn. now rewrite H. Qed.

(** What the gateway makes of the error dictionary of an earlier
    stage. *)
Lemma solve_fn_error_dict (config : CuoptSolverConfig) (msg : string) :
  (has_api_key (cuopt_api_key config) ->
   _solve_fn config (error_dict msg) = Ret (SolveError (PStr msg))) /\
  (cuopt_api_key config = "" -> environ_api_key = "" ->
   _solve_fn config (error_dict msg) = Ret (SolveError (PStr no_api_key_error))).
Proof.
  split.
  - intros Hkey. unfold _solve_fn.
    now rewrite (check_input_upstream config (error_dict msg)
                   [("error", PStr msg)] (PStr msg) Hkey eq_refl eq_refl).
  - intros Hc He. unfold _solve_fn. now rewrite check_input_no_key.
Qed.

Lemma api_key_cases (key : string) :
  has_api_key key \/ (key = "" /\ environ_api_key = "").
Proof.
  unfold has_api_key.
  destruct (string_dec key "") as [Hk | Hk]; [|left; now left].
  destruct (string_dec environ_api_key "") as [He | He].
  - right. now split.
  - left. now right.
Qed.

(** The orchestrator on a run whose gateway is a leaf. *)
Lemma process_query_leaf (config : AgentConfig) (st : Store) (q : string)
      (result : SolveResult) :
  _solve_fn {| cuopt_api_key := agent_cuopt_api_key config |}
            (_prepare_fn (_modify_data_fn st (_analyze_fn q)))
  = Ret result ->
  process_query config st q ≅ Ret (finish_query config (initial_state q) result).
Proof.
  intros H. unfold process_query. rewrite H, bind_ret_l. reflexivity.
Qed.

Lemma finish_query_error (config : AgentConfig) (state : FactoryState) (e : Py) :
  In e (res_errors (finish_query config state (SolveError e))) /\
  res_solution (finish_query config state (SolveError e)) = solution state.
Proof.
  unfold finish_query, create_visualizations. simpl.
  destruct (visualization_enabled config); simpl.
  - destruct (visualize_factory_state _ _); simpl;
      (split; [|reflexivity]); apply in_or_app; simpl; auto.
    left. apply in_or_app. simpl. auto.
  - split; [|reflexivity]. apply in_or_app. simpl. auto.
Qed.

(** Without an API key the errors of a run are the error of the missing
    key and, at most, one of the visualization. *)
Lemma finish_query_errors (config : AgentConfig) (q : string) (e e' : Py) :
  In e' (res_errors (finish_query config (initial_state q) (SolveError e))) ->
  e' = e \/ exists msg, e' = PStr ("Visualization failed: " ++ msg).
Proof.
  unfold finish_query, create_visualizations. simpl.
  destruct (visualization_enabled config); simpl.
  - destruct (visualize_factory_state _ _) as [exn|]; simpl.
    + intros [<- | [<- | []]]; [now left | right; now exists (exn_str exn)].
    + intros [<- | []]. now left.
  - intros [<- | []]. now left.
Qed.

(** C4.  When the body of the Data Modifier raises (while it loads or
    transforms), what it returns is the single entry
    [{"error": message}].  On it the Problem Builder builds no problem
    and returns its error of the missing order set, the gateway is a
    leaf that returns an error, so no request is made, and the run of
    the orchestrator ends without requests, with no solution and with
    an error in its list. *)
Theorem modifier_failure_stops_pipeline (st : Store) (analysis_result : Py) (e : Exn) :
  modify_body st analysis_result = inl e ->
  _modify_data_fn st analysis_result
  = PDict [("error", PStr ("Data modification failed: " ++ exn_str e))] /\
  _prepare_fn (_modify_data_fn st analysis_result) = error_dict missing_data_error /\
  (forall config, exists err,
      _solve_fn config (_prepare_fn (_modify_data_fn st analysis_result))
      = Ret (SolveError err)) /\
  (forall config q,
      analysis_result = _analyze_fn q ->
      exists result,
        process_query config st q ≅ Ret result /\
        res_solution result = None /\
        res_errors result <> []).
Proof.
  intros H.
  pose proof (modify_fn_failed st analysis_result e H) as Hmod.
  assert (Hprep : _prepare_fn (_modify_data_fn st analysis_result)
                  = error_dict missing_data_error).
  { rewrite Hmod. apply prepare_fn_missing. now left. }
  assert (Hsolve : forall config, exists err,
             _solve_fn config (_prepare_fn (_modify_data_fn st analysis_result))
             = Ret (SolveError err)).
  { intros config. rewrite Hprep.
    destruct (solve_fn_error_dict config missing_data_error) as [Hkey Hnokey].
    destruct (api_key_cases (cuopt_api_key config)) as [Hk | [Hc He]].
    - eexists. now apply Hkey.
    - eexists. now apply Hnokey. }
  repeat split; try assumption.
  intros config q ->.
  destruct (Hsolve {| cuopt_api_key := agent_cuopt_api_key config |}) as [err Herr].
  exists (finish_query config (initial_state q) (SolveError err)).
  split; [now apply process_query_leaf|].
  destruct (finish_query_error config (initial_state q) err) as [Hin Hsol].
  split; [exact Hsol|].
  intros Hnil. rewrite Hnil in Hin. contradiction.
Qed.

(** C5 (amended).  When the order set that reaches the Problem Builder
    is missing or empty, the Problem Builder returns an error whose
    message says so.  In a run of the orchestrator the final list of
    errors contains that message when an API key is configured; when
    none is, the gateway has replaced it by the error of the missing
    key, and the list does not contain it. *)
Theorem empty_order_set_error (input : list (string * Py)) :
  missing_or_empty input ->
  (_prepare_fn (PDict input) = error_dict missing_data_error /\
   contains "missing or empty" missing_data_error = true) /\
  (forall config st q,
      _modify_data_fn st (_analyze_fn q) = PDict input ->
      has_api_key (agent_cuopt_api_key config) ->
      exists result,
        process_query config st q ≅ Ret result /\
        In (PStr missing_data_error) (res_errors result)) /\
  (forall config st q,
      _modify_data_fn st (_analyze_fn q) = PDict input ->
      agent_cuopt_api_key config = "" -> environ_api_key = "" ->
      exists result,
        process_query config st q ≅ Ret result /\
        In (PStr no_api_key_error) (res_errors result) /\
        ~ In (PStr missing_data_error) (res_errors result)).
Proof.
  intros Hmiss.
  pose proof (prepare_fn_missing input Hmiss) as Hprep.
  split; [split; [exact Hprep | reflexivity]|].
  split.
  - intros config st q Hmod Hkey.
    exists (finish_query config (initial_state q) (SolveError (PStr missing_data_error))).
    split.
    + apply process_query_leaf. rewrite Hmod, Hprep.
      now apply (solve_fn_error_dict {| cuopt_api_key := agent_cuopt_api_key config |}).
    + apply finish_query_error.
  - intros config st q Hmod Hc He.
    exists (finish_query config (initial_state q) (SolveError (PStr no_api_key_error))).
    split; [|split].
    + apply process_query_leaf. rewrite Hmod, Hprep.
      now apply (solve_fn_error_dict {| cuopt_api_key := agent_cuopt_api_key config |}).
    + apply finish_query_error.
    + intros Hin. apply finish_query_errors in Hin.
      destruct Hin as [Hin | [msg Hin]]; discriminate.
Qed.

(** ** Further properties of the stages *)

(** *** The Query Interpreter *)

Lemma create_default_analysis_dict (q : string) :
  exists d, create_default_analysis q = PDict d.
Proof.
  unfold create_default_analysis.
  destruct (contains "2 forklifts" (lower q) || contains "two forklifts" (lower q))%bool;
    [|destruct (contains "3 forklifts" (lower q) || contains "three forklifts" (lower q))%bool];
    destruct (contains "two items" (lower q) || contains "2 items" (lower q)
              || contains "carry two" (lower q))%bool;
    eexists; reflexivity.
Qed.

Lemma dict_set_set {A} (k : string) (v v' : A) (d : list (string * A)) :
  dict_set k v' (dict_set k v d) = dict_set k v' d.
Proof.
  induction d as [|[k0 v0] d IH]; simpl.
  - now rewrite String.eqb_refl.
  - destruct (String.eqb k0 k) eqn:E; simpl.
    + now rewrite String.eqb_refl.
    + now rewrite E, IH.
Qed.

(** The forced assignment goes through on a dictionary whose
    [required_analyses], when there, is a dictionary, and on nothing
    else. *)
Lemma force_visualization_inv (analysis analysis' : Py) :
  force_visualization analysis = inr analysis' ->
  exists d ra,
    analysis = PDict d /\
    (dict_get "required_analyses" d = Some (PDict ra) \/
     dict_get "required_analyses" d = None /\ ra = []) /\
    analysis'
    = PDict (dict_set "required_analyses"
               (PDict (dict_set "visualization_needed" (PBool true) ra)) d).
Proof.
  unfold force_visualization.
  destruct analysis as [| b | z | f | s | l | d]; simpl; try discriminate.
  - destruct (contains "required_analyses" s); discriminate.
  - destruct (existsb (is_str "required_analyses") l); discriminate.
  - destruct (dict_get "required_analyses" d) as [inner|] eqn:E; simpl.
    + unfold py_setitem2. simpl. rewrite E. simpl.
      destruct inner as [| | | | | |ra]; simpl; try discriminate.
      intros H. injection H as <-. exists d, ra. auto.
    + unfold py_setitem2. simpl. rewrite dict_get_set_same. simpl.
      intros H. injection H as <-. exists d, []. repeat split; [now right|].
      now rewrite dict_set_set.
Qed.

(** X1.  Whatever the language model returns, the analysis is a
    dictionary: the [.get] calls of the Data Modifier on it cannot raise
    for want of the method. *)
Theorem analysis_is_dict (q : string) :
  exists d, _analyze_fn q = PDict d.
Proof.
  unfold _analyze_fn.
  destruct (analyze_body q) as [e | analysis] eqn:E.
  - apply create_default_analysis_dict.
  - unfold analyze_body in E.
    destruct (llm q) as [e | content]; [discriminate|].
    destruct (parse_analysis q content) as [e | parsed]; [discriminate|].
    simpl in E. apply force_visualization_inv in E.
    destruct E as (d & ra & _ & _ & ->). eexists. reflexivity.
Qed.


Lemma prefix_app (s t : string) : prefix s (s ++ t) = true.
Proof.
  induction s as [|c s IH]; simpl; [now destruct t|].
  destruct (ascii_dec c c) as [_ | Hne]; [exact IH | contradiction].
Qed.

Lemma contains_app (needle pre post : string) :
  contains needle (pre ++ needle ++ post) = true.
Proof.
  induction pre as [|c pre IH].
  - change ("" ++ needle ++ post) with (needle ++ post).
    pose proof (prefix_app needle post) as Hp.
    destruct (needle ++ post); cbn [contains]; now rewrite Hp.
  - change (String c pre ++ needle ++ post) with (String c (pre ++ needle ++ post)).
    cbn [contains]. rewrite IH. apply orb_true_r.
Qed.

(** X3.  The keyword default looks for "2 forklifts" anywhere in the
    lower-cased query and before it looks for "3 forklifts": a query
    with "12 forklifts" in it, or with both, gets a fleet of 2. *)
Theorem fallback_reads_substring (q pre post : string) :
  lower q = pre ++ "2 forklifts" ++ post ->
  py_path ["fleet_changes"; "modify_fleet_size"] (create_default_analysis q)
  = Some (PDict [("needed", PBool true); ("new_size", PInt 2)]).
Proof.
  intros H. unfold create_default_analysis.
  rewrite H, contains_app. cbn [orb].
  destruct (contains "two items" (pre ++ "2 forklifts" ++ post)
            || contains "2 items" (pre ++ "2 forklifts" ++ post)
            || contains "carry two" (pre ++ "2 forklifts" ++ post))%bool;
    reflexivity.
Qed.

(** X4.  When the language model is not available, no query changes the
    order set: the keyword default knows fleet sizes and capacities
    only, so the Data Modifier returns the loaded orders as they are,
    also for a query that asks to remove or to add an order. *)
Theorem fallback_keeps_orders (st : Store) (q : string) (e : Exn) (loaded : Frame) :
  llm q = LlmRaises e ->
  load_transport_data st = inr loaded ->
  exists fleet_changes,
    _modify_data_fn st (_analyze_fn q)
    = PDict [ ("transport_data", to_records loaded);
              ("fleet_changes", fleet_changes);
              ("query_type", PStr "route_optimization") ].
Proof.
  intros Hllm Hload.
  unfold _analyze_fn, analyze_body. rewrite Hllm.
  unfold _modify_data_fn, modify_body. rewrite Hload.
  unfold create_default_analysis.
  destruct (contains "2 forklifts" (lower q) || contains "two forklifts" (lower q))%bool;
    [|destruct (contains "3 forklifts" (lower q) || contains "three forklifts" (lower q))%bool];
    destruct (contains "two items" (lower q) || contains "2 items" (lower q)
              || contains "carry two" (lower q))%bool;
    eexists; reflexivity.
Qed.

Lemma string_app_assoc (a b c : string) : (a ++ b) ++ c = a ++ b ++ c.
Proof. induction a as [|x a IH]; simpl; [reflexivity | now rewrite IH]. Qed.

Lemma string_app_length (a b : string) :
  String.length (a ++ b) = (String.length a + String.length b)%nat.
Proof. induction a as [|x a IH]; simpl; [reflexivity | now rewrite IH]. Qed.

Lemma find_range (c : ascii) (s : string) : find c s = -1 \/ 0 <= find c s.
Proof.
  induction s as [|a s IH]; simpl; [now left|].
  destruct (Ascii.eqb a c); [right; lia|].
  destruct (find c s <? 0) eqn:E; [now left|].
  apply Z.ltb_ge in E. right. lia.
Qed.

Lemma find_app (c : ascii) (pre rest : string) :
  find c pre = -1 ->
  find c (pre ++ String c rest) = Z.of_nat (String.length pre).
Proof.
  induction pre as [|a pre IH]; intros H.
  - simpl. now rewrite Ascii.eqb_refl.
  - simpl in H |- *. destruct (Ascii.eqb a c); [discriminate|].
    destruct (find_range c pre) as [Hr | Hr].
    + rewrite (IH Hr).
      destruct (Z.of_nat (String.length pre) <? 0) eqn:E; [|lia].
      apply Z.ltb_lt in E. lia.
    + destruct (find c pre <? 0) eqn:E; [apply Z.ltb_lt in E|]; lia.
Qed.

Lemma rfind_app (c : ascii) (pre post : string) :
  rfind c post = -1 ->
  rfind c (pre ++ String c post) = Z.of_nat (String.length pre).
Proof.
  intros H. induction pre as [|a pre IH].
  - simpl. rewrite H. simpl. now rewrite Ascii.eqb_refl.
  - cbn [append rfind String.length]. rewrite IH.
    destruct (0 <=? Z.of_nat (String.length pre)) eqn:E; [lia|].
    apply Z.leb_gt in E. lia.
Qed.

Lemma substring_prefix (s post : string) :
  substring 0 (String.length s) (s ++ post) = s.
Proof.
  induction s as [|a s IH]; simpl.
  - now destruct post.
  - now rewrite IH.
Qed.

Lemma substring_app (pre s post : string) :
  substring (String.length pre) (String.length s) (pre ++ s ++ post) = s.
Proof.
  induction pre as [|a pre IH]; simpl.
  - apply substring_prefix.
  - exact IH.
Qed.

(** X5.  When the text of the language model is not JSON as a whole,
    what is parsed next is the text from its first opening brace to its
    last closing brace, both included; what stands before and after is
    dropped.  If that parses, it is the analysis. *)
Theorem brace_extraction (q content pre mid post : string) (e : Exn) (analysis : Py) :
  content = pre ++ "{" ++ mid ++ "}" ++ post ->
  find "{"%char pre = -1 ->
  rfind "}"%char post = -1 ->
  json_loads content = JSONDecodeError e ->
  json_loads ("{" ++ mid ++ "}") = JsonValue analysis ->
  slice content (find "{"%char content) (rfind "}"%char content + 1) = "{" ++ mid ++ "}" /\
  parse_analysis q content = inr analysis.
Proof.
  intros Hc Hpre Hpost Hfail Hok.
  assert (Hfind : find "{"%char content = Z.of_nat (String.length pre)).
  { rewrite Hc. apply (find_app "{"%char pre (mid ++ "}" ++ post) Hpre). }
  assert (Hrfind : rfind "}"%char content
                   = Z.of_nat (String.length (pre ++ "{" ++ mid))).
  { rewrite Hc.
    replace (pre ++ "{" ++ mid ++ "}" ++ post)
      with ((pre ++ "{" ++ mid) ++ String "}"%char post)
      by (now rewrite !string_app_assoc).
    apply (rfind_app "}"%char _ post Hpost). }
  assert (Hslice : slice content (find "{"%char content) (rfind "}"%char content + 1)
                   = "{" ++ mid ++ "}").
  { unfold slice. rewrite Hfind, Hrfind, Nat2Z.id.
    replace (Z.to_nat (Z.of_nat (String.length (pre ++ "{" ++ mid)) + 1
                       - Z.of_nat (String.length pre)))
      with (String.length ("{" ++ mid ++ "}")).
    - rewrite Hc.
      replace (pre ++ "{" ++ mid ++ "}" ++ post)
        with (pre ++ ("{" ++ mid ++ "}") ++ post)
        by (now rewrite !string_app_assoc).
      apply substring_app.
    - rewrite !string_app_length. simpl. lia. }
  split; [exact Hslice|].
  unfold parse_analysis. rewrite Hfail, Hslice, Hok.
  rewrite Hfind, Hrfind.
  destruct ((0 <=? Z.of_nat (String.length pre))
            && (Z.of_nat (String.length pre)
                <? Z.of_nat (String.length (pre ++ "{" ++ mid)) + 1))%bool eqn:E;
    [reflexivity|].
  apply andb_false_iff in E. rewrite string_app_length in E.
  destruct E as [E | E]; [apply Z.leb_gt in E | apply Z.ltb_ge in E]; lia.
Qed.

(** *** The Data Modifier: search, removal, addition *)

Lemma first_existing_skips (n : nat) (paths : list (option ReadOutcome)) :
  first_existing (repeat None n ++ paths) = first_existing paths.
Proof. induction n as [|n IH]; simpl; [reflexivity | exact IH]. Qed.

(** X6.  The order table is the first of the candidate files that
    exists, as [read_csv] reads it: when reading it raises, no later
    candidate, no directory of the walk and no built-in data is tried.
    The walk is used when no candidate exists, and the built-in nine
    orders when the walk finds nothing either. *)
Theorem load_search_order (n : nat) :
  (forall r rest w,
      load_transport_data
        {| potential_paths := repeat None n ++ Some r :: rest; walk := w |}
      = read_result r) /\
  (forall r w,
      load_transport_data {| potential_paths := repeat None n; walk := r :: w |}
      = read_result r) /\
  load_transport_data {| potential_paths := repeat None n; walk := [] |}
  = inr default_transport_data /\
  List.length default_transport_data = 9%nat.
Proof.
  assert (Hnone : first_existing (repeat None n) = None).
  { rewrite <- (app_nil_r (repeat None n)). now rewrite first_existing_skips. }
  repeat split.
  - intros r rest w. unfold load_transport_data. simpl.
    rewrite first_existing_skips. simpl. now destruct r.
  - intros r w. unfold load_transport_data. simpl. rewrite Hnone. now destruct r.
  - unfold load_transport_data. simpl. now rewrite Hnone.
Qed.

Lemma as_ints_ints (zs : list Z) : as_ints (List.map PInt zs) = Some zs.
Proof. induction zs as [|z zs IH]; simpl; [reflexivity | now rewrite IH]. Qed.

(** The start of the Data Modifier on a request of removal: up to the
    call of [drop]. *)
Lemma modify_body_removal (st : Store) (request : list (string * Py))
      (labels : list Z) (loaded : Frame) :
  load_transport_data st = inr loaded ->
  removal_request request labels ->
  labels <> [] ->
  exists changes,
    dict_get "transport_data_changes" request = Some (PDict changes) /\
    modify_body st (PDict request)
    = (let* modified_data := pd_drop loaded (PList (List.map PInt labels)) in
       let new_orders := match dict_get "new_orders" request with
                         | Some v => v
                         | None => PList []
                         end in
       let* modified_data :=
         if truthy new_orders then
           let* new_orders_df := pd_DataFrame new_orders in
           let* modified_data := pd_concat modified_data new_orders_df in
           let* _ := py_len new_orders in
           ok modified_data
         else ok modified_data in
       let* _ := let* service_time_changes :=
                   py_get (PDict changes) "modify_service_times" (PDict []) in
                 edit_needed service_time_changes in
       let* _ := let* time_window_changes :=
                   py_get (PDict changes) "modify_time_windows" (PDict []) in
                 edit_needed time_window_changes in
       ok (PDict [ ("transport_data", to_records modified_data);
                   ("fleet_changes",
                     match dict_get "fleet_changes" request with
                     | Some v => v
                     | None => PDict []
                     end);
                   ("query_type",
                     match dict_get "query_type" request with
                     | Some v => v
                     | None => PStr "route_optimization"
                     end) ])).
Proof.
  intros Hload (changes & ro & needed & Hch & Hro & Hnd & Ht & Hidx) Hne.
  exists changes. split; [exact Hch|].
  unfold modify_body. rewrite Hload. simpl. rewrite Hch. simpl. rewrite Hro. simpl.
  assert (Hrm : edit_needed (PDict ro) = inr true).
  { unfold edit_needed. simpl. rewrite Hnd, Ht.
    destruct ro; [discriminate|reflexivity]. }
  rewrite Hrm. simpl. rewrite Hidx.
  assert (Htruthy : truthy (PList (List.map PInt labels)) = true).
  { destruct labels; [contradiction|reflexivity]. }
  rewrite Htruthy.
  destruct (pd_drop loaded (PList (List.map PInt labels))) as [e | dropped];
    simpl; [reflexivity|].
  destruct (truthy match dict_get "new_orders" request with
                   | Some v => v
                   | None => PList []
                   end); simpl; [|reflexivity].
  destruct (pd_DataFrame _) as [e | df]; simpl; [reflexivity|].
  destruct (pd_concat dropped df) as [e | joined]; simpl; [reflexivity|].
  destruct (py_len _) as [e | len]; simpl; reflexivity.
Qed.

Lemma drop_rows_one (f : Frame) :
  forall i k,
    drop_rows [Z.of_nat (i + k)] (Z.of_nat i) f = (firstn k f ++ skipn (S k) f)%list.
Proof.
  induction f as [|r f IH]; intros i k.
  - now destruct k.
  - cbn [drop_rows mem_Z existsb]. rewrite orb_false_r.
    destruct k as [|k].
    + rewrite Nat.add_0_r, Z.eqb_refl. simpl.
      replace (Z.of_nat i + 1) with (Z.of_nat (S i)) by lia.
      clear IH. revert i. induction f as [|r' f IH']; intros i; [reflexivity|].
      cbn [drop_rows mem_Z existsb]. rewrite orb_false_r.
      destruct (Z.of_nat (S i) =? Z.of_nat i) eqn:E; [apply Z.eqb_eq in E; lia|].
      f_equal. replace (Z.of_nat (S i) + 1) with (Z.of_nat (S (S i))) by lia.
      specialize (IH' (S i)).
      assert (Hgen : forall j, (i < j)%nat ->
                       drop_rows [Z.of_nat i] (Z.of_nat j) f = f).
      { clear. induction f as [|r f IH]; intros j Hj; [reflexivity|].
        cbn [drop_rows mem_Z existsb]. rewrite orb_false_r.
        destruct (Z.of_nat j =? Z.of_nat i) eqn:E; [apply Z.eqb_eq in E; lia|].
        f_equal. replace (Z.of_nat j + 1) with (Z.of_nat (S j)) by lia.
        apply IH. lia. }
      apply Hgen. lia.
    + destruct (Z.of_nat i =? Z.of_nat (i + S k)) eqn:E; [apply Z.eqb_eq in E; lia|].
      simpl. f_equal.
      replace (Z.of_nat i + 1) with (Z.of_nat (S i)) by lia.
      replace (i + S k)%nat with (S i + k)%nat by lia.
      apply IH.
Qed.

(** X7.  A request to remove the order at one position [k] of the
    loaded table, with no order to add: the orders returned are the
    loaded ones without the one at [k], in their order, one fewer. *)
Theorem remove_one_order (st : Store) (request : list (string * Py))
        (loaded : Frame) (k : nat) :
  load_transport_data st = inr loaded ->
  (k < List.length loaded)%nat ->
  removal_request request [Z.of_nat k] ->
  no_new_orders request ->
  logged_edits_are_dicts request ->
  exists records,
    py_path ["transport_data"] (_modify_data_fn st (PDict request)) = Some (PList records) /\
    records = List.map PDict (firstn k loaded ++ skipn (S k) loaded) /\
    S (List.length records) = List.length loaded.
Proof.
  intros Hload Hk Hreq Hnew Hedits.
  destruct (modify_body_removal st request [Z.of_nat k] loaded Hload Hreq)
    as [changes [Hch Hbody]]; [discriminate|].
  unfold _modify_data_fn. rewrite Hbody. clear Hbody.
  assert (Hdrop : pd_drop loaded (PList (List.map PInt [Z.of_nat k]))
                  = inr (firstn k loaded ++ skipn (S k) loaded)%list).
  { unfold pd_drop. cbn [int_labels List.map as_ints filter].
    assert (Hlabel : is_label (List.length loaded) (Z.of_nat k) = true).
    { unfold is_label. apply andb_true_iff. split;
        [apply Z.leb_le | apply Z.ltb_lt]; lia. }
    rewrite Hlabel. cbn [negb].
    unfold ok. f_equal. exact (drop_rows_one loaded 0%nat k). }
  rewrite Hdrop. cbn [and_then].
  assert (Hnone : truthy (match dict_get "new_orders" request with
                          | Some v => v
                          | None => PList []
                          end) = false).
  { destruct Hnew as [-> | ->]; reflexivity. }
  rewrite Hnone. cbn [and_then ok].
  assert (Hedit : forall key, In key ["modify_service_times"; "modify_time_windows"] ->
                    exists b, (let* c := py_get (PDict changes) key (PDict []) in
                               edit_needed c) = inr b).
  { intros key Hkey. simpl. apply edit_needed_shape.
    destruct (dict_get key changes) as [edit|] eqn:Ek; [|discriminate].
    apply (Hedits key edit Hkey). simpl. rewrite Hch. simpl. now rewrite Ek. }
  destruct (Hedit "modify_service_times") as [b1 H1]; [now left|].
  destruct (Hedit "modify_time_windows") as [b2 H2]; [right; now left|].
  rewrite H1. cbn [and_then]. rewrite H2. cbn [and_then ok].
  eexists. split; [reflexivity|]. split; [reflexivity|].
  rewrite length_map, length_app, length_firstn, length_skipn. lia.
Qed.

(** X8.  A request to remove orders at integer labels of which one is
    not a position of the loaded table returns an error, whatever the
    other labels and the new orders are: nothing is removed, and a
    label cannot address an order that the same request adds. *)
Theorem remove_out_of_range (st : Store) (request : list (string * Py))
        (loaded : Frame) (labels : list Z) (z : Z) :
  load_transport_data st = inr loaded ->
  removal_request request labels ->
  In z labels ->
  ~ (0 <= z < Z.of_nat (List.length loaded)) ->
  _modify_data_fn st (PDict request)
  = error_dict ("Data modification failed: "
                ++ fault_message (LabelsNotFound (not_found (List.length loaded) labels))).
Proof.
  intros Hload Hreq Hin Hz.
  destruct (modify_body_removal st request labels loaded Hload Hreq)
    as [changes [Hch Hbody]].
  { intros ->. contradiction. }
  unfold _modify_data_fn. rewrite Hbody. clear Hbody.
  unfold pd_drop. cbn [int_labels]. rewrite as_ints_ints.
  fold (not_found (List.length loaded) labels).
  assert (Hnf : In z (not_found (List.length loaded) labels)).
  { unfold not_found. apply filter_In. split; [exact Hin|].
    unfold is_label. apply negb_true_iff. apply andb_false_iff.
    destruct (Z_lt_dec z 0) as [Hneg | Hpos].
    - left. apply Z.leb_gt. lia.
    - right. apply Z.ltb_ge. lia. }
  destruct (not_found (List.length loaded) labels) as [|m ms]; [contradiction|].
  reflexivity.
Qed.

Lemma has_key_In (k : string) (r : Row) :
  has_key k r = true <-> In k (List.map Datatypes.fst r).
Proof.
  unfold has_key. rewrite existsb_exists. split.
  - intros [k' [Hin Heq]]. apply String.eqb_eq in Heq. now subst.
  - intros Hin. exists k. split; [exact Hin | apply String.eqb_refl].
Qed.

Lemma uniform_keys_spec (rows : list Row) :
  uniform_keys rows = true <->
  (forall r r' k, In r rows -> In r' rows ->
                  In k (List.map Datatypes.fst r) -> In k (List.map Datatypes.fst r')).
Proof.
  unfold uniform_keys. split.
  - intros H r r' k Hr Hr' Hk.
    rewrite forallb_forall in H. specialize (H r Hr).
    rewrite forallb_forall in H. specialize (H r' Hr').
    rewrite forallb_forall in H. apply has_key_In. now apply H.
  - intros H. apply forallb_forall. intros r Hr.
    apply forallb_forall. intros r' Hr'.
    apply forallb_forall. intros k Hk. apply has_key_In. now apply (H r r' k).
Qed.

Lemma in_keys_dict_get {A} (k : string) (d : list (string * A)) :
  In k (List.map Datatypes.fst d) -> exists v, dict_get k d = Some v /\ In (k, v) d.
Proof.
  induction d as [|[k' v'] d IH]; simpl; [contradiction|].
  intros Hin. destruct (String.eqb k' k) eqn:E.
  - apply String.eqb_eq in E. subst. exists v'. split; [reflexivity | now left].
  - destruct Hin as [-> | Hin]; [now rewrite String.eqb_refl in E|].
    destruct (IH Hin) as [v [Hv Hin']]. exists v. split; [exact Hv | now right].
Qed.

Lemma int_table_cell (f : Frame) (r : Row) (k : string) (v : Py) :
  int_table f = true -> In r f -> In (k, v) r -> int64 v = true.
Proof.
  unfold int_table. intros H Hr Hkv.
  rewrite forallb_forall in H. specialize (H r Hr).
  rewrite forallb_forall in H. exact (H (k, v) Hkv).
Qed.

(** In a set of records of 64-bit integers with the same keys, every
    cell of every column is such an integer. *)
Lemma int_column (rows : list Row) (c : string) (r : Row) :
  int_table rows = true -> uniform_keys rows = true ->
  In c (columns rows) -> In r rows ->
  exists v, dict_get c r = Some v /\ int64 v = true.
Proof.
  intros Hint Huni Hc Hr.
  apply columns_In in Hc as [r0 [Hr0 Hk]].
  pose proof (proj1 (uniform_keys_spec rows) Huni r0 r c Hr0 Hr Hk) as Hin.
  destruct (in_keys_dict_get c r Hin) as [v [Hv Hcv]].
  exists v. split; [exact Hv|]. exact (int_table_cell rows r c v Hint Hr Hcv).
Qed.

(** pandas keeps such records as they are, over the columns in the
    order of their first occurrence. *)
Lemma frame_of_records_int (rows : list Row) :
  int_table rows = true -> uniform_keys rows = true ->
  frame_of_records rows = aligned rows.
Proof.
  intros Hint Huni. unfold frame_of_records, aligned.
  apply map_ext_in. intros r Hr. apply map_ext_in. intros c Hc.
  f_equal. unfold stored.
  replace (forallb int64 (column_of c rows)) with true; [reflexivity|].
  symmetry. apply forallb_forall. intros v Hv.
  unfold column_of in Hv. apply in_map_iff in Hv as [r' [<- Hr']].
  destruct (int_column rows c r' Hint Huni Hc Hr') as [v [Hv Hi]].
  unfold cell. now rewrite Hv.
Qed.

Lemma aligned_length (rows : list Row) : List.length (aligned rows) = List.length rows.
Proof. unfold aligned. apply length_map. Qed.

Lemma aligned_keys (rows : list Row) (r' : Row) :
  In r' (aligned rows) -> List.map Datatypes.fst r' = columns rows.
Proof.
  unfold aligned. intros H. apply in_map_iff in H as [r [<- _]].
  rewrite List.map_map. cbn [Datatypes.fst]. apply List.map_id.
Qed.

Lemma aligned_int_table (rows : list Row) :
  int_table rows = true -> uniform_keys rows = true -> int_table (aligned rows) = true.
Proof.
  intros Hint Huni. unfold int_table, aligned.
  apply forallb_forall. intros r' Hr'. apply in_map_iff in Hr' as [r [<- Hr]].
  apply forallb_forall. intros kv Hkv. apply in_map_iff in Hkv as [c [<- Hc]].
  cbn [Datatypes.snd].
  destruct (int_column rows c r Hint Huni Hc Hr) as [v [Hv Hi]].
  unfold cell. now rewrite Hv.
Qed.

(** A cell of a record is the cell of its row. *)
Lemma aligned_nth (rows : list Row) (i : nat) (row : Row) (k : string) (v : Py) :
  nth_error rows i = Some row ->
  dict_get k row = Some v ->
  exists row',
    nth_error (aligned rows) i = Some row' /\ dict_get k row' = Some v.
Proof.
  intros Hi Hk. unfold aligned.
  eexists. split.
  - apply map_nth_error. exact Hi.
  - rewrite (dict_get_tabulate (fun c => cell c row)).
    + unfold cell. now rewrite Hk.
    + apply columns_In. exists row. split.
      * now apply nth_error_In with i.
      * now apply dict_get_in_keys with v.
Qed.

Lemma int_table_app (a b : Frame) :
  int_table (a ++ b)%list = (int_table a && int_table b)%bool.
Proof. unfold int_table. apply forallb_app. Qed.

(** X9.  A request with nothing to remove and [m >= 1] new orders (a
    list of records), where the loaded table has a row and all the
    cells, loaded and new, are 64-bit integers under the same column
    names: the order set returned has the [n] loaded orders first and
    the new ones after them, [n + m] in all, and every cell of a loaded
    or of a new order is in its row.  (When a new order lacks a column
    or holds another kind of value, pandas converts the column, and the
    cells come back as floats.) *)
Theorem append_new_orders (st : Store) (request : list (string * Py))
        (loaded : Frame) (new_orders : list Row) :
  load_transport_data st = inr loaded ->
  no_removal request ->
  dict_get "new_orders" request = Some (PList (List.map PDict new_orders)) ->
  loaded <> [] ->
  new_orders <> [] ->
  int_table (loaded ++ new_orders)%list = true ->
  uniform_keys (loaded ++ new_orders)%list = true ->
  logged_edits_are_dicts request ->
  exists records,
    py_path ["transport_data"] (_modify_data_fn st (PDict request)) = Some (PList records) /\
    List.length records = (List.length loaded + List.length new_orders)%nat /\
    (forall i row k v,
        nth_error loaded i = Some row -> dict_get k row = Some v ->
        exists d, nth_error records i = Some (PDict d) /\ dict_get k d = Some v) /\
    (forall j row k v,
        nth_error new_orders j = Some row -> dict_get k row = Some v ->
        exists d, nth_error records (List.length loaded + j) = Some (PDict d) /\
                  dict_get k d = Some v).
Proof.
  intros Hload Hneeded Hnew Hloaded Hne Hint Huni Hedits. unfold no_removal in Hneeded.
  apply py_path_dict in Hneeded. destruct Hneeded as [tdc [Htdc Hneeded]].
  apply py_path_inv in Hneeded. destruct Hneeded as [changes [ro [-> [Hro Hneeded]]]].
  apply py_path_inv in Hneeded. destruct Hneeded as [remove [nd [-> [Hnd Hneeded]]]].
  simpl in Hneeded. injection Hneeded as ->.
  (* the two tables hold 64-bit integers under the same names *)
  rewrite int_table_app in Hint. apply andb_true_iff in Hint as [Hint1 Hint2].
  pose proof (proj1 (uniform_keys_spec _) Huni) as Hkeys.
  assert (Huni2 : uniform_keys new_orders = true).
  { apply uniform_keys_spec. intros r r' k Hr Hr'.
    apply Hkeys; apply in_or_app; now right. }
  assert (Hcols : forall k, In k (columns new_orders) ->
                            forall r, In r (loaded ++ new_orders)%list ->
                                      In k (List.map Datatypes.fst r)).
  { intros k Hk r Hr. apply columns_In in Hk as [r0 [Hr0 Hk]].
    apply (Hkeys r0 r k); [apply in_or_app; now right | exact Hr | exact Hk]. }
  assert (Hint' : int_table (loaded ++ aligned new_orders)%list = true).
  { rewrite int_table_app, Hint1. now apply aligned_int_table. }
  assert (Huni' : uniform_keys (loaded ++ aligned new_orders)%list = true).
  { apply uniform_keys_spec. intros r r' k Hr Hr' Hk.
    assert (Hall : forall r1, In r1 (loaded ++ new_orders)%list ->
                              In k (List.map Datatypes.fst r1)).
    { apply in_app_or in Hr as [Hr | Hr].
      - intros r1 Hr1. apply (Hkeys r r1 k); [apply in_or_app; now left | exact Hr1 | exact Hk].
      - rewrite (aligned_keys _ _ Hr) in Hk. now apply Hcols. }
    apply in_app_or in Hr' as [Hr' | Hr'].
    - apply Hall. apply in_or_app. now left.
    - rewrite (aligned_keys _ _ Hr'). destruct new_orders as [|r1 rest]; [contradiction|].
      apply columns_In. exists r1. split; [now left|].
      apply Hall. apply in_or_app. right. now left. }
  unfold _modify_data_fn, modify_body.
  rewrite Hload. simpl. rewrite Htdc, Hnew. simpl. rewrite Hro. simpl.
  assert (Hkeep : edit_needed (PDict remove) = inr false).
  { unfold edit_needed. simpl. rewrite Hnd.
    destruct remove; [discriminate|reflexivity]. }
  rewrite Hkeep. simpl.
  assert (Htruthy : match List.map PDict new_orders with [] => false | _ :: _ => true end
                    = true).
  { destruct new_orders; [contradiction|reflexivity]. }
  rewrite Htruthy, as_records_dicts. cbn [and_then ok].
  rewrite (frame_of_records_int new_orders Hint2 Huni2).
  assert (Hconcat : pd_concat loaded (aligned new_orders)
                    = inr (aligned (loaded ++ aligned new_orders)%list)).
  { unfold pd_concat. destruct loaded as [|r0 loaded0] eqn:El; [contradiction|].
    rewrite <- El in *. unfold ok. f_equal. now apply frame_of_records_int. }
  rewrite Hconcat. cbn [and_then py_len ok].
  assert (Hedit : forall key, In key ["modify_service_times"; "modify_time_windows"] ->
                    exists b, edit_needed match dict_get key changes with
                                          | Some v => v
                                          | None => PDict []
                                          end = inr b).
  { intros key Hkey. apply edit_needed_shape.
    destruct (dict_get key changes) as [edit|] eqn:Ek; [|discriminate].
    apply (Hedits key edit Hkey). simpl. rewrite Htdc. simpl. now rewrite Ek. }
  destruct (Hedit "modify_service_times") as [b1 ->]; [now left|].
  destruct (Hedit "modify_time_windows") as [b2 ->]; [right; now left|].
  simpl. eexists. split; [reflexivity|].
  split; [|split].
  - now rewrite length_map, aligned_length, length_app, aligned_length.
  - intros i row k v Hi Hk.
    destruct (aligned_nth (loaded ++ aligned new_orders)%list i row k v)
      as [row' [Hrow' Hcell]]; [|exact Hk|].
    + rewrite nth_error_app1; [exact Hi|]. apply nth_error_Some. congruence.
    + exists row'. split; [|exact Hcell]. now apply map_nth_error.
  - intros j row k v Hj Hk.
    destruct (aligned_nth new_orders j row k v Hj Hk) as [row1 [Hrow1 Hcell1]].
    destruct (aligned_nth (loaded ++ aligned new_orders)%list
                (List.length loaded + j) row1 k v) as [row' [Hrow' Hcell]];
      [|exact Hcell1|].
    + rewrite nth_error_app2 by lia.
      now replace (List.length loaded + j - List.length loaded)%nat with j by lia.
    + exists row'. split; [|exact Hcell]. now apply map_nth_error.
Qed.



(** *** The Problem Builder: errors and invariants *)

Lemma process_rows_fails_at (good : Frame) (bad : Row) (rest : Frame) (e : Exn) :
  Forall coercible good ->
  read_order bad = inl e ->
  forall idx acc,
    process_rows idx (good ++ bad :: rest)%list acc
    = if is_value_or_type_error e
      then throw ValueError ("Invalid data in row "
                             ++ show_nat (idx + List.length good) ++ ": " ++ exn_str e)
      else inl e.
Proof.
  intros Hgood Hbad. induction Hgood as [|row good Hrow _ IH]; intros idx acc.
  - simpl. unfold process_row. rewrite Hbad, Nat.add_0_r.
    now destruct (is_value_or_type_error e).
  - simpl. unfold process_row at 1.
    destruct (read_order_coercible row Hrow) as [o Ho]. rewrite Ho. simpl.
    rewrite IH. now replace (S idx + List.length good)%nat
                      with (idx + S (List.length good))%nat by lia.
Qed.

(** X12.  The rows are those [iterrows] yields for the table pandas
    makes of the records (a None is NaN there, an integer next to a
    float is a float).  When the fields of the first [i] of these rows
    are accepted by [int] and a field of row [i] raises a ValueError or
    a TypeError, the Problem Builder returns the error "Invalid data in
    row i: ..." with the text of that exception; rows after it are not
    looked at. *)
Theorem invalid_row_is_named (input : list (string * Py)) (rows : list Row)
        (good : Frame) (bad : Row) (rest : Frame) (e : Exn) :
  dict_get "transport_data" input = Some (to_records rows) ->
  iterrows (frame_of_records rows) = (good ++ bad :: rest)%list ->
  Forall coercible good ->
  read_order bad = inl e ->
  is_value_or_type_error e = true ->
  _prepare_fn (PDict input)
  = error_dict ("cuOpt preparation failed: Invalid data in row "
                ++ show_nat (List.length good) ++ ": " ++ exn_str e).
Proof.
  intros Htd Hframe Hgood Hbad Hclass.
  unfold _prepare_fn, prepare_body.
  rewrite (transport_frame_records input rows Htd).
  destruct rows as [|r0 rows0] eqn:Erows.
  - destruct good; discriminate.
  - rewrite <- Erows in *. cbn [and_then ok].
    rewrite Hframe, (process_rows_fails_at good bad rest e Hgood Hbad), Hclass.
    reflexivity.
Qed.

Lemma dict_get_not_in_keys {A} (k : string) (d : list (string * A)) :
  ~ In k (List.map Datatypes.fst d) -> dict_get k d = None.
Proof.
  induction d as [|[k' v'] d IH]; simpl; [reflexivity|].
  intros H. destruct (String.eqb k' k) eqn:E.
  - apply String.eqb_eq in E. exfalso. apply H. now left.
  - apply IH. intros Hin. apply H. now right.
Qed.

Lemma dict_get_none_keys {A} (k : string) (d : list (string * A)) :
  dict_get k d = None -> ~ In k (List.map Datatypes.fst d).
Proof.
  induction d as [|[k' v'] d IH]; simpl; [intros _ []|].
  destruct (String.eqb k' k) eqn:E; [discriminate|].
  intros H [Hk | Hin].
  - subst. now rewrite String.eqb_refl in E.
  - now apply IH.
Qed.

(** X13.  When no record of a non-empty order set has the column
    [pickup_location], the error of the Problem Builder is the text of
    the KeyError alone: the inner handler lets a KeyError pass, so the
    message does not name a row. *)
Theorem missing_column_error (input : list (string * Py)) (rows : list Row) :
  dict_get "transport_data" input = Some (to_records rows) ->
  rows <> [] ->
  (forall r, In r rows -> dict_get "pickup_location" r = None) ->
  _prepare_fn (PDict input)
  = error_dict ("cuOpt preparation failed: "
                ++ fault_message (MissingKey "pickup_location")).
Proof.
  intros Htd Hne Hmissing.
  unfold _prepare_fn, prepare_body.
  rewrite (transport_frame_records input rows Htd).
  assert (Hcol : ~ In "pickup_location" (columns rows)).
  { intros Hin. apply columns_In in Hin as [r [Hr Hin]].
    now apply (dict_get_none_keys "pickup_location" r (Hmissing r Hr)). }
  pose proof (iterrows_length (frame_of_records rows)) as Hlen.
  rewrite frame_of_records_length in Hlen.
  pose proof (iterrows_keys (frame_of_records rows)) as Hkeys.
  destruct rows as [|r0 rows0] eqn:Erows; [contradiction|].
  cbn [and_then ok]. rewrite <- Erows in *.
  destruct (iterrows (frame_of_records rows)) as [|row1 others];
    [rewrite Erows in Hlen; discriminate|].
  cbn [and_then ok process_rows].
  unfold process_row, read_order, int_field.
  rewrite dict_get_not_in_keys; [reflexivity|].
  destruct (Hkeys row1 (or_introl eq_refl)) as [r [Hr ->]].
  now rewrite (frame_of_records_keys rows r Hr).
Qed.

(** The loop over the rows, for the time windows and the service
    times. *)
Lemma process_rows_windows (rows : Frame) :
  forall idx acc t,
    process_rows idx rows acc = inr t ->
    exists orders,
      List.length orders = List.length rows /\
      t_locations t = (t_locations acc ++ flat_map pickup_delivery orders)%list /\
      t_demand t = (t_demand acc ++ flat_map plus_minus orders)%list /\
      t_time_windows t = (t_time_windows acc ++ flat_map order_windows orders)%list /\
      t_service_times t = (t_service_times acc ++ flat_map order_services orders)%list /\
      t_pairs t = (t_pairs acc ++ List.map pair_at (seq idx (List.length rows)))%list.
Proof.
  induction rows as [|row rows IH]; intros idx acc t H.
  - simpl in H. injection H as <-. exists []. simpl.
    rewrite !app_nil_r. repeat split.
  - simpl in H. unfold process_row in H.
    destruct (read_order row) as [e | o] eqn:Ho.
    + simpl in H. destruct (is_value_or_type_error e); discriminate.
    + simpl in H. apply IH in H.
      destruct H as (orders & Hlen & Hl & Hd & Hw & Hs & Hp).
      exists (o :: orders). simpl in *.
      rewrite Hl, Hd, Hw, Hs, Hp, Hlen, <- !app_assoc.
      repeat split.
Qed.

(** X14.  In every solver problem the Problem Builder returns, read in
    the dictionary returned: the task locations, the demands (the one
    list inside [demand]), the time windows and the service times have
    the same length, twice the number of pairs; every pair is two
    neighbouring positions inside them; and there are as many
    capacities (in the one list inside [capacities]) and vehicle time
    windows as vehicle locations. *)
Theorem prepare_parallel_lists (input_data : Py) :
  py_path ["error"] (_prepare_fn input_data) = None ->
  exists locations demands windows services pairs vehicles caps vwindows,
    py_path ["task_data"; "task_locations"] (_prepare_fn input_data)
    = Some (PList locations) /\
    py_path ["task_data"; "demand"] (_prepare_fn input_data)
    = Some (PList [PList demands]) /\
    py_path ["task_data"; "task_time_windows"] (_prepare_fn input_data)
    = Some (PList windows) /\
    py_path ["task_data"; "service_times"] (_prepare_fn input_data)
    = Some (PList services) /\
    py_path ["task_data"; "pickup_and_delivery_pairs"] (_prepare_fn input_data)
    = Some (PList pairs) /\
    py_path ["fleet_data"; "vehicle_locations"] (_prepare_fn input_data)
    = Some (PList vehicles) /\
    py_path ["fleet_data"; "capacities"] (_prepare_fn input_data)
    = Some (PList [PList caps]) /\
    py_path ["fleet_data"; "vehicle_time_windows"] (_prepare_fn input_data)
    = Some (PList vwindows) /\
    List.length demands = List.length locations /\
    List.length windows = List.length locations /\
    List.length services = List.length locations /\
    List.length locations = (2 * List.length pairs)%nat /\
    (forall pair, In pair pairs ->
                  exists pickup,
                    pair = PList [PInt pickup; PInt (pickup + 1)] /\
                    0 <= pickup /\ pickup + 1 < Z.of_nat (List.length locations)) /\
    List.length caps = List.length vehicles /\
    List.length vwindows = List.length vehicles.
Proof.
  intros Hout. destruct (prepare_fn_problem _ Hout) as (p & Hp & ->).
  destruct (prepare_body_inv _ _ Hp)
    as (frame & t & fc & nf & cap & m & _ & Ht & _ & _ & _ & _ & ->).
  destruct (process_rows_windows _ _ _ _ Ht)
    as (orders & Hlen & Hl & Hd & Hw & Hs & Hpairs).
  simpl in Hl, Hd, Hw, Hs, Hpairs.
  exists (List.map PInt (flat_map pickup_delivery orders)),
         (List.map PInt (flat_map plus_minus orders)),
         (List.map pair_list (flat_map order_windows orders)),
         (List.map PInt (flat_map order_services orders)),
         (List.map pair_list (List.map pair_at (seq 0 (List.length (iterrows frame))))),
         (List.map pair_list (repeat (0, 0) m)), (repeat cap m),
         (List.map pair_list (repeat (0, 100) m)).
  split; [cbn [py_path cuopt_input_dict dict_get task_locations]; unfold ints;
          now rewrite Hl|].
  split; [cbn [py_path cuopt_input_dict dict_get demand]; unfold ints; now rewrite Hd|].
  split; [cbn [py_path cuopt_input_dict dict_get task_time_windows]; unfold pairs;
          now rewrite Hw|].
  split; [cbn [py_path cuopt_input_dict dict_get service_times]; unfold ints;
          now rewrite Hs|].
  split; [cbn [py_path cuopt_input_dict dict_get pickup_and_delivery_pairs];
          unfold pairs; now rewrite Hpairs|].
  split; [reflexivity|]. split; [reflexivity|]. split; [reflexivity|].
  rewrite !length_map, !repeat_length, length_seq, <- Hlen.
  rewrite !flat_map_pairs_length by reflexivity.
  split; [reflexivity|]. split; [reflexivity|]. split; [reflexivity|].
  split; [reflexivity|].
  split; [|split; reflexivity].
  intros pair Hin. apply in_map_iff in Hin as [pr [<- Hin]].
  apply in_map_iff in Hin as [i [<- Hin]]. apply in_seq in Hin.
  exists (2 * Z.of_nat i). split; [reflexivity|]. lia.
Qed.

(** X15.  The Problem Builder returns a solver problem only for an
    input dictionary whose [transport_data] is a non-empty list: for
    any other input (no dictionary, no such key, None, an empty list, a
    string, a number, a dictionary) what it returns is an error. *)
Theorem prepare_needs_order_list (input_data : Py) (p : SolverProblem) :
  prepare_body input_data = inr p ->
  exists input first others,
    input_data = PDict input /\
    dict_get "transport_data" input = Some (PList (first :: others)).
Proof.
  intros Hp.
  destruct (prepare_body_inv _ _ Hp)
    as (frame & t & fc & nf & cap & m & Hframe & _).
  unfold transport_frame in Hframe.
  step Hframe transport_data Htd.
  destruct input_data as [| | | | | |input]; try discriminate.
  simpl in Htd. injection Htd as Htd.
  step Hframe missing Hmissing.
  destruct missing; [discriminate|].
  destruct transport_data as [| | | | | l |]; try discriminate.
  destruct l as [|first others]; [discriminate|].
  exists input, first, others. split; [reflexivity|].
  destruct (dict_get "transport_data" input); [now subst | discriminate].
Qed.

(** X16.  When [modify_fleet_size.needed] is true and [new_size] is
    absent or is not an integer ([None], a string, a float), the
    Problem Builder returns an error: the default of 4 vehicles is not
    used in its place. *)
Theorem fleet_override_needs_integer (input_data needed : Py) :
  py_path ["fleet_changes"; "modify_fleet_size"; "needed"] input_data = Some needed ->
  truthy needed = true ->
  (forall new_size n,
      py_path ["fleet_changes"; "modify_fleet_size"; "new_size"] input_data = Some new_size ->
      py_count new_size <> inr n) ->
  exists msg, _prepare_fn input_data = error_dict ("cuOpt preparation failed: " ++ msg).
Proof.
  intros Hneeded Ht Hbad. unfold _prepare_fn.
  destruct (prepare_body input_data) as [e | p] eqn:Hp.
  - now exists (exn_str e).
  - exfalso.
    destruct (prepare_body_inv _ _ Hp)
      as (frame & t & fc & nf & cap & m & _ & _ & Hfc & Hnf & _ & Hm & _).
    destruct input_data as [| | | | | |input]; try discriminate.
    destruct (fleet_setting_spec _ _ _ _ _ _ Hfc Hnf) as [_ Hsize].
    apply (Hbad nf m); [now apply Hsize with needed | exact Hm].
Qed.

(** X17.  A fleet size that is zero or negative is not rejected.  For
    an order set whose fields [int] accepts and a change of the fleet
    size to an integer [z <= 0] (and no change of the capacity), the
    Problem Builder returns a solver problem, and in it the vehicle
    locations and the vehicle time windows are empty and [capacities]
    holds one empty list. *)
Theorem fleet_override_not_positive (input : list (string * Py)) (rows : list Row)
        (fleet_changes change : list (string * Py)) (needed : Py) (z : Z) :
  dict_get "transport_data" input = Some (to_records rows) ->
  rows <> [] ->
  Forall coercible (iterrows (frame_of_records rows)) ->
  dict_get "fleet_changes" input = Some (PDict fleet_changes) ->
  dict_get "modify_fleet_size" fleet_changes = Some (PDict change) ->
  dict_get "needed" change = Some needed ->
  truthy needed = true ->
  dict_get "new_size" change = Some (PInt z) ->
  z <= 0 ->
  dict_get "modify_capacity" fleet_changes = None ->
  py_path ["error"] (_prepare_fn (PDict input)) = None /\
  py_path ["fleet_data"; "vehicle_locations"] (_prepare_fn (PDict input))
  = Some (PList []) /\
  py_path ["fleet_data"; "capacities"] (_prepare_fn (PDict input))
  = Some (PList [PList []]) /\
  py_path ["fleet_data"; "vehicle_time_windows"] (_prepare_fn (PDict input))
  = Some (PList []).
Proof.
  intros Htd Hne Hco Hfc Hsize Hneeded Ht Hnew Hz Hcap.
  assert (Hbody : exists t,
             prepare_body (PDict input)
             = inr {| task_locations := t_locations t;
                      demand := t_demand t;
                      task_time_windows := t_time_windows t;
                      service_times := t_service_times t;
                      pickup_and_delivery_pairs := t_pairs t;
                      vehicle_locations := [];
                      capacities := [];
                      vehicle_time_windows := [] |}).
  { unfold prepare_body.
    rewrite (transport_frame_records input rows Htd).
    destruct rows as [|r0 rows0] eqn:Erows; [contradiction|].
    cbn [and_then ok]. rewrite <- Erows in *.
    destruct (process_rows_coercible _ Hco 0%nat no_tasks) as [t Ht'].
    exists t. rewrite Ht'. cbn [and_then py_get ok]. rewrite Hfc.
    unfold fleet_setting. cbn [py_get and_then ok py_getitem].
    rewrite Hsize. cbn [py_get and_then ok py_getitem].
    rewrite Hneeded, Ht, Hnew, Hcap. cbn [py_get and_then ok dict_get truthy py_count].
    now replace (Z.to_nat z) with 0%nat by lia. }
  destruct Hbody as [t Hbody]. unfold _prepare_fn. rewrite Hbody.
  repeat split.
Qed.

(** X18.  The waypoint graph is well formed as compressed sparse rows
    over the nine locations: ten offsets from 0 to the number of edges,
    never decreasing, as many weights as edges; every edge leads to one
    of the nine locations, not to its own source, at a positive weight.
    The weights are symmetric, and every storage site (1 to 4) has an
    edge to every truck (5 to 8). *)
Theorem waypoint_graph_well_formed :
  List.length (graph_list "offsets") = 10%nat /\
  nth 0 (graph_list "offsets") 0 = 0 /\
  nth 9 (graph_list "offsets") 0 = Z.of_nat (List.length (graph_list "edges")) /\
  List.length (graph_list "weights") = List.length (graph_list "edges") /\
  (forall u, (u < 9)%nat ->
             nth u (graph_list "offsets") 0 <= nth (S u) (graph_list "offsets") 0) /\
  (forall u v w, (u < 9)%nat -> In (v, w) (out_edges u) ->
                 0 <= v < 9 /\ v <> Z.of_nat u /\ 0 < w) /\
  (forall u v, (u < 9)%nat -> (v < 9)%nat -> edge_weight u v = edge_weight v u) /\
  (forall u v, (1 <= u <= 4)%nat -> (5 <= v <= 8)%nat ->
               exists w, edge_weight u v = Some w).
Proof.
  split; [reflexivity|]. split; [reflexivity|]. split; [reflexivity|].
  split; [reflexivity|]. split; [|split; [|split]].
  - intros u Hu.
    do 9 (destruct u as [|u]; [vm_compute; discriminate|]). lia.
  - intros u v w Hu Hin.
    do 9 (destruct u as [|u];
          [vm_compute in Hin;
           repeat (destruct Hin as [Hin | Hin];
                   [injection Hin as <- <-; lia|]);
           contradiction|]).
    lia.
  - intros u v Hu Hv.
    do 9 (destruct u as [|u];
          [do 9 (destruct v as [|v]; [reflexivity|]); lia|]).
    lia.
  - intros u v Hu Hv.
    destruct u as [|u]; [lia|].
    do 4 (destruct u as [|u];
          [do 5 (destruct v as [|v]; [lia|]);
           do 4 (destruct v as [|v]; [eexists; reflexivity|]); lia|]).
    lia.
Qed.

(** *** The Solver Gateway: what a solution holds *)

Lemma skipn_cons_nth {A} (d : A) (l : list A) :
  forall n, (n < List.length l)%nat -> skipn n l = nth n l d :: skipn (S n) l.
Proof.
  induction l as [|a l IH]; intros n Hn; [simpl in Hn; lia|].
  destruct n as [|n]; [reflexivity|].
  simpl in Hn. cbn [skipn nth]. apply IH. lia.
Qed.

(** The loop over a route from the counter [count] on: the steps added
    are the texts of the kept steps, in the order of the route. *)
Lemma typed_steps_spec (route : list Z) (type : list string) :
  forall count steps out,
    typed_steps route type count steps = inr out ->
    exists added,
      out = (steps ++ added)%list /\
      Forall2 readable_step (kept_steps route (skipn count type)) added.
Proof.
  induction route as [|loc rest IH]; intros count steps out H.
  - simpl in H. injection H as <-. exists []. rewrite app_nil_r.
    split; [reflexivity|]. unfold kept_steps. constructor.
  - cbn [typed_steps] in H.
    destruct (count <? List.length type)%nat eqn:Hlt.
    + apply Nat.ltb_lt in Hlt.
      rewrite (skipn_cons_nth "" type count Hlt).
      unfold kept_steps. cbn [combine filter Datatypes.snd].
      destruct (String.eqb (nth count type "") "w") eqn:Hw; cbn [andb negb] in H |- *.
      * cbn [and_then ok] in H. now apply IH in H.
      * destruct (readable_map loc) as [name|] eqn:Hname; [|discriminate].
        cbn [and_then ok] in H. apply IH in H.
        destruct H as [added [-> HF]].
        exists (String.append (nth count type "") name :: added).
        split; [now rewrite <- app_assoc|].
        constructor; [|exact HF]. now exists name.
    + cbn [andb and_then ok] in H. apply IH in H.
      destruct H as [added [-> HF]]. exists added. split; [reflexivity|].
      apply Nat.ltb_ge in Hlt.
      rewrite skipn_all2 in * by lia.
      unfold kept_steps in *. now destruct rest.
Qed.

Lemma Forall2_in_left {A B} (R : A -> B -> Prop) (l : list A) (l' : list B) (x : A) :
  Forall2 R l l' -> In x l -> exists y, In y l' /\ R x y.
Proof.
  induction 1 as [|a b l l' Hab _ IH]; intros Hin; [contradiction|].
  destruct Hin as [<- | Hin].
  - exists b. split; [now left | exact Hab].
  - destruct (IH Hin) as [y [Hy HR]]. exists y. split; [now right | exact HR].
Qed.

(** X20.  In a solution the gateway returns, the readable route of a
    vehicle of the documented shape (a route of integers, tags that
    are strings) lists, in the order of the route, the steps that have
    a tag other than 'w', each as the tag followed by the name of the
    location; locations without a tag (a route longer than the tags) and
    tags without a location are left out.  Every location of such a
    step is one of the nine known ones. *)
Theorem readable_route_steps (config : CuoptSolverConfig) (input_data : Py)
        (sol : Solution) (raw : Py) (vehicles : list (string * Py)) (v : string)
        (vehicle : Py) (vd : VehicleData) :
  Leaf (Solved sol raw) (_solve_fn config input_data) ->
  sol_vehicle_data sol = PDict vehicles ->
  NoDup (List.map Datatypes.fst vehicles) ->
  dict_get v vehicles = Some vehicle ->
  vehicle_of vehicle = Some vd ->
  exists steps,
    dict_get v (readable_routes sol) = Some steps /\
    Forall2 readable_step (kept_steps (route vd) (type vd)) steps /\
    (forall loc tag, In (loc, tag) (kept_steps (route vd) (type vd)) -> 0 <= loc <= 8).
Proof.
  intros Hleaf Hdata Hnd Hv Hvd.
  destruct (solved_route _ _ _ _ _ _ _ _ Hleaf Hdata Hnd Hv Hvd) as [steps [Hget Hsteps]].
  apply typed_steps_spec in Hsteps. destruct Hsteps as [added [-> HF]].
  cbn [skipn app] in *. exists added. split; [exact Hget|]. split; [exact HF|].
  intros loc tag Hin.
  destruct (Forall2_in_left _ _ _ _ HF Hin) as [text [_ [name [Hname _]]]].
  simpl in Hname.
  destruct loc as [|pos|pos]; [lia| |discriminate].
  do 8 (destruct pos as [pos|pos|]; try discriminate; try lia).
Qed.

(** *** The Solver Gateway: runs against a scripted server *)

Lemma serve_get (script : list HttpOutcome) (log : list Request)
      (url : string) (headers : Headers) :
  interp_state serve (ITree.trigger (HttpGet url headers)) (script, log)
  ≈ Ret ((Datatypes.snd (next_outcome script), log ++ [ReqGet url headers])%list,
         Datatypes.fst (next_outcome script)).
Proof.
  rewrite interp_state_trigger. cbn. destruct (next_outcome script). reflexivity.
Qed.

Lemma serve_post (script : list HttpOutcome) (log : list Request)
      (url : string) (headers : Headers) (json : Py) :
  interp_state serve (ITree.trigger (HttpPost url headers json)) (script, log)
  ≈ Ret ((Datatypes.snd (next_outcome script), log ++ [ReqPost url headers json])%list,
         Datatypes.fst (next_outcome script)).
Proof.
  rewrite interp_state_trigger. cbn. destruct (next_outcome script). reflexivity.
Qed.

Lemma serve_sleep (script : list HttpOutcome) (log : list Request) (seconds : Z) :
  interp_state serve (ITree.trigger (Sleep seconds)) (script, log)
  ≈ Ret ((script, log ++ [ReqSleep seconds])%list, tt).
Proof. rewrite interp_state_trigger. cbn. reflexivity. Qed.

(** The polling loop on a chain of accepted responses: one GET and one
    sleep for each, and the last response at the end. *)
Lemma poll_loop (headers : Headers) (rs : list HttpResponse) :
  forall r0 log,
    accepted_chain r0 rs ->
    interp_state serve (ITree.iter (poll headers) r0) (List.map HttpReply rs, log)
    ≈ Ret (([], log ++ poll_requests headers r0 rs)%list, inr (final_response r0 rs)).
Proof.
  induction rs as [|r1 rs IH]; intros r0 log Hchain.
  - simpl in Hchain. apply Z.eqb_neq in Hchain.
    rewrite unfold_iter. unfold poll. rewrite Hchain.
    rewrite bind_ret_l, interp_state_ret. simpl. now rewrite app_nil_r.
  - destruct Hchain as [H202 [[request_id Hid] Hchain]].
    apply Z.eqb_eq in H202.
    rewrite unfold_iter. unfold poll at 1. rewrite H202, Hid.
    rewrite !bind_bind, interp_state_bind, serve_get. cbn [List.map next_outcome].
    rewrite bind_ret_l. cbn.
    rewrite !bind_bind, interp_state_bind, serve_sleep, bind_ret_l. cbn.
    rewrite !bind_ret_l, interp_state_tau, tau_eutt.
    rewrite (IH r1 _ Hchain). rewrite Hid, <- !app_assoc. reflexivity.
Qed.

(** X21.  A run against a server that answers 202 with a request id any
    number of times and then with another status: the gateway posts the
    problem once to the invoke address, with the bearer token and the
    action "cuOpt_OptimizedRouting"; for each 202 it asks once for the
    status of that request and sleeps one second; then it stops, and
    what it returns is read from the last response. *)
Theorem polling_run (config : CuoptSolverConfig) (input_data cuopt_input : Py)
        (api_key : string) (r0 : HttpResponse) (rs : list HttpResponse) :
  check_input config input_data = inr (Submit api_key cuopt_input) ->
  accepted_chain r0 rs ->
  interp_state serve (_solve_fn config input_data) (List.map HttpReply (r0 :: rs), [])
  ≈ Ret (([],
          ReqPost CUOPT_INVOKE_URL
            [ ("Authorization", "Bearer " ++ api_key);
              ("Accept", "application/json");
              ("Content-Type", "application/json") ]
            (PDict [("action", PStr "cuOpt_OptimizedRouting"); ("data", cuopt_input)])
            :: poll_requests (request_headers api_key) r0 rs),
         solver_result (read_response (final_response r0 rs))).
Proof.
  intros Hcheck Hchain. unfold _solve_fn. rewrite Hcheck.
  rewrite interp_state_bind, serve_post. cbn [List.map next_outcome].
  rewrite bind_ret_l. cbn.
  rewrite interp_state_bind, (poll_loop _ rs r0 _ Hchain), bind_ret_l.
  rewrite interp_state_ret. reflexivity.
Qed.

(** X22.  A failure of a request ends the run at once.  When the POST
    raises, nothing follows it.  When the answer is 202 without the
    header NVCF-REQID, no status is asked for.  When a GET raises, no
    sleep follows it.  Each time the gateway returns an error that
    starts with "Error in CuOpt solver: ", and no solution. *)
Theorem request_failures (config : CuoptSolverConfig) (input_data cuopt_input : Py)
        (api_key : string) (script : list HttpOutcome) :
  check_input config input_data = inr (Submit api_key cuopt_input) ->
  let post := ReqPost CUOPT_INVOKE_URL (request_headers api_key)
                      (request_payload cuopt_input) in
  (forall e,
      interp_state serve (_solve_fn config input_data) (HttpRaises e :: script, [])
      ≈ Ret ((script, [post]),
             SolveError (PStr ("Error in CuOpt solver: " ++ exn_str e)))) /\
  (forall r0,
      status_code r0 = 202 -> nvcf_reqid r0 = None ->
      interp_state serve (_solve_fn config input_data) (HttpReply r0 :: script, [])
      ≈ Ret ((script, [post]),
             SolveError (PStr ("Error in CuOpt solver: " ++ fault_message ConcatNone)))) /\
  (forall r0 request_id e,
      status_code r0 = 202 -> nvcf_reqid r0 = Some request_id ->
      interp_state serve (_solve_fn config input_data)
        (HttpReply r0 :: HttpRaises e :: script, [])
      ≈ Ret ((script,
              [post; ReqGet (CUOPT_STATUS_URL ++ request_id) (request_headers api_key)]),
             SolveError (PStr ("Error in CuOpt solver: " ++ exn_str e)))).
Proof.
  intros Hcheck post. unfold _solve_fn. rewrite Hcheck.
  split; [|split].
  - intros e. rewrite interp_state_bind, serve_post. cbn [next_outcome].
    rewrite bind_ret_l. cbn. rewrite interp_state_ret. reflexivity.
  - intros r0 H202 Hid. apply Z.eqb_eq in H202.
    rewrite interp_state_bind, serve_post. cbn [next_outcome].
    rewrite bind_ret_l. cbn.
    rewrite unfold_iter. unfold poll. rewrite H202, Hid.
    rewrite !bind_ret_l, interp_state_ret. reflexivity.
  - intros r0 request_id e H202 Hid. apply Z.eqb_eq in H202.
    rewrite interp_state_bind, serve_post. cbn [next_outcome].
    rewrite bind_ret_l. cbn.
    rewrite unfold_iter. unfold poll. rewrite H202, Hid.
    rewrite !bind_bind, interp_state_bind, serve_get. cbn [next_outcome].
    rewrite bind_ret_l. cbn.
    rewrite !bind_ret_l, interp_state_ret. reflexivity.
Qed.

(** X19.  In a run against a server that answers 202 with a request id
    any number of times and then with another status: when the gateway
    returns a solution, the last response has a status that
    [raise_for_status] accepts, its body is the raw response of the
    result, that body has the nesting [response.solver_response], a
    dictionary, and the status, the cost and the vehicle data of the
    solution are what [.get] gives on that dictionary (None, None and
    an empty dictionary when the key is absent). *)
Theorem solution_is_the_reply (config : CuoptSolverConfig) (input_data cuopt_input : Py)
        (api_key : string) (r0 : HttpResponse) (rs : list HttpResponse)
        (server : Server) (sol : Solution) (raw : Py) :
  check_input config input_data = inr (Submit api_key cuopt_input) ->
  accepted_chain r0 rs ->
  interp_state serve (_solve_fn config input_data) (List.map HttpReply (r0 :: rs), [])
  ≈ Ret (server, Solved sol raw) ->
  ~ error_status (status_code (final_response r0 rs)) /\
  body (final_response r0 rs) = BodyJson raw /\
  exists sr,
    py_path ["response"; "solver_response"] raw = Some (PDict sr) /\
    sol_status sol = match dict_get "status" sr with Some v => v | None => PNone end /\
    sol_solution_cost sol
    = match dict_get "solution_cost" sr with Some v => v | None => PNone end /\
    sol_vehicle_data sol
    = match dict_get "vehicle_data" sr with Some v => v | None => PDict [] end.
Proof.
  intros Hcheck Hchain Hrun.
  assert (Hlast : interp_state serve (_solve_fn config input_data)
                    (List.map HttpReply (r0 :: rs), [])
                  ≈ Ret (([], ReqPost CUOPT_INVOKE_URL (request_headers api_key)
                                (request_payload cuopt_input)
                              :: poll_requests (request_headers api_key) r0 rs),
                         solver_result (read_response (final_response r0 rs)))).
  { unfold _solve_fn. rewrite Hcheck.
    rewrite interp_state_bind, serve_post. cbn [List.map next_outcome].
    rewrite bind_ret_l. cbn.
    rewrite interp_state_bind, (poll_loop _ rs r0 _ Hchain), bind_ret_l.
    rewrite interp_state_ret. reflexivity. }
  rewrite Hlast in Hrun.
  apply eutt_inv_Ret in Hrun. injection Hrun as _ Hresult.
  destruct (read_response (final_response r0 rs)) as [e | result] eqn:Hread;
    [discriminate|].
  cbn [solver_result] in Hresult. subst result.
  destruct (read_response_inv _ _ _ Hread) as (Hstatus & Hbody & Hreply).
  destruct (process_reply_inv _ _ _ Hreply) as (_ & sr & Hsr & H1 & H2 & H3 & _).
  split; [exact Hstatus|]. split; [exact Hbody|].
  exists sr. repeat split; assumption.
Qed.

(** *** The response text *)

Lemma prefix_refl (s : string) : prefix s s = true.
Proof.
  induction s as [|c s IH]; [reflexivity|].
  cbn [prefix]. destruct (ascii_dec c c) as [_ | Hc]; [exact IH | now elim Hc].
Qed.

Lemma contains_refl (s : string) : contains s s = true.
Proof. destruct s; cbn [contains]; now rewrite prefix_refl. Qed.

Lemma prefix_app_r (n x y : string) : prefix n x = true -> prefix n (x ++ y) = true.
Proof.
  revert n. induction x as [|c x IH]; intros [|a n] H.
  - now destruct y.
  - discriminate H.
  - reflexivity.
  - change (String c x ++ y) with (String c (x ++ y)).
    cbn [prefix] in *. destruct (ascii_dec a c); [now apply IH | discriminate H].
Qed.

Lemma contains_app_l (n x y : string) :
  contains n x = true -> contains n (x ++ y) = true.
Proof.
  induction x as [|c x IH]; cbn [contains]; intros H.
  - rewrite orb_false_r in H. apply (prefix_app_r _ _ y) in H.
    change ("" ++ y) with y in *. destruct y; cbn [contains]; now rewrite H.
  - change (String c x ++ y) with (String c (x ++ y)). cbn [contains].
    apply orb_true_iff in H as [H | H].
    + apply (prefix_app_r _ _ y) in H.
      change (String c x ++ y) with (String c (x ++ y)) in H. now rewrite H.
    + rewrite (IH H). apply orb_true_r.
Qed.

Lemma contains_app_r (n x y : string) :
  contains n y = true -> contains n (x ++ y) = true.
Proof.
  intros H. induction x as [|c x IH]; [exact H|].
  change (String c x ++ y) with (String c (x ++ y)). cbn [contains].
  rewrite IH. apply orb_true_r.
Qed.

Lemma added_contains (n t : string) (texts : list string) :
  In t texts -> contains n t = true -> contains n (added texts) = true.
Proof.
  intros Hin Hn. induction texts as [|a texts IH]; [destruct Hin|].
  change (added (a :: texts)) with (a ++ added texts).
  destruct Hin as [-> | Hin].
  - now apply contains_app_l.
  - apply contains_app_r. now apply IH.
Qed.

(** The parts a formatted response is made of. *)
Lemma format_response_inv (result : QueryResult) (text : string) :
  format_response result = inr text ->
  exists solution_part visualization_part,
    match res_solution result with
    | Some sol => solution_text sol
    | None => ok ""
    end = inr solution_part /\
    text = solution_part ++ errors_text (res_errors result) ++ visualization_part.
Proof.
  unfold format_response. intros H.
  step H solution_part Hs. step H visualization_part Hv.
  injection H as <-. now exists solution_part, visualization_part.
Qed.

(** X23.  When the response is formatted without an exception, every
    error of the result is a line of it: a dash, the error as [str]
    gives it, a newline. *)
Theorem response_lists_errors (result : QueryResult) (text : string) (error : Py) :
  format_response result = inr text ->
  In error (res_errors result) ->
  contains ("- " ++ format_value error ++ newline) text = true.
Proof.
  intros H Hin. apply format_response_inv in H as (sp & vp & _ & ->).
  apply contains_app_r, contains_app_l. unfold errors_text.
  destruct (res_errors result) as [|e0 errors] eqn:E; [destruct Hin|].
  do 3 apply contains_app_r.
  apply (added_contains _ (error_line error)); [|apply contains_refl].
  now apply in_map.
Qed.

Lemma route_lines_contains (routes : list (string * list string)) (lines : string)
      (v : string) (route : list string) :
  route_lines routes = inr lines -> In (v, route) routes ->
  exists n, py_int (PStr v) = inr n /\ contains (route_line n route) lines = true.
Proof.
  revert lines. induction routes as [|[v0 r0] routes IH]; intros lines H Hin;
    [destruct Hin|].
  cbn [route_lines] in H. step H n Hn. step H more Hmore.
  assert (lines = route_line n r0 ++ more) as -> by (unfold ok in H; congruence).
  destruct Hin as [Heq | Hin].
  - injection Heq as <- <-. exists n. split; [exact Hn|].
    apply contains_app_l, contains_refl.
  - destruct (IH more Hmore Hin) as (m & Hm & Hc). exists m. split; [exact Hm|].
    now apply contains_app_r.
Qed.

(** X24.  When the response is formatted without an exception for a
    result with a solution, it has the line of the total cost, and for
    every readable route a line "- Forklift N: a → b → ..." where N is
    the vehicle id read as an integer, plus one. *)
Theorem response_shows_solution (result : QueryResult) (text : string)
        (sol : Solution) :
  format_response result = inr text ->
  res_solution result = Some sol ->
  contains ("- Total Cost: " ++ format_value (sol_solution_cost sol) ++ newline) text
  = true /\
  forall v route, In (v, route) (readable_routes sol) ->
    exists n, py_int (PStr v) = inr n /\
      contains ("- Forklift " ++ show_Z (n + 1) ++ ": "
                ++ String.concat " → " route ++ newline) text = true.
Proof.
  intros H Hsol. apply format_response_inv in H as (sp & vp & Hs & ->).
  rewrite Hsol in Hs. unfold solution_text in Hs. step Hs lines Hl.
  unfold ok in Hs. apply (f_equal (fun r => match r with inr t => t | inl _ => sp end)) in Hs.
  cbv beta iota in Hs. subst sp. split.
  - apply contains_app_l. do 2 apply contains_app_r.
    match goal with
    | |- contains ?n (?a ++ ?b ++ ?c ++ ?rest) = true =>
        replace (a ++ b ++ c ++ rest) with (n ++ rest)
          by now rewrite !string_app_assoc
    end.
    apply contains_app_l, contains_refl.
  - intros v route Hin.
    destruct (route_lines_contains _ _ _ _ Hl Hin) as (n & Hn & Hc).
    exists n. split; [exact Hn|].
    apply contains_app_l. do 8 apply contains_app_r. exact Hc.
Qed.
Lemma route_lines_fails (good rest : list (string * list string)) (v : string)
      (route : list string) (e : Exn) :
  Forall (fun r => exists n, py_int (PStr (Datatypes.fst r)) = inr n) good ->
  py_int (PStr v) = inl e ->
  route_lines (good ++ (v, route) :: rest) = inl e.
Proof.
  intros Hgood Hv. induction Hgood as [|[v0 r0] good [n Hn] _ IH].
  - cbn [app route_lines]. now rewrite Hv.
  - cbn [app route_lines]. cbn [Datatypes.fst] in Hn. rewrite Hn, IH. reflexivity.
Qed.

(** X25.  The number of a forklift is [int] of its vehicle id.  When a
    readable route has an id that [int] rejects, and the ids before it
    are accepted, the whole answer is "Error processing query: " and the
    message of that exception: solution, errors and charts are not
    shown. *)
Theorem response_rejects_vehicle_id (result : QueryResult) (sol : Solution)
        (good rest : list (string * list string)) (v : string) (route : list string)
        (e : Exn) :
  res_solution result = Some sol ->
  readable_routes sol = (good ++ (v, route) :: rest)%list ->
  Forall (fun r => exists n, py_int (PStr (Datatypes.fst r)) = inr n) good ->
  py_int (PStr v) = inl e ->
  response_text result = "Error processing query: " ++ exn_str e.
Proof.
  intros Hsol Hroutes Hgood Hv.
  unfold response_text, format_response. rewrite Hsol.
  unfold solution_text. rewrite Hroutes, (route_lines_fails _ _ _ _ _ Hgood Hv).
  reflexivity.
Qed.

Lemma insert_by_key_perm (x : Z * string) (l : list (Z * string)) :
  Permutation (insert_by_key x l) (x :: l).
Proof.
  induction l as [|y t IH]; cbn [insert_by_key]; [apply Permutation_refl|].
  destruct (Datatypes.fst x <=? Datatypes.fst y); [apply Permutation_refl|].
  apply Permutation_trans with (y :: x :: t);
    [now apply perm_skip | apply perm_swap].
Qed.

Lemma insert_by_key_sorted (x : Z * string) (l : list (Z * string)) :
  StronglySorted by_key l -> StronglySorted by_key (insert_by_key x l).
Proof.
  induction l as [|y t IH]; cbn [insert_by_key]; intros H.
  - constructor; [constructor | constructor].
  - apply StronglySorted_inv in H as [Ht Hy].
    destruct (Datatypes.fst x <=? Datatypes.fst y) eqn:E.
    + apply Z.leb_le in E. constructor; [now constructor|].
      constructor; [exact E|].
      eapply Forall_impl; [|exact Hy]. unfold by_key. intros; lia.
    + apply Z.leb_gt in E. constructor; [now apply IH|].
      apply (Permutation_Forall (Permutation_sym (insert_by_key_perm x t))).
      constructor; [unfold by_key; lia | exact Hy].
Qed.

Lemma sort_by_key_spec (l : list (Z * string)) :
  Permutation (sort_by_key l) l /\ StronglySorted by_key (sort_by_key l).
Proof.
  induction l as [|x l [IHp IHs]]; cbn [sort_by_key fold_right].
  - split; constructor.
  - split; [|now apply insert_by_key_sorted].
    apply Permutation_trans with (x :: sort_by_key l);
      [apply insert_by_key_perm | now apply perm_skip].
Qed.

Lemma with_keys_spec (ids : list string) (keyed : list (Z * string)) :
  with_keys ids = inr keyed ->
  List.map Datatypes.snd keyed = ids /\
  Forall (fun p => py_int (PStr (Datatypes.snd p)) = inr (Datatypes.fst p)) keyed.
Proof.
  revert keyed. induction ids as [|vehicle_id ids IH]; intros keyed H;
    cbn [with_keys] in H.
  - injection H as <-. split; constructor.
  - step H n Hn. step H more Hmore. injection H as <-.
    destruct (IH more Hmore) as [Hids Hall]. split.
    + cbn [List.map Datatypes.snd]. now rewrite Hids.
    + constructor; [exact Hn | exact Hall].
Qed.

(** X26.  The pictures of the routes are attached in the order of
    [sorted(vehicle_data.keys(), key=lambda x: int(x))]: when [int]
    accepts every vehicle id, that order holds each id once, each with
    its number, and the numbers never decrease. *)
Theorem network_images_order (ids : list string) (sorted : list (Z * string)) :
  sorted_vehicle_ids ids = inr sorted ->
  Permutation (List.map Datatypes.snd sorted) ids /\
  StronglySorted by_key sorted /\
  Forall (fun p => py_int (PStr (Datatypes.snd p)) = inr (Datatypes.fst p)) sorted.
Proof.
  unfold sorted_vehicle_ids. intros H. step H keyed Hkeyed. injection H as <-.
  destruct (with_keys_spec _ _ Hkeyed) as [Hids Hall].
  destruct (sort_by_key_spec keyed) as [Hperm Hsorted].
  split; [|split].
  - rewrite <- Hids. now apply Permutation_map.
  - exact Hsorted.
  - exact (Permutation_Forall (Permutation_sym Hperm) Hall).
Qed.

(** X27.  What [process_query] can return.  The query type is always
    "route_optimization".  Either the gateway returned a solution, which
    is the solution of the result, and the only error there can be is a
    failed drawing; or the gateway returned an error, the result has no
    solution, and that error is the first one, followed at most by a
    failed drawing.  The timestamp of the charts is there only when
    drawing is enabled, and is then the one of this run. *)
Theorem query_result_shape (config : AgentConfig) (st : Store) (q : string)
        (result : QueryResult) :
  Leaf result (process_query config st q) ->
  res_query_type result = "route_optimization" /\
  ((exists sol raw,
       Leaf (Solved sol raw)
            (_solve_fn {| cuopt_api_key := agent_cuopt_api_key config |}
                       (_prepare_fn (_modify_data_fn st (_analyze_fn q)))) /\
       res_solution result = Some sol /\
       (res_errors result = [] \/
        exists e, res_errors result = [e] /\ visualization_failure e)) \/
   (exists error,
       Leaf (SolveError error)
            (_solve_fn {| cuopt_api_key := agent_cuopt_api_key config |}
                       (_prepare_fn (_modify_data_fn st (_analyze_fn q)))) /\
       res_solution result = None /\
       (res_errors result = [error] \/
        exists e, res_errors result = [error; e] /\ visualization_failure e))) /\
  (res_visualization_timestamp result = None \/
   visualization_enabled config = true /\
   res_visualization_timestamp result = Some timestamp).
Proof.
  unfold process_query. intros H.
  apply Leaf_bind_inv in H as (r & Hr & H). apply Leaf_Ret_inv in H. subst result.
  unfold finish_query, create_visualizations, visualization_failure.
  destruct r as [error | sol raw].
  - split; [|split].
    + destruct (visualization_enabled config); [|reflexivity].
      now destruct (visualize_factory_state _ _).
    + right. exists error. split; [exact Hr|].
      destruct (visualization_enabled config); [|split; [reflexivity | now left]].
      destruct (visualize_factory_state _ _) as [exn|];
        (split; [reflexivity|]); [right | now left].
      exists (PStr ("Visualization failed: " ++ exn_str exn)).
      split; [reflexivity | now exists (exn_str exn)].
    + destruct (visualization_enabled config); [|now left].
      destruct (visualize_factory_state _ _); [now left | right; now split].
  - split; [|split].
    + destruct (visualization_enabled config); [|reflexivity].
      now destruct (visualize_factory_state _ _).
    + left. exists sol, raw. split; [exact Hr|].
      destruct (visualization_enabled config); [|split; [reflexivity | now left]].
      destruct (visualize_factory_state _ _) as [exn|];
        (split; [reflexivity|]); [right | now left].
      exists (PStr ("Visualization failed: " ++ exn_str exn)).
      split; [reflexivity | now exists (exn_str exn)].
    + destruct (visualization_enabled config); [|now left].
      destruct (visualize_factory_state _ _); [now left | right; now split].
Qed.

(** X28.  Without an API key and with drawing disabled, the answer of
    the agent to any query is the heading of the errors and the line of
    the missing key, and no HTTP request is made for it. *)
Theorem response_without_api_key (config : AgentConfig) (st : Store) (q : string) :
  agent_cuopt_api_key config = "" ->
  environ_api_key = "" ->
  visualization_enabled config = false ->
  _response_fn config st q
  ≅ Ret (newline ++ "**Errors:**" ++ newline ++ "- " ++ no_api_key_error ++ newline).
Proof.
  intros Hkey Henv Hviz. unfold _response_fn, process_query, _solve_fn.
  rewrite check_input_no_key; [|exact Hkey | exact Henv].
  cbn [and_then throw]. rewrite !bind_ret_l.
  unfold finish_query. rewrite Hviz. reflexivity.
Qed.
End Pipeline.

(** ** Instances *)

Lemma fallback_two_forklifts_witness :
  llm_unavailable "use 2 forklifts" = LlmRaises (Raise OtherException "Connection error.")
  /\ py_path ["fleet_changes"; "modify_fleet_size"]
       (_analyze_fn sample_fault_message ascii_only_lower llm_unavailable json_rejects
           "use 2 forklifts")
     = Some (PDict [("needed", PBool true); ("new_size", PInt 2)]).
Proof.
  split; [reflexivity|].
  apply (fallback_two_forklifts sample_fault_message ascii_only_lower llm_unavailable
      json_rejects
           (Raise OtherException "Connection error.")).
  reflexivity.
Defined.

Lemma default_orders_coercible : Forall (coercible int_of_integer) default_transport_data.
Proof.
  unfold default_transport_data, frame_of_columns. simpl.
  repeat (apply Forall_cons;
          [intros k Hk; simpl in Hk;
           repeat (destruct Hk as [<- | Hk];
                   [do 2 eexists; split; reflexivity|]);
           contradiction|]).
  apply Forall_nil.
Qed.

Lemma default_orders_iterated :
  iterrows keep_row (frame_of_records keep_objects default_transport_data)
  = default_transport_data.
Proof. vm_compute. reflexivity. Qed.



Lemma modify_noop_row_count_witness :
  exists records,
    py_path ["transport_data"]
      (_modify_data_fn sample_fault_message ascii_only_chars pandas_rejects drop_rejects
          keep_objects
    concat_rows no_csv
         (PDict noop_request)) = Some (PList records) /\
    List.length records = 9%nat.
Proof.
  destruct (modify_noop_row_count sample_fault_message ascii_only_chars pandas_rejects
      drop_rejects keep_objects
    concat_rows
              no_csv noop_request default_transport_data
              eq_refl eq_refl (or_intror eq_refl)) as [Hcount Hsome].
  match type of Hsome with
  | _ -> ?C =>
      assert (Hex : C)
        by (apply Hsome; intros k edit [<- | [<- | []]] Hedit; discriminate)
  end.
  destruct Hex as [records Hrecords].
  exists records. split; [exact Hrecords|]. exact (Hcount records Hrecords).
Defined.

Lemma solve_without_api_key_witness :
  exists msg,
    _solve_fn sample_fault_message ascii_only_chars str_of_value None loop_fails {|
        cuopt_api_key := "" |}
      (cuopt_input_dict
         {| task_locations := []; demand := []; task_time_windows := [];
            service_times := []; pickup_and_delivery_pairs := [];
            vehicle_locations := []; capacities := []; vehicle_time_windows := [] |})
    = Ret (SolveError (PStr msg)) /\
    contains "No API key provided" msg = true.
Proof.
  apply solve_without_api_key; [reflexivity | now left].
Defined.

Lemma solve_upstream_error_witness :
  _solve_fn sample_fault_message ascii_only_chars str_of_value None loop_fails {|
      cuopt_api_key := "nvapi-0" |}
    (error_dict missing_data_error)
  = Ret (SolveError (PStr missing_data_error)) /\
  _solve_fn sample_fault_message ascii_only_chars str_of_value (Some "") loop_fails {|
      cuopt_api_key := "" |}
    (error_dict missing_data_error)
  = Ret (SolveError (PStr no_api_key_error)).
Proof.
  split.
  - apply (solve_upstream_error sample_fault_message ascii_only_chars str_of_value None
      loop_fails {| cuopt_api_key := "nvapi-0" |}
             (error_dict missing_data_error) [("error", PStr missing_data_error)]
             (PStr missing_data_error) eq_refl eq_refl).
    left. discriminate.
  - apply (solve_upstream_error sample_fault_message ascii_only_chars str_of_value (Some "")
      loop_fails {| cuopt_api_key := "" |}
             (error_dict missing_data_error) [("error", PStr missing_data_error)]
             (PStr missing_data_error) eq_refl eq_refl); reflexivity.
Defined.

Lemma modifier_failure_stops_pipeline_witness :
  _prepare_fn sample_fault_message ascii_only_chars pandas_rejects keep_objects keep_row
    int_of_integer
    (_modify_data_fn sample_fault_message ascii_only_chars pandas_rejects drop_rejects
        keep_objects
    concat_rows unreadable_csv
       (PDict noop_request))
  = error_dict missing_data_error.
Proof.
  apply (modifier_failure_stops_pipeline sample_fault_message ascii_only_lower
      ascii_only_chars llm_unavailable json_rejects
    pandas_rejects drop_rejects keep_objects concat_rows keep_row int_of_integer str_of_value
    None loop_fails charts_drawn sample_timestamp
           unreadable_csv (PDict noop_request)
           (Raise OtherException "No columns to parse from file") eq_refl).
Defined.

Lemma empty_order_set_error_witness :
  exists result,
    process_query sample_fault_message ascii_only_lower ascii_only_chars llm_unavailable
        json_rejects
    pandas_rejects drop_rejects keep_objects concat_rows keep_row int_of_integer str_of_value
    (Some "nvapi-0") loop_fails charts_drawn sample_timestamp
      {| agent_cuopt_api_key := ""; visualization_enabled := true |}
      empty_csv "optimize the routes"
    ≅ Ret result /\
    In (PStr missing_data_error) (res_errors result).
Proof.
  refine (proj1 (proj2
            (empty_order_set_error sample_fault_message ascii_only_lower ascii_only_chars
                llm_unavailable json_rejects
    pandas_rejects drop_rejects keep_objects concat_rows keep_row int_of_integer str_of_value
    (Some "nvapi-0") loop_fails charts_drawn sample_timestamp
               empty_order_set
               (or_intror (or_intror eq_refl))))
            _ empty_csv "optimize the routes" eq_refl _).
  right. discriminate.
Defined.

(** With no API key, the run on a CSV file without rows ends with the
    error of the missing key alone: the error of the Problem Builder is
    not in the list. *)
Lemma empty_order_set_error_masked :
  missing_or_empty empty_order_set /\
  _modify_data_fn sample_fault_message ascii_only_chars pandas_rejects drop_rejects keep_objects
    concat_rows empty_csv
    (_analyze_fn sample_fault_message ascii_only_lower llm_unavailable json_rejects
        "optimize the routes")
  = PDict empty_order_set /\
  _prepare_fn sample_fault_message ascii_only_chars pandas_rejects keep_objects keep_row
    int_of_integer (PDict empty_order_set)
  = error_dict missing_data_error /\
  process_query sample_fault_message ascii_only_lower ascii_only_chars llm_unavailable
      json_rejects
    pandas_rejects drop_rejects keep_objects concat_rows keep_row int_of_integer str_of_value
    None loop_fails charts_drawn sample_timestamp
    {| agent_cuopt_api_key := ""; visualization_enabled := true |}
    empty_csv "optimize the routes"
  ≅ Ret masked_result /\
  ~ In (PStr missing_data_error) (res_errors masked_result).
Proof.
  split; [right; right; reflexivity|].
  split; [reflexivity|]. split; [reflexivity|]. split.
  - apply (process_query_leaf sample_fault_message ascii_only_lower ascii_only_chars
      llm_unavailable json_rejects
    pandas_rejects drop_rejects keep_objects concat_rows keep_row int_of_integer str_of_value
    None loop_fails charts_drawn sample_timestamp
             {| agent_cuopt_api_key := ""; visualization_enabled := true |}
             empty_csv "optimize the routes" (SolveError (PStr no_api_key_error))).
    reflexivity.
  - simpl. intros [H | []]. discriminate.
Qed.


Lemma sample_run_solved :
  Leaf (Solved sample_solution sample_reply)
       (_solve_fn sample_fault_message ascii_only_chars str_of_value None loop_fails
    {| cuopt_api_key := "nvapi-0" |} sample_problem).
Proof.
  unfold _solve_fn. simpl.
  apply Leaf_bind with (b := HttpReply accepted_response).
  - unfold ITree.trigger.
    apply Leaf_Vis with (x := HttpReply accepted_response). apply Leaf_Ret.
  - cbn beta iota.
    apply Leaf_bind with (b := inr solved_response).
    + (* the first response is 202: one poll, one second of sleep *)
      rewrite unfold_iter. unfold poll at 1. simpl. rewrite bind_bind.
      apply Leaf_bind with (b := HttpReply solved_response).
      * unfold ITree.trigger.
        apply Leaf_Vis with (x := HttpReply solved_response). apply Leaf_Ret.
      * cbn beta iota. rewrite bind_bind.
        apply Leaf_bind with (b := tt).
        -- unfold ITree.trigger. apply Leaf_Vis with (x := tt). apply Leaf_Ret.
        -- rewrite bind_ret_l. apply Leaf_Tau.
           (* the second response is 200: the loop ends *)
           rewrite unfold_iter. unfold poll. simpl. rewrite bind_ret_l.
           apply Leaf_Ret.
    + change (solver_result
                (let* response := inr solved_response in
                 read_response sample_fault_message ascii_only_chars str_of_value loop_fails
                   response))
        with (Solved sample_solution sample_reply).
      apply Leaf_Ret.
Qed.

Lemma readable_route_length_witness :
  exists steps,
    dict_get "0" (readable_routes sample_solution) = Some steps /\
    List.length steps = 4%nat.
Proof.
  apply (readable_route_length sample_fault_message ascii_only_chars str_of_value None
      loop_fails
    {| cuopt_api_key := "nvapi-0" |} sample_problem sample_solution sample_reply
           [("0", sample_vehicle_json)] "0" sample_vehicle_json sample_vehicle
           sample_run_solved eq_refl).
  - constructor; [intros [] | constructor].
  - reflexivity.
  - reflexivity.
  - reflexivity.
Defined.


Lemma fallback_reads_substring_witness :
  lower ascii_only_lower "Please Use 2 Forklifts today" = "please use " ++ "2 forklifts" ++
      " today" /\
  py_path ["fleet_changes"; "modify_fleet_size"]
    (create_default_analysis sample_fault_message ascii_only_lower
        "Please Use 2 Forklifts today")
  = Some (PDict [("needed", PBool true); ("new_size", PInt 2)]).
Proof.
  split; [reflexivity|].
  apply (fallback_reads_substring sample_fault_message ascii_only_lower
      "Please Use 2 Forklifts today"
           "please use " " today").
  reflexivity.
Defined.

Lemma fallback_keeps_orders_witness :
  exists fleet_changes,
    _modify_data_fn sample_fault_message ascii_only_chars pandas_rejects drop_rejects
        keep_objects
    concat_rows no_csv
      (_analyze_fn sample_fault_message ascii_only_lower llm_unavailable json_rejects
          "use 2 forklifts")
    = PDict [ ("transport_data", to_records default_transport_data);
              ("fleet_changes", fleet_changes);
              ("query_type", PStr "route_optimization") ].
Proof.
  apply (fallback_keeps_orders sample_fault_message ascii_only_lower ascii_only_chars
      llm_unavailable json_rejects
    pandas_rejects drop_rejects keep_objects concat_rows no_csv "use 2 forklifts"
           (Raise OtherException "Connection error.") default_transport_data);
    reflexivity.
Defined.

Lemma brace_extraction_witness :
  slice wrapped_answer (find "{" wrapped_answer) (rfind "}" wrapped_answer + 1) = "{}" /\
  parse_analysis sample_fault_message ascii_only_lower json_object_only "optimize the routes"
      wrapped_answer
  = inr (PDict []).
Proof.
  apply (brace_extraction sample_fault_message ascii_only_lower json_object_only
      "optimize the routes"
           wrapped_answer "Here it is: " "" " Done."
           (Raise ValueError "Expecting value: line 1 column 1 (char 0)") (PDict []));
    reflexivity.
Defined.

Lemma remove_one_order_witness :
  exists records,
    py_path ["transport_data"]
      (_modify_data_fn sample_fault_message ascii_only_chars pandas_rejects drop_rejects
          keep_objects
    concat_rows no_csv
         (PDict (removal_of [2]))) = Some (PList records) /\
    List.length records = 8%nat.
Proof.
  destruct (remove_one_order sample_fault_message ascii_only_chars pandas_rejects drop_rejects
      keep_objects
    concat_rows no_csv
              (removal_of [2]) default_transport_data 2%nat eq_refl)
    as (records & Hrecords & _ & Hlen).
  - vm_compute. lia.
  - exists [("remove_orders",
              PDict [("needed", PBool true); ("order_indices", PList [PInt 2])])],
           [("needed", PBool true); ("order_indices", PList [PInt 2])], (PBool true).
    repeat split.
  - now left.
  - intros k edit [<- | [<- | []]] Hedit; discriminate.
  - exists records. split; [exact Hrecords|].
    change (List.length default_transport_data) with 9%nat in Hlen. lia.
Defined.

Lemma remove_out_of_range_witness :
  _modify_data_fn sample_fault_message ascii_only_chars pandas_rejects drop_rejects keep_objects
    concat_rows no_csv
    (PDict (removal_of [2; 9]))
  = error_dict ("Data modification failed: " ++ sample_fault_message (LabelsNotFound [9])).
Proof.
  apply (remove_out_of_range sample_fault_message ascii_only_chars pandas_rejects drop_rejects
      keep_objects
    concat_rows no_csv
           (removal_of [2; 9]) default_transport_data [2; 9] 9 eq_refl).
  - exists [("remove_orders",
              PDict [("needed", PBool true); ("order_indices", PList [PInt 2; PInt 9])])],
           [("needed", PBool true); ("order_indices", PList [PInt 2; PInt 9])],
           (PBool true).
    repeat split.
  - right. now left.
  - change (Z.of_nat (List.length default_transport_data)) with 9. lia.
Defined.

Lemma append_new_orders_witness :
  exists records,
    py_path ["transport_data"]
      (_modify_data_fn sample_fault_message ascii_only_chars pandas_rejects drop_rejects
          keep_objects
    concat_rows no_csv
         (PDict addition_request)) = Some (PList records) /\
    List.length records = 10%nat /\
    exists d, nth_error records 9 = Some (PDict d) /\
              dict_get "delivery_location" d = Some (PInt 5).
Proof.
  destruct (append_new_orders sample_fault_message ascii_only_chars pandas_rejects
      drop_rejects keep_objects
    concat_rows no_csv
              addition_request default_transport_data [sample_order]
              eq_refl eq_refl eq_refl)
    as (records & Hrecords & Hlen & _ & Hnew).
  - discriminate.
  - discriminate.
  - vm_compute. reflexivity.
  - vm_compute. reflexivity.
  - intros k edit [<- | [<- | []]] Hedit; discriminate.
  - exists records. split; [exact Hrecords|]. split; [exact Hlen|].
    exact (Hnew 0%nat sample_order "delivery_location" (PInt 5) eq_refl eq_refl).
Defined.



Lemma invalid_row_is_named_witness :
  _prepare_fn sample_fault_message ascii_only_chars pandas_rejects keep_objects keep_row
      int_of_text
    (PDict [("transport_data", to_records [sample_order; text_order])])
  = error_dict
      ("cuOpt preparation failed: Invalid data in row 1: "
       ++ "invalid literal for int() with base 10").
Proof.
  apply (invalid_row_is_named sample_fault_message ascii_only_chars pandas_rejects
      keep_objects keep_row int_of_text
           [("transport_data", to_records [sample_order; text_order])]
           [sample_order; text_order] [sample_order] text_order []
           (Raise ValueError "invalid literal for int() with base 10")
           eq_refl eq_refl).
  - constructor; [|constructor].
    intros k Hk. simpl in Hk.
    repeat (destruct Hk as [<- | Hk]; [do 2 eexists; split; reflexivity|]).
    contradiction.
  - reflexivity.
  - reflexivity.
Defined.

Lemma missing_column_error_witness :
  _prepare_fn sample_fault_message ascii_only_chars pandas_rejects keep_objects keep_row
    int_of_integer
    (PDict [("transport_data", to_records [[("order_demand", PInt 1)]])])
  = error_dict ("cuOpt preparation failed: "
                ++ sample_fault_message (MissingKey "pickup_location")).
Proof.
  apply (missing_column_error sample_fault_message ascii_only_chars pandas_rejects
      keep_objects keep_row
    int_of_integer
           [("transport_data", to_records [[("order_demand", PInt 1)]])]
           [[("order_demand", PInt 1)]] eq_refl).
  - discriminate.
  - intros r [<- | []]. reflexivity.
Defined.

Lemma prepare_parallel_lists_witness :
  exists locations demands pairs,
    py_path ["task_data"; "task_locations"]
      (_prepare_fn sample_fault_message ascii_only_chars pandas_rejects keep_objects keep_row
          int_of_integer two_forklift_input)
    = Some (PList locations) /\
    py_path ["task_data"; "demand"]
      (_prepare_fn sample_fault_message ascii_only_chars pandas_rejects keep_objects keep_row
          int_of_integer two_forklift_input)
    = Some (PList [PList demands]) /\
    py_path ["task_data"; "pickup_and_delivery_pairs"]
      (_prepare_fn sample_fault_message ascii_only_chars pandas_rejects keep_objects keep_row
          int_of_integer two_forklift_input)
    = Some (PList pairs) /\
    List.length demands = List.length locations /\
    List.length locations = (2 * List.length pairs)%nat.
Proof.
  destruct (prepare_parallel_lists sample_fault_message ascii_only_chars pandas_rejects
      keep_objects keep_row int_of_integer two_forklift_input)
    as (locations & demands & windows & services & pairs & vehicles & caps & vwindows
        & H1 & H2 & _ & _ & H5 & _ & _ & _ & Hdemand & _ & _ & Hpairs & _).
  - vm_compute. reflexivity.
  - exists locations, demands, pairs.
    split; [exact H1|]. split; [exact H2|]. split; [exact H5|].
    split; [exact Hdemand | exact Hpairs].
Defined.

Lemma prepare_needs_order_list_witness :
  exists p input first others,
    prepare_body sample_fault_message ascii_only_chars pandas_rejects keep_objects keep_row
    int_of_integer two_forklift_input
    = inr p /\
    two_forklift_input = PDict input /\
    dict_get "transport_data" input = Some (PList (first :: others)).
Proof.
  destruct (prepare_body sample_fault_message ascii_only_chars pandas_rejects keep_objects
      keep_row
    int_of_integer
              two_forklift_input) as [e | p] eqn:E;
    [vm_compute in E; discriminate|].
  destruct (prepare_needs_order_list sample_fault_message ascii_only_chars pandas_rejects
      keep_objects keep_row
    int_of_integer
              two_forklift_input p E) as (input & first & others & Hinput & Hdata).
  exists p, input, first, others. split; [reflexivity|].
  split; [exact Hinput | exact Hdata].
Defined.

Lemma fleet_override_needs_integer_witness :
  exists msg,
    _prepare_fn sample_fault_message ascii_only_chars pandas_rejects keep_objects keep_row
    int_of_integer text_fleet_input
    = error_dict ("cuOpt preparation failed: " ++ msg).
Proof.
  apply (fleet_override_needs_integer sample_fault_message ascii_only_chars pandas_rejects
      keep_objects keep_row
    int_of_integer
           text_fleet_input (PBool true) eq_refl eq_refl).
  intros new_size n Hsize Hcount.
  change (Some (PStr "two") = Some new_size) in Hsize.
  injection Hsize as <-. discriminate Hcount.
Defined.

Lemma fleet_override_not_positive_witness :
  py_path ["error"]
    (_prepare_fn sample_fault_message ascii_only_chars pandas_rejects keep_objects keep_row
        int_of_integer zero_fleet_input) = None /\
  py_path ["fleet_data"; "vehicle_locations"]
    (_prepare_fn sample_fault_message ascii_only_chars pandas_rejects keep_objects keep_row
        int_of_integer zero_fleet_input) = Some (PList []) /\
  py_path ["fleet_data"; "capacities"]
    (_prepare_fn sample_fault_message ascii_only_chars pandas_rejects keep_objects keep_row
        int_of_integer zero_fleet_input) = Some (PList [PList []]) /\
  py_path ["fleet_data"; "vehicle_time_windows"]
    (_prepare_fn sample_fault_message ascii_only_chars pandas_rejects keep_objects keep_row
        int_of_integer zero_fleet_input) = Some (PList []).
Proof.
  apply (fleet_override_not_positive sample_fault_message ascii_only_chars pandas_rejects
      keep_objects keep_row int_of_integer
           [ ("transport_data", to_records default_transport_data);
             ("fleet_changes",
               PDict [("modify_fleet_size",
                        PDict [("needed", PBool true); ("new_size", PInt 0)])]) ]
           default_transport_data
           [("modify_fleet_size", PDict [("needed", PBool true); ("new_size", PInt 0)])]
           [("needed", PBool true); ("new_size", PInt 0)]
           (PBool true) 0 eq_refl).
  - discriminate.
  - rewrite default_orders_iterated. exact default_orders_coercible.
  - reflexivity.
  - reflexivity.
  - reflexivity.
  - reflexivity.
  - reflexivity.
  - lia.
  - reflexivity.
Defined.

Lemma solution_is_the_reply_witness :
  ~ error_status (status_code (final_response accepted_response [solved_response])) /\
  body (final_response accepted_response [solved_response]) = BodyJson sample_reply /\
  exists sr,
    py_path ["response"; "solver_response"] sample_reply = Some (PDict sr) /\
    sol_status sample_solution
    = match dict_get "status" sr with Some v => v | None => PNone end /\
    sol_solution_cost sample_solution
    = match dict_get "solution_cost" sr with Some v => v | None => PNone end /\
    sol_vehicle_data sample_solution
    = match dict_get "vehicle_data" sr with Some v => v | None => PDict [] end.
Proof.
  assert (Hchain : accepted_chain accepted_response [solved_response]).
  { split; [reflexivity|]. split; [now exists "req-1" | discriminate]. }
  apply (solution_is_the_reply sample_fault_message ascii_only_chars str_of_value None
      loop_fails
    {| cuopt_api_key := "nvapi-0" |}
           sample_problem sample_problem "nvapi-0" accepted_response [solved_response]
           ([], ReqPost CUOPT_INVOKE_URL (request_headers "nvapi-0")
                  (request_payload sample_problem)
                :: poll_requests (request_headers "nvapi-0") accepted_response
                     [solved_response])
           sample_solution sample_reply eq_refl Hchain).
  unfold _solve_fn.
  change (check_input sample_fault_message None {| cuopt_api_key := "nvapi-0" |}
            sample_problem)
    with (@inr Exn Checked (Submit "nvapi-0" sample_problem)).
  cbv beta iota.
  rewrite interp_state_bind, serve_post. cbn [List.map next_outcome].
  rewrite bind_ret_l. cbn.
  rewrite interp_state_bind.
  rewrite (poll_loop sample_fault_message (request_headers "nvapi-0") [solved_response]
             accepted_response _ Hchain).
  rewrite bind_ret_l, interp_state_ret. reflexivity.
Defined.

Lemma readable_route_steps_witness :
  exists steps,
    dict_get "0" (readable_routes sample_solution) = Some steps /\
    Forall2 readable_step (kept_steps (route sample_vehicle) (type sample_vehicle)) steps /\
    forall loc tag,
      In (loc, tag) (kept_steps (route sample_vehicle) (type sample_vehicle)) ->
      0 <= loc <= 8.
Proof.
  apply (readable_route_steps sample_fault_message ascii_only_chars str_of_value None loop_fails
    {| cuopt_api_key := "nvapi-0" |} sample_problem sample_solution sample_reply
           [("0", sample_vehicle_json)] "0" sample_vehicle_json sample_vehicle
           sample_run_solved eq_refl).
  - constructor; [intros [] | constructor].
  - reflexivity.
  - reflexivity.
Defined.

Lemma polling_run_witness :
  interp_state serve
    (_solve_fn sample_fault_message ascii_only_chars str_of_value None loop_fails {|
        cuopt_api_key := "nvapi-0" |} sample_problem)
    (List.map HttpReply [accepted_response; solved_response], [])
  ≈ Ret ([],
         ReqPost CUOPT_INVOKE_URL
           [("Authorization", "Bearer " ++ "nvapi-0");
            ("Accept", "application/json"); ("Content-Type", "application/json")]
           (PDict [("action", PStr "cuOpt_OptimizedRouting"); ("data", sample_problem)])
         :: poll_requests (request_headers "nvapi-0") accepted_response [solved_response],
         solver_result
           (read_response sample_fault_message ascii_only_chars str_of_value loop_fails
              (final_response accepted_response [solved_response]))).
Proof.
  apply (polling_run sample_fault_message ascii_only_chars str_of_value None loop_fails {|
      cuopt_api_key := "nvapi-0" |}
           sample_problem sample_problem "nvapi-0" accepted_response [solved_response]
           eq_refl).
  split; [reflexivity|]. split; [now exists "req-1" | discriminate].
Defined.

Lemma request_failures_witness :
  interp_state serve
    (_solve_fn sample_fault_message ascii_only_chars str_of_value None loop_fails {|
        cuopt_api_key := "nvapi-0" |} sample_problem)
    ([HttpRaises connection_refused], [])
  ≈ Ret ([],
         [ReqPost CUOPT_INVOKE_URL (request_headers "nvapi-0")
            (request_payload sample_problem)],
         SolveError (PStr ("Error in CuOpt solver: " ++ exn_str connection_refused))).
Proof.
  exact (proj1 (request_failures sample_fault_message ascii_only_chars str_of_value None
                  loop_fails {| cuopt_api_key := "nvapi-0" |} sample_problem sample_problem
                  "nvapi-0" [] eq_refl)
           connection_refused).
Defined.

Lemma response_lists_errors_witness :
  exists text,
    format_response sample_fault_message int_of_text str_of_value "optimization_results"
        no_chart_files
      masked_result = inr text /\
    contains ("- " ++ "Error in CuOpt solver: No API key provided for NVIDIA CuOpt"
              ++ newline) text = true.
Proof.
  destruct (format_response sample_fault_message int_of_text str_of_value "optimization_results"
              no_chart_files masked_result) as [e | text] eqn:E;
    [vm_compute in E; discriminate|].
  exists text. split; [reflexivity|].
  apply (response_lists_errors sample_fault_message int_of_text str_of_value
      "optimization_results"
           no_chart_files masked_result text
           (PStr "Error in CuOpt solver: No API key provided for NVIDIA CuOpt") E).
  now left.
Defined.

Lemma response_shows_solution_witness :
  exists text,
    format_response sample_fault_message int_of_text str_of_value "optimization_results"
        no_chart_files
      solved_result = inr text /\
    contains ("- Total Cost: " ++ "6" ++ newline) text = true /\
    contains ("- Forklift " ++ "1" ++ ": "
              ++ String.concat " → "
                   ["Depot: Forklift"; "Pickup: Insulation"; "Delivery: Truck 1";
                    "Depot: Forklift"]
              ++ newline) text = true.
Proof.
  destruct (format_response sample_fault_message int_of_text str_of_value "optimization_results"
              no_chart_files solved_result) as [e | text] eqn:E;
    [vm_compute in E; discriminate|].
  exists text. split; [reflexivity|].
  destruct (response_shows_solution sample_fault_message int_of_text str_of_value
      "optimization_results"
              no_chart_files solved_result text sample_solution E eq_refl)
    as [Hcost Hroutes].
  split; [exact Hcost|].
  destruct (Hroutes "0" ["Depot: Forklift"; "Pickup: Insulation"; "Delivery: Truck 1";
                         "Depot: Forklift"] (or_introl eq_refl)) as (n & Hn & Hline).
  assert (n = 0) as -> by (vm_compute in Hn; congruence).
  exact Hline.
Defined.

Lemma response_rejects_vehicle_id_witness :
  response_text sample_fault_message int_of_text str_of_value "optimization_results"
      no_chart_files
    named_vehicle_result
  = "Error processing query: " ++ "invalid literal for int() with base 10".
Proof.
  apply (response_rejects_vehicle_id sample_fault_message int_of_text str_of_value
      "optimization_results"
           no_chart_files named_vehicle_result named_vehicle_solution [] [] "first"
           ["Depot: Forklift"; "Pickup: Insulation"; "Delivery: Truck 1";
            "Depot: Forklift"]
           (Raise ValueError "invalid literal for int() with base 10")
           eq_refl eq_refl (Forall_nil _) eq_refl).
Defined.

Lemma network_images_order_witness :
  exists sorted,
    sorted_vehicle_ids int_of_text ["10"; "2"; "1"] = inr sorted /\
    Permutation (List.map Datatypes.snd sorted) ["10"; "2"; "1"] /\
    StronglySorted by_key sorted.
Proof.
  destruct (sorted_vehicle_ids int_of_text ["10"; "2"; "1"]) as [e | sorted] eqn:E;
    [vm_compute in E; discriminate|].
  exists sorted. split; [reflexivity|].
  destruct (network_images_order int_of_text ["10"; "2"; "1"] sorted E)
    as (Hperm & Hsorted & _).
  split; [exact Hperm | exact Hsorted].
Defined.

Lemma query_result_shape_witness :
  res_query_type masked_result = "route_optimization" /\
  (res_visualization_timestamp masked_result = None \/
   visualization_enabled {| agent_cuopt_api_key := ""; visualization_enabled := true |}
   = true /\
   res_visualization_timestamp masked_result = Some sample_timestamp).
Proof.
  destruct (query_result_shape sample_fault_message ascii_only_lower ascii_only_chars
      llm_unavailable json_rejects
    pandas_rejects drop_rejects keep_objects concat_rows keep_row int_of_integer str_of_value
    None loop_fails charts_drawn sample_timestamp
              {| agent_cuopt_api_key := ""; visualization_enabled := true |}
              empty_csv "optimize the routes" masked_result)
    as (Htype & _ & Htime).
  - unfold process_query.
    apply Leaf_bind with (b := SolveError (PStr no_api_key_error)); apply Leaf_Ret.
  - split; [exact Htype | exact Htime].
Defined.

Lemma response_without_api_key_witness :
  _response_fn sample_fault_message ascii_only_lower ascii_only_chars llm_unavailable
      json_rejects
    pandas_rejects drop_rejects keep_objects concat_rows keep_row int_of_integer str_of_value
    None loop_fails charts_drawn sample_timestamp
    "optimization_results" no_chart_files
    {| agent_cuopt_api_key := ""; visualization_enabled := false |}
    empty_csv "optimize the routes"
  ≅ Ret (newline ++ "**Errors:**" ++ newline ++ "- " ++ no_api_key_error ++ newline).
Proof.
  apply (response_without_api_key sample_fault_message ascii_only_lower ascii_only_chars
      llm_unavailable json_rejects
    pandas_rejects drop_rejects keep_objects concat_rows keep_row int_of_integer str_of_value
    None loop_fails charts_drawn sample_timestamp
           "optimization_results" no_chart_files
           {| agent_cuopt_api_key := ""; visualization_enabled := false |}
           empty_csv "optimize the routes");
    reflexivity.
Defined.
